(** * NES: activation specifiers, velocity models and collocation samplers

    A shallow embedding of [NES/baseLayers.py] and [NES/misc.py].

    Conventions of the embedding.
    - A Python [str] is a Rocq [string] that holds the bytes of its UTF-8
      encoding.
    - A Python [float] whose value a claim depends on bit by bit (the degree
      read from a text, the regular count of the sampler) is a binary64
      number, computed with its rounding.  The entries of arrays and
      tensors are real numbers [R], and the arithmetic on them is not
      rounded.
    - Where objects share arrays (the grid interpolator and the SciPy
      interpolators it builds), an array is a reference into a memory of
      arrays, and a write in place is seen by every holder of the
      reference.  Elsewhere an array is its contents.
    - A raised exception is the [Raise] case of [result]; code that assigns
      attributes before it raises returns the updated object next to the
      [Raise].
    - Functions of TensorFlow, NumPy and SciPy are modelled by their
      mathematical definition where the embedding computes with them, and
      are parameters of a [Section] where only the control flow around them
      matters. *)

From Stdlib Require Import Reals Lra Lia ZArith QArith List String Ascii Bool SpecFloat.
Import ListNotations.

(** ** Exceptions and results *)

Inductive exn : Type :=
| AssertionError
| KeyError (key : string)
| ValueError
| IndexError
| AttributeError
| TypeError
| OverflowError
| AxisError.

Inductive result (A : Type) : Type :=
| Ok (a : A)
| Raise (e : exn).
Arguments Ok {A} a.
Arguments Raise {A} e.

Definition bind {A B : Type} (r : result A) (k : A -> result B) : result B :=
  match r with
  | Ok a => k a
  | Raise e => Raise e
  end.

Notation "x <- r ;; k" := (bind r (fun x => k))
  (at level 61, r at next level, right associativity).

Definition returns {A : Type} (r : result A) : bool :=
  match r with Ok _ => true | Raise _ => false end.

(** A method that reads and assigns attributes of [self]: it maps the object
    to the object it leaves behind and to what it returns or raises. *)
Definition method (S A : Type) : Type := S -> S * result A.

Definition ret {S A : Type} (a : A) : method S A := fun s => (s, Ok a).

Definition raise {S A : Type} (e : exn) : method S A := fun s => (s, Raise e).

Definition lift {S A : Type} (r : result A) : method S A := fun s => (s, r).

Definition get {S : Type} : method S S := fun s => (s, Ok s).

Definition modify {S : Type} (f : S -> S) : method S unit := fun s => (f s, Ok tt).

Definition mbind {S A B : Type} (m : method S A) (k : A -> method S B) : method S B :=
  fun s =>
    match m s with
    | (s', Ok a) => k a s'
    | (s', Raise e) => (s', Raise e)
    end.

Notation "x <~ m ;; k" := (mbind m (fun x => k))
  (at level 61, m at next level, right associativity).
Notation "m ;;; k" := (mbind m (fun _ => k))
  (at level 61, right associativity).

(** [if cond: body] for a body that returns nothing. *)
Definition when {S : Type} (cond : bool) (body : method S unit) : method S unit :=
  if cond then body else ret tt.

(** [if self.attr is None: self.attr = fresh]: the attribute afterwards,
    when computing [fresh] may raise. *)
Definition cached {A : Type} (old : option A) (fresh : result A) : option A :=
  match old with
  | Some v => Some v
  | None => match fresh with Ok v => Some v | Raise _ => None end
  end.

Definition is_None {A : Type} (o : option A) : bool :=
  match o with None => true | Some _ => false end.

(** What a computation on Python floats gives when a division of two of
    them can meet a zero divisor, which raises [ZeroDivisionError]. *)
Inductive or_zero_division (A : Type) : Type :=
| Finished (a : A)
| ZeroDivisionError.
Arguments Finished {A} a.
Arguments ZeroDivisionError {A}.

(** ** Python floats

    A Python [float] is a binary64 number of IEEE 754.  Where a claim
    depends on how a float is rounded, the embedding computes with the
    reference model of the standard in Rocq's library ([SpecFloat], with a
    precision of 53 bits and exponents below 1024), whose operations round
    to nearest, ties to even. *)

Module binary64.

Definition t : Type := spec_float.

Definition prec : Z := 53.
Definition emax : Z := 1024.

(** The float nearest to an integer; beyond the largest float, infinity. *)
Definition of_Z (n : Z) : t := binary_normalize prec emax n 0 false.

(** The float nearest to the quotient [p / q] of two integers: the value of
    a decimal literal such as [0.7], which is [7 / 10]. *)
Definition of_quotient (p : N) (q : positive) : t :=
  match p with
  | N0 => S754_zero false
  | Npos p => SFdiv prec emax (S754_finite false p 0) (S754_finite false q 0)
  end.

Definition one : t := of_Z 1.

Definition opp : t -> t := SFopp.
Definition mul : t -> t -> t := SFmul prec emax.
Definition sqrt : t -> t := SFsqrt prec emax.

(** The conversion of an [int] to a float, as [float(n)] and the product of
    an [int] and a float do it: an integer too large is refused. *)
Definition of_int (n : Z) : result t :=
  match of_Z n with
  | S754_infinity _ => Raise OverflowError
  | x => Ok x
  end.

(** [int(x)]: the integer part of [x], toward zero.  The shift is to the
    right for a negative exponent. *)
Definition to_int (x : t) : result Z :=
  match x with
  | S754_zero _ => Ok 0%Z
  | S754_finite s m e =>
      let magnitude := Z.shiftl (Zpos m) e in
      Ok (if s then (- magnitude)%Z else magnitude)
  | S754_infinity _ => Raise OverflowError
  | S754_nan => Raise ValueError
  end.

(** The rational number a finite float is. *)
Definition to_Q (x : t) : option Q :=
  match x with
  | S754_zero _ => Some 0%Q
  | S754_finite s m e =>
      Some (Qred (inject_Z (if s then Zneg m else Zpos m) * Qpower 2 e))
  | S754_infinity _ | S754_nan => None
  end.

(** The real number a finite float is.  The reals have no infinity and no
    not-a-number: these are read as 0, and a statement that reads a float
    as a real says nothing of them. *)
Definition to_R (x : t) : R :=
  match to_Q x with
  | Some q => Q2R q
  | None => 0%R
  end.

End binary64.

(** ** Python strings

    A [str] is kept as the bytes of its UTF-8 encoding.  The separator of
    [split], the marker [ad] and the keys of the registry are ASCII, and an
    ASCII byte stands for itself wherever it occurs in UTF-8, so splitting,
    searching and comparing go byte by byte; the tests on characters decode
    the code points first. *)

Module PyStr.

Local Open Scope string_scope.

(** [s.split(sep)] for a one-character separator: one part more than there
    are separators in [s]. *)
Fixpoint split (sep : ascii) (s : string) : list string :=
  match s with
  | EmptyString => [EmptyString]
  | String c r =>
      if Ascii.eqb c sep then EmptyString :: split sep r
      else match split sep r with
           | p :: ps => String c p :: ps
           | [] => [String c EmptyString]
           end
  end.

(** [needle in hay]. *)
Fixpoint contains (needle hay : string) : bool :=
  String.prefix needle hay ||
  match hay with
  | EmptyString => false
  | String _ r => contains needle r
  end.

(** The code points of a text, from its UTF-8 bytes: [pending] bytes of the
    character that holds [acc] so far are still to come.  A lead byte
    announces one, two or three continuation bytes of six bits each; a text
    that stops inside a character, or has a continuation byte out of place,
    is no [str]. *)
Fixpoint decode_from (pending : nat) (acc : N) (s : string) : option (list N) :=
  match s with
  | EmptyString => match pending with O => Some [] | S _ => None end
  | String c r =>
      let k := N_of_ascii c in
      match pending with
      | O =>
          if (k <? 128)%N then option_map (cons k) (decode_from 0 0 r)
          else if (k <? 192)%N then None
          else if (k <? 224)%N then decode_from 1 (k - 192) r
          else if (k <? 240)%N then decode_from 2 (k - 224) r
          else if (k <? 248)%N then decode_from 3 (k - 240) r
          else None
      | S p =>
          if ((128 <=? k) && (k <? 192))%N then
            let acc' := (acc * 64 + (k - 128))%N in
            match p with
            | O => option_map (cons acc') (decode_from 0 0 r)
            | S _ => decode_from p acc' r
            end
          else None
      end
  end.

Definition decode (s : string) : option (list N) := decode_from 0 0 s.

(** The decimal digits (category Nd) of Unicode 14.0, the tables of
    CPython 3.11: each of these code points starts a run of ten that holds
    the digits 0 to 9 in order. *)
Definition decimal_starts : list N :=
  [
    48; 1632; 1776; 1984; 2406; 2534; 2662; 2790; 2918;
    3046; 3174; 3302; 3430; 3558; 3664; 3792; 3872; 4160;
    4240; 6112; 6160; 6470; 6608; 6784; 6800; 6992; 7088;
    7232; 7248; 42528; 43216; 43264; 43472; 43504; 43600; 44016;
    65296; 66720; 68912; 69734; 69872; 69942; 70096; 70384; 70736;
    70864; 71248; 71360; 71472; 71904; 72016; 72784; 73040; 73120;
    92768; 92864; 93008; 120782; 120792; 120802; 120812; 120822; 123200;
    123632; 125264; 130032 ]%N.

(** [Py_UNICODE_TODECIMAL]: the value of a decimal digit. *)
Definition decimal_value (c : N) : option N :=
  match find (fun start => (start <=? c) && (c <? start + 10))%N decimal_starts with
  | Some start => Some (c - start)%N
  | None => None
  end.

(** The digits that are not decimal (Numeric_Type=Digit): superscripts,
    subscripts, circled and parenthesized digits and the like, as ranges
    with both ends. *)
Definition digit_ranges : list (N * N) :=
  [
    (178, 179); (185, 185); (4969, 4977); (6618, 6618); (8304, 8304);
    (8308, 8313); (8320, 8329); (9312, 9320); (9332, 9340); (9352, 9360);
    (9450, 9450); (9461, 9469); (9471, 9471); (10102, 10110); (10112, 10120);
    (10122, 10130); (68160, 68163); (69216, 69224); (69714, 69722); (127232, 127242) ]%N.

Definition is_decimal (c : N) : bool :=
  match decimal_value c with Some _ => true | None => false end.

(** A decimal digit is a digit. *)
Definition is_digit (c : N) : bool :=
  is_decimal c || existsb (fun r => (fst r <=? c) && (c <=? snd r))%N digit_ranges.

(** At least one character, and every character passes [p]. *)
Definition all_chars (p : N -> bool) (s : string) : bool :=
  match decode s with
  | Some (c :: cs) => forallb p (c :: cs)
  | Some [] | None => false
  end.

(** [s.isdigit()] and [s.isdecimal()]. *)
Definition isdigit (s : string) : bool := all_chars is_digit s.
Definition isdecimal (s : string) : bool := all_chars is_decimal s.

(** The number a run of decimal digits denotes, most significant first. *)
Fixpoint digits_value (acc : N) (cs : list N) : N :=
  match cs with
  | [] => acc
  | c :: r =>
      digits_value (10 * acc + match decimal_value c with Some d => d | None => 0 end) r
  end.

Definition number (s : string) : N :=
  match decode s with
  | Some cs => digits_value 0 cs
  | None => 0%N
  end.

(** The first step of [float(s)]: every decimal digit becomes the ASCII
    digit of its value; any other character beyond U+007F has no reading
    as part of a number. *)
Fixpoint to_ascii (cs : list N) : option (list N) :=
  match cs with
  | [] => Some []
  | c :: r =>
      match decimal_value c with
      | Some d => option_map (cons (48 + d)%N) (to_ascii r)
      | None => if (c <? 128)%N then option_map (cons c) (to_ascii r) else None
      end
  end.

(** The text before the first point, and the text after it when there is
    one. *)
Fixpoint at_point (txt : list N) : list N * option (list N) :=
  match txt with
  | [] => ([], None)
  | c :: r =>
      if (c =? 46)%N then ([], Some r)
      else let '(ip, fp) := at_point r in (c :: ip, fp)
  end.

(** [float(s)] on the decimal texts [[sign] digits [. digits]] with at least
    one digit: the float nearest to the number the text denotes; every other
    text raises [ValueError] here.  Python's [float] also accepts blanks
    around the text, an underscore between digits, an exponent, and the
    words for infinity and not-a-number: none of these texts passes
    [isdigit], and the constructor below calls [float] only on a text that
    does. *)
Definition float (s : string) : result binary64.t :=
  match option_map to_ascii (decode s) with
  | Some (Some txt) =>
      let '(neg, body) :=
        match txt with
        | c :: r =>
            if (c =? 45)%N then (true, r)
            else if (c =? 43)%N then (false, r)
            else (false, txt)
        | [] => (false, txt)
        end in
      let '(ip, fp) := at_point body in
      let fp := match fp with Some fp => fp | None => [] end in
      if forallb is_decimal ip && forallb is_decimal fp
         && negb ((List.length ip + List.length fp =? 0)%nat)
      then
        let magnitude :=
          match fp with
          | [] => binary64.of_Z (Z.of_N (digits_value 0 ip))
          | _ :: _ =>
              binary64.of_quotient (digits_value 0 (ip ++ fp)%list)
                (Pos.of_nat (10 ^ List.length fp))
          end in
        Ok (if neg then binary64.opp magnitude else magnitude)
      else Raise ValueError
  | Some None | None => Raise ValueError
  end.

End PyStr.

(** ** NumPy arrays

    An array of shape [(..., d)] is kept as its last-axis size [cols]
    and its rows in row-major order, which is the view
    [X.reshape(-1, X.shape[-1])] of it. *)

Module np.

Local Open Scope R_scope.

Record ndarray : Type := mk {
  cols : nat;
  rows : list (list R)
}.

(** A one-dimensional array [xs] of shape [(d,)], seen as one row. *)
Definition point (xs : list R) : ndarray := mk (List.length xs) [xs].

(** Every row has the length the shape announces. *)
Definition well_shaped (X : ndarray) : bool :=
  forallb (fun r => (List.length r =? cols X)%nat) (rows X).

(** [X.reshape(-1, X.shape[-1])]: the unknown size cannot be inferred when
    the last axis is empty. *)
Definition reshape_rows (X : ndarray) : result (list (list R)) :=
  match cols X with
  | O => Raise ValueError
  | S _ => Ok (rows X)
  end.

Fixpoint map2 (f : R -> R -> R) (r1 r2 : list R) : list R :=
  match r1, r2 with
  | x :: r1', y :: r2' => f x y :: map2 f r1' r2'
  | _, _ => []
  end.

(** A reduction along axis 0 with an operation that has no identity: it
    raises when there is no row. *)
Definition reduce_axis0 (f : R -> R -> R) (M : list (list R)) : result (list R) :=
  match M with
  | [] => Raise ValueError
  | r :: rest => Ok (fold_left (map2 f) rest r)
  end.

(** [V.min()] and [V.max()] over all entries. *)
Definition reduce_all (f : R -> R -> R) (V : list R) : result R :=
  match V with
  | [] => Raise ValueError
  | v :: rest => Ok (fold_left f rest v)
  end.

(** [X[..., -1]]. *)
Definition last_entry (X : ndarray) : result (list R) :=
  match cols X with
  | O => Raise IndexError
  | S _ => Ok (map (fun r => last r 0) (rows X))
  end.

(** Python's reading of a slice bound on a sequence of length [len]. *)
Definition slice_index (len i : Z) : Z :=
  if (i <? 0)%Z then Z.max (i + len) 0 else Z.min i len.

(** [l[start:stop]], an absent bound given as [None]. *)
Definition slice {A : Type} (start stop : option Z) (l : list A) : list A :=
  let len := Z.of_nat (List.length l) in
  let lo := match start with None => 0%Z | Some i => slice_index len i end in
  let hi := match stop with None => len | Some i => slice_index len i end in
  firstn (Z.to_nat (hi - lo)) (skipn (Z.to_nat lo) l).

(** The last-axis size two operands broadcast to, [ValueError] when they do
    not broadcast. *)
Definition broadcast_cols (c1 c2 : nat) : result nat :=
  if (c1 =? c2)%nat then Ok c1
  else if (c2 =? 1)%nat then Ok c1
  else if (c1 =? 1)%nat then Ok c2
  else Raise ValueError.

(** An operation on two rows under broadcasting of the last axis. *)
Definition broadcast2 (f : R -> R -> R) (r1 r2 : list R) : list R :=
  if (List.length r1 =? List.length r2)%nat then map2 f r1 r2
  else match r1, r2 with
       | _, [y] => map (fun x => f x y) r1
       | [x], _ => map (fun y => f x y) r2
       | _, _ => []
       end.

Definition sum (r : list R) : R := fold_right Rplus 0 r.

(** The row [r] with its entry [j] replaced by [t]: the point moved along
    coordinate [j]. *)
Fixpoint put (r : list R) (j : nat) (t : R) : list R :=
  match r, j with
  | [], _ => []
  | _ :: r', O => t :: r'
  | x :: r', S j' => x :: put r' j' t
  end.

(** [np.arccosh] and the division of arrays give a non-finite entry (here
    [None]) and no exception outside their domain. *)
Definition arccosh (x : R) : option R :=
  if Rle_dec 1 x then Some (ln (x + sqrt (x * x - 1))) else None.

Definition divide (x y : R) : option R :=
  if Req_dec_T y 0 then None else Some (x / y).

(** [np.sqrt] gives a non-finite entry for a negative argument. *)
Definition sqrt_entry (x : R) : option R :=
  if Rle_dec 0 x then Some (sqrt x) else None.

(** [X[..., 0]]. *)
Definition first_entry (X : ndarray) : result (list R) :=
  match cols X with
  | O => Raise IndexError
  | S _ => Ok (map (fun r => hd 0 r) (rows X))
  end.

(** [np.linspace(lo, hi, num)] for [num >= 0]. *)
Definition linspace (lo hi : R) (num : nat) : list R :=
  match num with
  | O => []
  | S O => [lo]
  | S k => map (fun i => lo + INR i * ((hi - lo) / INR k)) (seq 0 num)
  end.

(** The rows of the stacked [np.meshgrid] of the axes with [indexing='ij'],
    reshaped to [(-1, d)]: every combination of one entry per axis, the first axis slowest. *)
Fixpoint meshgrid_rows (axes : list (list R)) : list (list R) :=
  match axes with
  | [] => [[]]
  | ax :: rest => flat_map (fun x => map (cons x) (meshgrid_rows rest)) ax
  end.

(** The element types of the arrays met here.  [np.zeros_like] and
    [np.full_like] give an array of the element type of their first
    argument, and a fill value is converted to it: to an integer type by
    dropping the fraction, toward zero. *)
Inductive dtype : Type := float64 | int64.

Definition truncate (x : R) : R :=
  if Rle_dec 0 x then IZR (Int_part x) else - IZR (Int_part (- x)).

Definition astype (dt : dtype) (x : R) : R :=
  match dt with
  | float64 => x
  | int64 => truncate x
  end.

(** [np.linalg.norm(v, axis=-1)] of one row. *)
Definition norm (r : list R) : R := sqrt (sum (map (fun x => x * x) r)).

End np.

(** ** baseLayers.py *)

Module baseLayers.

Local Open Scope R_scope.
Local Open Scope string_scope.

(** *** The elementary functions of TensorFlow, entry by entry *)

Definition tf_sigmoid (z : R) : R := 1 / (1 + exp (- z)).
Definition tf_softplus (z : R) : R := ln (1 + exp z).
Definition tf_relu (z : R) : R := Rmax z 0.
Definition tf_elu (z : R) : R := if Rlt_dec 0 z then z else exp z - 1.

(** [ACTS]: the registry of activation functions, in the order of the
    source. *)
Definition ACTS : list (string * (R -> R)) :=
  [ ("tanh", tanh);
    ("atan", atan);
    ("sigmoid", tf_sigmoid);
    ("softplus", tf_softplus);
    ("relu", tf_relu);
    ("elu", tf_elu);
    ("exp", exp);
    ("linear", fun z => Rabs z);
    ("gauss", fun z => exp (- z ^ 2));
    ("swish", fun z => z * tf_sigmoid z);
    ("laplace", fun z => exp (- Rabs z)) ].

(** [key in d.keys()] and [d[key]] for a dictionary with string keys. *)
Fixpoint dict_get {V : Type} (d : list (string * V)) (key : string) : option V :=
  match d with
  | [] => None
  | (k, v) :: rest => if String.eqb key k then Some v else dict_get rest key
  end.

Definition dict_mem {V : Type} (d : list (string * V)) (key : string) : bool :=
  match dict_get d key with Some _ => true | None => false end.

Definition dict_item {V : Type} (d : list (string * V)) (key : string) : result V :=
  match dict_get d key with
  | Some v => Ok v
  | None => Raise (KeyError key)
  end.

(** A variable created by [add_weight]: shape [(1,)] holds one entry. *)
Record Weight : Type := mkWeight {
  w_name : string;
  w_shape : list nat;
  w_value : R;
  w_trainable : bool
}.

(** [initializer='ones']. *)
Definition ones : R := 1.

Module AdaptiveActivation.

(** The attributes of the layer.  [weights] is the list Keras keeps for the
    layer; the attribute [a] refers to one of its entries by position, so a
    training step that updates the variable is seen through both. *)
Record t : Type := mk {
  adapt : bool;
  act : R -> R;
  n : binary64.t;
  a : option nat;
  weights : list Weight
}.

(** [self.add_weight(...)]: the variable is appended to the layer's weights
    and a reference to it is returned. *)
Definition add_weight (ws : list Weight) (w : Weight) : list Weight * nat :=
  ((ws ++ [w])%list, List.length ws).

(** [AdaptiveActivation.__init__(act)]. *)
Definition __init__ (spec : string) : result t :=
  let parts := PyStr.split "-" spec in
  match parts with
  | [p0; p1; p2] =>
      let adapt := PyStr.contains "ad" p0 in
      f <- dict_item ACTS p1 ;;
      n <- (if PyStr.isdigit p2 then PyStr.float p2 else Ok binary64.one) ;;
      if adapt then
        let '(ws, ref) := add_weight [] (mkWeight "a" [1%nat] ones true) in
        Ok (mk adapt f n (Some ref) ws)
      else Ok (mk adapt f n None [])
  | _ => Raise AssertionError
  end.

(** The current value of the variable [self.a]. *)
Definition a_value (self : t) : result R :=
  match a self with
  | Some ref =>
      match nth_error (weights self) ref with
      | Some w => Ok (w_value w)
      | None => Raise AttributeError
      end
  | None => Raise AttributeError
  end.

(** [AdaptiveActivation.call(X)], on the entries of [X] in row-major order:
    the registry functions act entry by entry, and a factor of shape [(1,)]
    is broadcast over [X]. *)
Definition call (self : t) (X : list R) : result (list R) :=
  if adapt self then
    av <- a_value self ;;
    Ok (map (fun x => act self (binary64.to_R (n self) * av * x)) X)
  else
    Ok (map (fun x => act self (binary64.to_R (n self) * x)) X).

(** [variable.assign(v)] on the variable at position [ref], as a training
    step does it. *)
Fixpoint assign (ref : nat) (v : R) (ws : list Weight) : list Weight :=
  match ws, ref with
  | [], _ => []
  | w :: rest, O => mkWeight (w_name w) (w_shape w) v (w_trainable w) :: rest
  | w :: rest, S k => w :: assign k v rest
  end.

Definition trained (v : R) (self : t) : t :=
  match a self with
  | Some ref => mk (adapt self) (act self) (n self) (a self) (assign ref v (weights self))
  | None => self
  end.

(** The variables of the layer an optimizer updates. *)
Definition trainable_weights (self : t) : list Weight :=
  filter w_trainable (weights self).

End AdaptiveActivation.

(** The layer [__init__] builds once the specifier has three parts, a
    registered name and a degree [d]. *)
Definition built (p0 : string) (f : R -> R) (d : binary64.t) : AdaptiveActivation.t :=
  if PyStr.contains "ad" p0
  then AdaptiveActivation.mk true f d (Some O) [mkWeight "a" [1%nat] 1%R true]
  else AdaptiveActivation.mk false f d None [].

(** The one character U+00B2, the superscript two (in UTF-8 the bytes C2
    B2), and the specifier whose degree part it is. *)
Definition superscript_two : string :=
  String (ascii_of_nat 194) (String (ascii_of_nat 178) EmptyString).

Definition superscript_specifier : string := "-gauss-" ++ superscript_two.

(** The one character U+0663, the Arabic-Indic digit three (in UTF-8 the
    bytes D9 A3). *)
Definition arabic_indic_three : string :=
  String (ascii_of_nat 217) (String (ascii_of_nat 163) EmptyString).

(** What [Activation] hands back: a registry function, the text it was
    given, or a layer. *)
Inductive activation : Type :=
| Function (f : R -> R)
| Text (s : string)
| Layer (l : AdaptiveActivation.t).

(** [Activation(act)]. *)
Definition Activation (spec : string) : result activation :=
  let parts := PyStr.split "-" spec in
  if (List.length parts =? 1)%nat then
    if dict_mem ACTS spec then
      f <- dict_item ACTS spec ;; Ok (Function f)
    else Ok (Text spec)
  else
    l <- AdaptiveActivation.__init__ spec ;; Ok (Layer l).

(** [d[key] = v]: the binding of [key] is replaced where it stands, and a
    new key goes last. *)
Fixpoint dict_set {V : Type} (d : list (string * V)) (key : string) (v : V)
    : list (string * V) :=
  match d with
  | [] => [(key, v)]
  | (k, w) :: rest =>
      if String.eqb key k then (key, v) :: rest else (k, w) :: dict_set rest key v
  end.

(** *** DenseBody

    Keras is a parameter of the block builder: [object] is a value a caller
    may pass as a keyword argument, and [dense_raises] gives the exception
    with which [L.Dense(units, activation=..., **kwargs)(x)] fails the
    checks of Python and Keras, if it fails them.
    A tensor of the functional interface records the layers that lead to
    it. *)

Module DenseBody.

Section WithKeras.

Variable object : Type.

Inductive kwvalue : Type :=
| KNone
| KStr (s : string)
| KObject (o : object).

Definition kwargs : Type := list (string * kwvalue).

Inductive tensor : Type :=
| Placeholder (id : nat)
| DenseOutput (units : Z) (act : activation) (kw : kwargs) (input : tensor).

Variable dense_raises : Z -> activation -> kwargs -> tensor -> option exn.

(** [L.Dense(units, activation=act, **kw)(x)]. *)
Definition Dense (units : Z) (act : activation) (kw : kwargs) (x : tensor)
    : result tensor :=
  match dense_raises units act kw x with
  | None => Ok (DenseOutput units act kw x)
  | Some e => Raise e
  end.

(** The argument [nu]: a plain integer or a list of integers. *)
Inductive widths : Type :=
| Int (n : Z)
| List (l : list Z).

(** [kwargs.get(key) is None]. *)
Definition get_is_None (kw : kwargs) (key : string) : bool :=
  match dict_get kw key with
  | None | Some KNone => true
  | Some _ => false
  end.

(** [nu[i]] for [i >= 0]. *)
Definition item (nu : list Z) (i : nat) : result Z :=
  match nth_error nu i with
  | Some n => Ok n
  | None => Raise IndexError
  end.

(** The body of [for i in range(1, nl)], over the indices [ids]. *)
Fixpoint hidden (nu : list Z) (act : string) (kw : kwargs) (ids : list nat) (x : tensor)
    : result tensor :=
  match ids with
  | [] => Ok x
  | i :: rest =>
      n <- item nu i ;;
      a <- Activation act ;;
      x' <- Dense n a kw x ;;
      hidden nu act kw rest x'
  end.

(** The keyword arguments after
    [if kwargs.get('kernel_initializer') is None: ... = 'he_normal']. *)
Definition defaulted (kw : kwargs) : kwargs :=
  if get_is_None kw "kernel_initializer"
  then dict_set kw "kernel_initializer" (KStr "he_normal")
  else kw.

(** The widths after [if isinstance(nu, int): nu = [nu]*nl]; a list
    repeated zero or fewer times is empty. *)
Definition expanded (nu : widths) (nl : Z) : list Z :=
  match nu with
  | Int n => repeat n (Z.to_nat nl)
  | List l => l
  end.

(** [DenseBody(inputs, nu, nl, out_dim, act, out_act, **kwargs)]. *)
Definition DenseBody (inputs : tensor) (nu : widths) (nl : Z) (out_dim : Z)
    (act out_act : string) (kw : kwargs) : result tensor :=
  let kw := defaulted kw in
  let nu := expanded nu nl in
  if negb (Z.of_nat (List.length nu) =? nl)%Z then Raise AssertionError
  else
    n0 <- item nu 0 ;;
    a0 <- Activation act ;;
    x <- Dense n0 a0 kw inputs ;;
    x <- hidden nu act kw (seq 1 (Z.to_nat nl - 1)) x ;;
    ao <- Activation out_act ;;
    Dense out_dim ao kw x.

(** The tensor reached from [x] through one layer per entry of [plan]. *)
Definition stack (kw : kwargs) (plan : list (Z * activation)) (x : tensor) : tensor :=
  fold_left (fun y l => DenseOutput (fst l) (snd l) kw y) plan x.

End WithKeras.

End DenseBody.

(** *** class LossesHolder *)

Module LossesHolder.

Local Open Scope list_scope.

Record t : Type := mk {
  logs : list (string * list R)
}.

(** [LossesHolder.__init__()]. *)
Definition __init__ : t := mk [("loss", []); ("val_loss", [])].

(** The body of the loop for one item [(kw, v)]. *)
Definition record (self : t) (item : string * R) : t :=
  let '(kw, v) := item in
  let logs :=
    match dict_get (logs self) kw with
    | None => dict_set (logs self) kw []
    | Some _ => logs self
    end in
  match dict_get logs kw with
  | Some history => mk (dict_set logs kw (history ++ [v]))
  | None => mk logs
  end.

(** [LossesHolder.on_epoch_end(epoch, logs=None)]; [logs] is given as the
    items of the dictionary in its order. *)
Definition on_epoch_end (epoch : Z) (logs : option (list (string * R))) : method t unit :=
  match logs with
  | None => raise AttributeError
  | Some items => modify (fun self => fold_left record items self)
  end.

(** The values the items of one epoch report under the key [k], in order. *)
Definition reported (k : string) (items : list (string * R)) : list R :=
  map snd (filter (fun item => String.eqb (fst item) k) items).

(** What is held under a key after the values [vs] were appended to [old],
    the history held before, if any: with nothing held and nothing appended
    the key stays absent. *)
Definition extended (old : option (list R)) (vs : list R) : option (list R) :=
  match old with
  | Some h => Some (h ++ vs)
  | None => match vs with [] => None | _ => Some vs end
  end.

(** The holder after a sequence of epochs, each given by its [logs]. *)
Definition train (self : t) (epochs : list (list (string * R))) : t :=
  fold_left (fun s items => fst (on_epoch_end 0 (Some items) s)) epochs self.

End LossesHolder.

(** *** class Initializer and class SourceLoc *)

Module Initializer.

Record t : Type := mk { x : list R }.

Definition __init__ (x : list R) : t := mk x.

(** [Initializer.__call__(shape, dtype=None)]: the stored array as a tensor,
    whatever the shape asked for. *)
Definition __call__ (self : t) (shape : list nat) : list R := x self.

Definition get_config (self : t) : list (string * list R) := [("x", x self)].

End Initializer.

Module SourceLoc.

(** The one weight [xs] of the layer and whether it is trainable. *)
Record t : Type := mk {
  xs : list R;
  trainable : bool
}.

(** [SourceLoc.__init__(xs)]: the weight of shape [(len(xs),)] starts from
    what the initializer returns for that shape. *)
Definition __init__ (xs : list R) : t :=
  mk (Initializer.__call__ (Initializer.__init__ xs) [List.length xs]) false.

(** [SourceLoc.call(x)]: [tf.ones_like(x) * self.xs], the last axis of [x]
    broadcast against the weight; shapes that do not broadcast are refused
    when the graph is built. *)
Definition call (self : t) (x : np.ndarray) : result np.ndarray :=
  c <- np.broadcast_cols (np.cols x) (List.length (xs self)) ;;
  Ok (np.mk c (map (fun r => np.broadcast2 Rmult (map (fun _ => 1) r) (xs self))
                   (np.rows x))).

Definition get_config (self : t) : list (string * list R) := [("xs", xs self)].

End SourceLoc.

End baseLayers.



(** ** misc.py *)

Module misc.

Local Open Scope R_scope.

(** *** class VerticalGradient *)

Module VerticalGradient.

Record t : Type := mk {
  v0 : R;
  a : R;
  xmin : option (list R);
  xmax : option (list R);
  min : option R;
  max : option R;
  dim : option nat
}.

Definition set_xmin (v : list R) (s : t) : t :=
  mk (v0 s) (a s) (Some v) (xmax s) (min s) (max s) (dim s).
Definition set_xmax (v : list R) (s : t) : t :=
  mk (v0 s) (a s) (xmin s) (Some v) (min s) (max s) (dim s).
Definition set_min (v : R) (s : t) : t :=
  mk (v0 s) (a s) (xmin s) (xmax s) (Some v) (max s) (dim s).
Definition set_max (v : R) (s : t) : t :=
  mk (v0 s) (a s) (xmin s) (xmax s) (min s) (Some v) (dim s).
Definition set_dim (v : nat) (s : t) : t :=
  mk (v0 s) (a s) (xmin s) (xmax s) (min s) (max s) (Some v).

(** [VerticalGradient.__init__(v0, a, xmin=None, xmax=None)]; [min], [max]
    and [dim] keep the class default [None]. *)
Definition __init__ (v0 a : R) (xmin xmax : option (list R)) : t :=
  mk v0 a xmin xmax None None None.

(** [VerticalGradient.__call__(X)]. *)
Definition __call__ (X : np.ndarray) : method t (list R) :=
  self <~ get ;;
  when (is_None (xmin self))
    (M <~ lift (np.reshape_rows X) ;;
     v <~ lift (np.reduce_axis0 Rmin M) ;;
     modify (set_xmin v)) ;;;
  self <~ get ;;
  when (is_None (xmax self))
    (M <~ lift (np.reshape_rows X) ;;
     v <~ lift (np.reduce_axis0 Rmax M) ;;
     modify (set_xmax v)) ;;;
  self <~ get ;;
  when (is_None (dim self)) (modify (set_dim (np.cols X))) ;;;
  self <~ get ;;
  z <~ lift (np.last_entry X) ;;
  let V := map (fun zi => v0 self + a self * zi) z in
  when (is_None (min self))
    (v <~ lift (np.reduce_all Rmin V) ;; modify (set_min v)) ;;;
  self <~ get ;;
  when (is_None (max self))
    (v <~ lift (np.reduce_all Rmax V) ;; modify (set_max v)) ;;;
  ret V.

(** The object after a sequence of value queries, whatever they returned. *)
Definition queries (self : t) (Xs : list np.ndarray) : t :=
  fold_left (fun s X => fst (__call__ X s)) Xs self.

(** All of the lazily computed attributes are set. *)
Definition complete (self : t) : bool :=
  negb (is_None (xmin self)) && negb (is_None (xmax self))
  && negb (is_None (dim self)) && negb (is_None (min self))
  && negb (is_None (max self)).

(** One row of [VerticalGradient.gradient(X)] for a batch [X] of element
    type [dt]: zeros shaped like [X[..., :-1]] followed by entries shaped
    like [X[..., -2:-1]] that hold [a] converted to [dt]. *)
Definition gradient_row (self : t) (dt : np.dtype) (r : list R) : list R :=
  map (fun _ => 0) (np.slice None (Some (-1)%Z) r)
  ++ map (fun _ => np.astype dt (a self)) (np.slice (Some (-2)%Z) (Some (-1)%Z) r).

(** [VerticalGradient.gradient(X)] for a batch [X] of element type [dt]. *)
Definition gradient (self : t) (dt : np.dtype) (X : np.ndarray) : np.ndarray :=
  np.mk (List.length (gradient_row self dt (repeat 0 (np.cols X))))
        (map (gradient_row self dt) (np.rows X)).

(** [VerticalGradient.time(X, xs)]; a non-finite entry of the result is
    [None]. *)
Definition time (X : np.ndarray) (xs : list R) : method t (list (option R)) :=
  c <~ lift (np.broadcast_cols (np.cols X) (List.length xs)) ;;
  let Xdiff := map (fun r => np.broadcast2 Rminus r xs) (np.rows X) in
  V <~ __call__ (np.point xs) ;;
  let Vxszs := hd 0 V in
  self <~ get ;;
  let up := map (fun d => a self ^ 2 * np.sum (map (fun x => x ^ 2) d)) Xdiff in
  z <~ lift (np.last_entry (np.mk c Xdiff)) ;;
  let down := map (fun zi => 2 * Vxszs * (a self * zi + Vxszs)) z in
  ret (map (fun ud =>
              match np.divide (fst ud) (snd ud) with
              | Some q =>
                  match np.arccosh (q + 1) with
                  | Some c => np.divide c (a self)
                  | None => None
                  end
              | None => None
              end) (combine up down)).

(** One row of [dtime], from the row [d] of [Xdiff]: the pair
    [(dt_dx, dt_dz)].  An entry is [None] when it is not finite: when [down]
    is zero every quotient by it is not finite and no later product or
    difference is; when the argument of the square root is negative it is
    not a number; when the square root is zero, [A] is infinite and so is
    every product with it, or not a number. *)
Definition dtime_row (a Vxszs : R) (d : list R) : list (option R) :=
  let up := a * 2 * np.sum (map (fun x => x ^ 2) d) in
  let x0 := hd 0 d in
  let z := last d 0 in
  let down := 2 * Vxszs * (a * z + Vxszs) in
  match np.divide up down with
  | Some q =>
      match np.sqrt_entry ((q + 1) ^ 2 - 1) with
      | Some s =>
          match np.divide (1 / a) s with
          | Some A =>
              [Some (2 * a ^ 2 * x0 / down * A);
               Some ((2 * a ^ 2 * z / down - 2 * a * Vxszs * up / down ^ 2) * A)]
          | None => [None; None]
          end
      | None => [None; None]
      end
  | None => [None; None]
  end.

(** [VerticalGradient.dtime(X, xs)], for a coefficient [a] that is a Python
    float: [1 / self.a] raises [ZeroDivisionError] when it is zero. *)
Definition dtime (X : np.ndarray) (xs : list R)
    : method t (or_zero_division (list (list (option R)))) :=
  c <~ lift (np.broadcast_cols (np.cols X) (List.length xs)) ;;
  let Xdiff := map (fun r => np.broadcast2 Rminus r xs) (np.rows X) in
  V <~ __call__ (np.point xs) ;;
  let Vxszs := hd 0 V in
  self <~ get ;;
  _ <~ lift (np.last_entry (np.mk c Xdiff)) ;;
  if Req_dec_T (a self) 0 then ret ZeroDivisionError
  else ret (Finished (map (dtime_row (a self) Vxszs) Xdiff)).

End VerticalGradient.

(** *** class LocAnomaly *)

Module LocAnomaly.

Record t : Type := mk {
  mus : list R;
  sigmas : list R;
  xmin : option (list R);
  xmax : option (list R);
  min : R;
  max : R;
  dim : nat;
  vmin : R;
  vmax : R
}.

Definition set_xmin (v : list R) (s : t) : t :=
  mk (mus s) (sigmas s) (Some v) (xmax s) (min s) (max s) (dim s) (vmin s) (vmax s).
Definition set_xmax (v : list R) (s : t) : t :=
  mk (mus s) (sigmas s) (xmin s) (Some v) (min s) (max s) (dim s) (vmin s) (vmax s).

(** [LocAnomaly.__init__(vmin, vmax, mus, sigmas, xmin=None, xmax=None)]. *)
Definition __init__ (vmin vmax : R) (mus sigmas : list R)
    (xmin xmax : option (list R)) : t :=
  mk mus sigmas xmin xmax (Rmin vmin vmax) (Rmax vmin vmax)
     (List.length mus) vmin vmax.

(** The exponent of one row:
    [((X - mus)**2 / 2 / sigmas**2).sum(axis=-1)]. *)
Definition exponent (mus sigmas : list R) (r : list R) : R :=
  np.sum (np.broadcast2 (fun d s => d ^ 2 / 2 / s ^ 2)
            (np.broadcast2 Rminus r mus) sigmas).

(** The value of one row:
    [V = vmax - vmin; V *= np.exp(- exponent); V + vmin]. *)
Definition value_row (self : t) (r : list R) : R :=
  (vmax self - vmin self) * exp (- exponent (mus self) (sigmas self) r) + vmin self.

(** [LocAnomaly.__call__(X)]. *)
Definition __call__ (X : np.ndarray) : method t (list R) :=
  self <~ get ;;
  when (is_None (xmin self))
    (M <~ lift (np.reshape_rows X) ;;
     v <~ lift (np.reduce_axis0 Rmin M) ;;
     modify (set_xmin v)) ;;;
  self <~ get ;;
  when (is_None (xmax self))
    (M <~ lift (np.reshape_rows X) ;;
     v <~ lift (np.reduce_axis0 Rmax M) ;;
     modify (set_xmax v)) ;;;
  self <~ get ;;
  c <~ lift (np.broadcast_cols (np.cols X) (List.length (mus self))) ;;
  _ <~ lift (np.broadcast_cols c (List.length (sigmas self))) ;;
  ret (map (value_row self) (np.rows X)).

(** The object after a sequence of value queries, whatever they returned. *)
Definition queries (self : t) (Xs : list np.ndarray) : t :=
  fold_left (fun s X => fst (__call__ X s)) Xs self.

(** One row of [LocAnomaly.gradient(X)], given the value [V] of that row:
    [(V - vmin) * (mus - X) / sigmas]. *)
Definition gradient_row (self : t) (V : R) (r : list R) : list R :=
  np.broadcast2 Rdiv
    (map (fun d => (V - vmin self) * d) (np.broadcast2 Rminus (mus self) r))
    (sigmas self).

(** [LocAnomaly.gradient(X)]. *)
Definition gradient (X : np.ndarray) : method t (list (list R)) :=
  V <~ __call__ X ;;
  self <~ get ;;
  ret (map (fun Vr => gradient_row self (fst Vr) (snd Vr)) (combine V (np.rows X))).

End LocAnomaly.

(** *** class Interpolator

    A NumPy array is an object that can be written in place, and one array
    can be reached from several places: from the attributes of the
    instance, from the client that passed it in, and from a SciPy
    interpolator that was handed it.  So an array object is a reference
    into a memory that holds the contents of every array; an attribute
    holds a reference, and a write in place changes the contents for
    everyone who holds it.

    The contents of arrays and the SciPy and NumPy functions on them are
    parameters.  A function that reads an array object is given the
    memory and the reference; a function applied to a temporary that
    nothing else can reach is given the contents.  Whether an interpolator
    keeps the arrays it was handed or copies of them is SciPy's business:
    [interpolate] is given the memory as it is at the time of the query. *)

Module Interpolator.

Definition ref : Type := nat.

Definition memory (array : Type) : Type := list array.

(** A new array object, after every other. *)
Definition allocate {array : Type} (a : array) (m : memory array)
    : memory array * ref :=
  ((m ++ [a])%list, List.length m).

(** A write in place, after which the array [r] holds [a]. *)
Fixpoint write {array : Type} (r : ref) (a : array) (m : memory array)
    : memory array :=
  match m, r with
  | [], _ => []
  | _ :: rest, O => a :: rest
  | x :: rest, S r' => x :: write r' a rest
  end.

Record Library (array points values kwargs rgi scalar : Type) : Type := {
  (** [RegularGridInterpolator(axes, F, **interp_kw)] and [f(X)]. *)
  RegularGridInterpolator : memory array -> list ref -> ref -> kwargs -> result rgi;
  interpolate : memory array -> rgi -> points -> result values;
  (** [np.gradient(F, *axes)], as the sequence [np.stack] iterates over. *)
  np_gradient : memory array -> ref -> list ref -> result (list array);
  (** [np.gradient(f, xi, axis=i)] for a temporary [f]. *)
  np_gradient_axis : memory array -> array -> ref -> nat -> result array;
  (** [np.stack(fields, axis=-1)], [np.sum(f, axis=-1)] and [dF[..., i]]. *)
  np_stack : list array -> result array;
  np_sum : array -> result array;
  component : memory array -> ref -> nat -> result array;
  (** [len(F.shape)], [xi.min()] and [xi.max()]. *)
  ndim : memory array -> ref -> nat;
  amin : memory array -> ref -> result scalar;
  amax : memory array -> ref -> result scalar
}.

Arguments RegularGridInterpolator {array points values kwargs rgi scalar} _ _ _ _ _.
Arguments interpolate {array points values kwargs rgi scalar} _ _ _ _.
Arguments np_gradient {array points values kwargs rgi scalar} _ _ _ _.
Arguments np_gradient_axis {array points values kwargs rgi scalar} _ _ _ _ _.
Arguments np_stack {array points values kwargs rgi scalar} _ _.
Arguments np_sum {array points values kwargs rgi scalar} _ _.
Arguments component {array points values kwargs rgi scalar} _ _ _ _.
Arguments ndim {array points values kwargs rgi scalar} _ _ _.
Arguments amin {array points values kwargs rgi scalar} _ _ _.
Arguments amax {array points values kwargs rgi scalar} _ _ _.

(** A list comprehension whose body can raise. *)
Fixpoint traverse {A B : Type} (f : A -> result B) (l : list A) : result (list B) :=
  match l with
  | [] => Ok []
  | x :: rest => y <- f x ;; ys <- traverse f rest ;; Ok (y :: ys)
  end.

(** [enumerate(l)], counting from [i]. *)
Fixpoint enumerate {A : Type} (i : nat) (l : list A) : list (nat * A) :=
  match l with
  | [] => []
  | x :: rest => (i, x) :: enumerate (S i) rest
  end.

Section WithGridLibrary.

Context {array points values kwargs rgi scalar : Type}.
Variable lib : Library array points values kwargs rgi scalar.

(** The attributes of an instance.  [LF] is a class attribute that no
    method assigns. *)
Record t : Type := mk {
  dim : nat;
  F : ref;
  dF : option ref;
  LF : option ref;
  axes : list ref;
  Func : rgi;
  dFunc : option rgi;
  LFunc : option rgi;
  xmin : list scalar;
  xmax : list scalar;
  min : scalar;
  max : scalar
}.

Definition set_F (v : ref) (s : t) : t :=
  mk (dim s) v (dF s) (LF s) (axes s) (Func s) (dFunc s) (LFunc s)
     (xmin s) (xmax s) (min s) (max s).
Definition set_axes (v : list ref) (s : t) : t :=
  mk (dim s) (F s) (dF s) (LF s) v (Func s) (dFunc s) (LFunc s)
     (xmin s) (xmax s) (min s) (max s).
Definition set_dF (v : ref) (s : t) : t :=
  mk (dim s) (F s) (Some v) (LF s) (axes s) (Func s) (dFunc s) (LFunc s)
     (xmin s) (xmax s) (min s) (max s).
Definition set_dFunc (v : rgi) (s : t) : t :=
  mk (dim s) (F s) (dF s) (LF s) (axes s) (Func s) (Some v) (LFunc s)
     (xmin s) (xmax s) (min s) (max s).
Definition set_LFunc (v : rgi) (s : t) : t :=
  mk (dim s) (F s) (dF s) (LF s) (axes s) (Func s) (dFunc s) (Some v)
     (xmin s) (xmax s) (min s) (max s).

(** What a method acts on: the memory of arrays and the instance. *)
Record world : Type := at_ {
  heap : memory array;
  this : t
}.

Definition self : method world t := fun w => (w, Ok (this w)).

Definition arrays : method world (memory array) := fun w => (w, Ok (heap w)).

Definition assign (f : t -> t) : method world unit :=
  fun w => (at_ (heap w) (f (this w)), Ok tt).

Definition new (a : array) : method world ref :=
  fun w => let '(m, r) := allocate a (heap w) in (at_ m (this w), Ok r).

(** [Interpolator.__init__(F, *axes, **interp_kw)], in the memory [m]. *)
Definition __init__ (F : ref) (axes : list ref) (interp_kw : kwargs)
    (m : memory array) : result t :=
  f <- RegularGridInterpolator lib m axes F interp_kw ;;
  lo <- traverse (amin lib m) axes ;;
  hi <- traverse (amax lib m) axes ;;
  Fmin <- amin lib m F ;;
  Fmax <- amax lib m F ;;
  Ok (mk (ndim lib m F) F None None axes f None None lo hi Fmin Fmax).

(** [Interpolator.__call__(X)]. *)
Definition __call__ (X : points) : method world values :=
  s <~ self ;; m <~ arrays ;; lift (interpolate lib m (Func s) X).

(** The two statements under [if self.dFunc is None:], the same in
    [gradient] and in [laplacian].  [np.stack] makes a new array. *)
Definition build_dFunc (interp_kw : kwargs) : method world unit :=
  s <~ self ;; m <~ arrays ;;
  g <~ lift (np_gradient lib m (F s) (axes s)) ;;
  d <~ lift (np_stack lib g) ;;
  r <~ new d ;;
  assign (set_dF r) ;;;
  s <~ self ;; m <~ arrays ;;
  f <~ lift (RegularGridInterpolator lib m (axes s) r interp_kw) ;;
  assign (set_dFunc f).

(** The statements under [if self.LFunc is None:].  The Laplacian [L] is a
    new array that only the interpolator is handed. *)
Definition build_LFunc (interp_kw : kwargs) : method world unit :=
  s <~ self ;; m <~ arrays ;;
  d2F <~ lift (traverse
                 (fun ix =>
                    match dF s with
                    | Some d => c <- component lib m d (fst ix) ;;
                                np_gradient_axis lib m c (snd ix) (fst ix)
                    | None => Raise TypeError
                    end)
                 (enumerate 0 (axes s))) ;;
  st <~ lift (np_stack lib d2F) ;;
  L <~ lift (np_sum lib st) ;;
  r <~ new L ;;
  m <~ arrays ;;
  f <~ lift (RegularGridInterpolator lib m (axes s) r interp_kw) ;;
  assign (set_LFunc f).

(** [self.dFunc(X)] and [self.LFunc(X)]. *)
Definition call_attr (f : option rgi) (X : points) : method world values :=
  m <~ arrays ;;
  lift (match f with
        | Some f => interpolate lib m f X
        | None => Raise TypeError
        end).

(** [Interpolator.gradient(X, **interp_kw)]. *)
Definition gradient (X : points) (interp_kw : kwargs) : method world values :=
  s <~ self ;;
  when (is_None (dFunc s)) (build_dFunc interp_kw) ;;;
  s <~ self ;;
  call_attr (dFunc s) X.

(** [Interpolator.laplacian(X, **interp_kw)]. *)
Definition laplacian (X : points) (interp_kw : kwargs) : method world values :=
  s <~ self ;;
  when (is_None (dFunc s)) (build_dFunc interp_kw) ;;;
  s <~ self ;;
  when (is_None (LFunc s)) (build_LFunc interp_kw) ;;;
  s <~ self ;;
  call_attr (LFunc s) X.

(** What a client can do between two queries: query the instance, assign
    its attributes [F] and [axes], create an array, and write into any
    array in place, also into one that the instance or an interpolator
    holds. *)
Inductive action : Type :=
| Value (X : points)
| Gradient (X : points) (interp_kw : kwargs)
| Laplacian (X : points) (interp_kw : kwargs)
| AssignF (r : ref)
| AssignAxes (rs : list ref)
| New (a : array)
| Write (r : ref) (a : array).

Definition step (w : world) (act : action) : world :=
  match act with
  | Value X => fst (__call__ X w)
  | Gradient X kw => fst (gradient X kw w)
  | Laplacian X kw => fst (laplacian X kw w)
  | AssignF r => at_ (heap w) (set_F r (this w))
  | AssignAxes rs => at_ (heap w) (set_axes rs (this w))
  | New a => at_ (fst (allocate a (heap w))) (this w)
  | Write r a => at_ (write r a (heap w)) (this w)
  end.

Definition run (w : world) (acts : list action) : world := fold_left step acts w.

(** The number of actions of a run that assign the attribute [attr]
    (an interpolator that was [None] before the action and is not after). *)
Fixpoint builds (attr : t -> option rgi) (w : world) (acts : list action) : nat :=
  match acts with
  | [] => O
  | act :: rest =>
      (if is_None (attr (this w)) && negb (is_None (attr (this (step w act))))
       then 1 else 0)%nat
      + builds attr (step w act) rest
  end.

(** The number of actions of a run that assign the gradient field [dF]:
    every assignment gives it a new array. *)
Fixpoint fields (w : world) (acts : list action) : nat :=
  match acts with
  | [] => O
  | act :: rest =>
      (match dF (this w), dF (this (step w act)) with
       | Some r, Some r' => if (r =? r')%nat then 0 else 1
       | None, None => 0
       | _, _ => 1
       end)%nat
      + fields (step w act) rest
  end.

(** No action of the run writes in place into one of the arrays [rs]. *)
Definition spares (rs : list ref) (acts : list action) : bool :=
  forallb (fun act =>
             match act with
             | Write r _ => negb (existsb (Nat.eqb r) rs)
             | _ => true
             end) acts.

End WithGridLibrary.

Arguments t : clear implicits.
Arguments world : clear implicits.
Arguments action : clear implicits.

End Interpolator.

(** *** Marmousi and MarmousiSmoothedPart

    The array the data file holds and SciPy's [gaussian_filter] are
    parameters, and so are the conversions of a two-dimensional array and of
    a vector to the contents of an array of the interpolator.  A
    two-dimensional array of shape [(nx, nz)] is kept as its [nx] rows of
    [nz] entries.  The loader makes three new arrays, the field and the two
    axes, and hands them to the interpolator. *)

Module Marmousi.

Section WithData.

Local Open Scope R_scope.

Context {array points values kwargs rgi scalar : Type}.
Variable lib : Interpolator.Library array points values kwargs rgi scalar.
Variable no_kwargs : kwargs.
Variable as_field : np.ndarray -> array.
Variable as_axis : list R -> array.
Variable gaussian_filter : np.ndarray -> R -> np.ndarray.
Variable data : np.ndarray.

(** [V.shape] of a two-dimensional array. *)
Definition shape (V : np.ndarray) : nat * nat := (List.length (np.rows V), np.cols V).

(** [V[i0:i1, j0:j1]]. *)
Definition window (V : np.ndarray) (i j : Z * Z) : np.ndarray :=
  np.mk (List.length (np.slice (Some (fst j)) (Some (snd j)) (repeat 0 (np.cols V))))
        (map (np.slice (Some (fst j)) (Some (snd j)))
             (np.slice (Some (fst i)) (Some (snd i)) (np.rows V))).

(** The field handed to the interpolator: the data in km/s, cut to the
    section and smoothed, each when asked for. *)
Definition field (smooth : option R)
    (section : option (option (Z * Z) * option (Z * Z))) : np.ndarray :=
  let V := np.mk (np.cols data) (map (map (fun v => v / 1000)) (np.rows data)) in
  let V :=
    match section with
    | Some (s0, s1) =>
        let i := match s0 with
                 | None => (0%Z, Z.of_nat (fst (shape V)) + 1)%Z
                 | Some i => i
                 end in
        let j := match s1 with
                 | None => (0%Z, Z.of_nat (snd (shape V)) + 1)%Z
                 | Some j => j
                 end in
        window V i j
    | None => V
    end in
  match smooth with
  | Some sigma => gaussian_filter V sigma
  | None => V
  end.

(** A new array object in the memory. *)
Definition new (a : array) : method (Interpolator.memory array) Interpolator.ref :=
  fun m => let '(m', r) := Interpolator.allocate a m in (m', Ok r).

(** [Marmousi(smooth=None, section=None)]. *)
Definition Marmousi (smooth : option R)
    (section : option (option (Z * Z) * option (Z * Z)))
    : method (Interpolator.memory array) (Interpolator.t rgi scalar) :=
  V <~ new (as_field (field smooth section)) ;;
  let '(nx, nz) := shape (field smooth section) in
  let xmax := 0.0125 * INR nx in
  let zmax := 0.0125 * INR nz in
  x <~ new (as_axis (np.linspace 0 xmax nx)) ;;
  z <~ new (as_axis (np.linspace 0 zmax nz)) ;;
  m <~ get ;;
  lift (Interpolator.__init__ lib V [x; z] no_kwargs m).

(** [MarmousiSmoothedPart()]. *)
Definition MarmousiSmoothedPart
    : method (Interpolator.memory array) (Interpolator.t rgi scalar) :=
  Marmousi (Some 3) (Some (Some (600, 900)%Z, None)).

End WithData.

End Marmousi.

(** *** class RegularGrid *)

Module RegularGrid.

(** The bounds read from the velocity model; an analytic model that was
    given no bounds and has not been queried holds [None]. *)
Record t : Type := mk {
  xmins : option (list R);
  xmaxs : option (list R)
}.

(** [RegularGrid.__init__(velocity)], given the attributes [xmin] and [xmax]
    of the velocity model. *)
Definition __init__ (xmin xmax : option (list R)) : t := mk xmin xmax.

(** [bounds[i]] for [i >= 0]; [None] cannot be indexed. *)
Definition item (bounds : option (list R)) (i : nat) : result R :=
  match bounds with
  | None => Raise TypeError
  | Some l =>
      match nth_error l i with
      | Some x => Ok x
      | None => Raise IndexError
      end
  end.

(** [np.linspace] refuses a negative number of samples. *)
Definition linspace (lo hi : R) (num : Z) : result (list R) :=
  if (num <? 0)%Z then Raise ValueError else Ok (np.linspace lo hi (Z.to_nat num)).

(** The list comprehension over [range(len(axes))], from index [i]. *)
Fixpoint axes_from (self : t) (i : nat) (axes : list Z) : result (list (list R)) :=
  match axes with
  | [] => Ok []
  | num :: rest =>
      lo <- item (xmins self) i ;;
      hi <- item (xmaxs self) i ;;
      ax <- linspace lo hi num ;;
      axs <- axes_from self (S i) rest ;;
      Ok (ax :: axs)
  end.

(** [RegularGrid.__call__(axes)]: the array of shape [(n1, ..., nk, k)],
    given as its leading shape and its rows. *)
Definition __call__ (self : t) (axes : list Z) : result (list nat * np.ndarray) :=
  xi <- axes_from self 0 axes ;;
  match xi with
  | [] => Raise ValueError
  | _ => Ok (map (@List.length R) xi, np.mk (List.length xi) (np.meshgrid_rows xi))
  end.

End RegularGrid.

(** *** class GradientBased_PDF

    The generator behind [np.random] is a parameter: [G] is its state,
    [random_uniform] draws an array of the given shape between the bounds,
    and [random_choice] draws [size] of the indices below [pool] without
    replacement with probabilities [p]. *)

Module GradientBased_PDF.

Section WithGenerator.

Variable G : Type.
Variable random_uniform :
  list R -> list R -> Z -> nat -> G -> G * result (list (list R)).
Variable random_choice : Z -> Z -> list R -> G -> G * result (list nat).

Record t : Type := mk {
  grad_func : list (list R) -> result (list (list R));
  limits : list (R * R)
}.

(** [GradientBased_PDF.__init__(velocity)], given the attributes [xmin] and
    [xmax] and the method [gradient] it reads from the velocity model. *)
Definition __init__ (xmins xmaxs : list R)
    (gradient : list (list R) -> result (list (list R))) : result t :=
  if (List.length xmins =? List.length xmaxs)%nat
  then Ok (mk gradient (combine xmins xmaxs))
  else Raise ValueError.

(** [int(np.sqrt(num_pts * regular))] for an [int] budget and a float
    fraction, in the arithmetic of floats: the budget is converted to a
    float, the product and the square root are each rounded, and [int]
    drops the fraction of the result.  The square root of a negative number
    is not a number, which [int] refuses. *)
Definition reg_num (num_pts : Z) (regular : binary64.t) : result Z :=
  n <- binary64.of_int num_pts ;;
  binary64.to_int (binary64.sqrt (binary64.mul n regular)).

(** [x_rand_base[rand_ids]]. *)
Fixpoint take_rows (base : list (list R)) (ids : list nat) : result (list (list R)) :=
  match ids with
  | [] => Ok []
  | i :: rest =>
      match nth_error base i with
      | Some r => rs <- take_rows base rest ;; Ok (r :: rs)
      | None => Raise IndexError
      end
  end.

(** The probabilities handed to [np.random.choice]:
    [dv = norm(dv); dv += dv.mean(); dv /= dv.sum()]. *)
Definition probabilities (dv : list (list R)) : list R :=
  let nrm := map np.norm dv in
  let mean := np.sum nrm / INR (List.length nrm) in
  let shifted := map (fun x => x + mean) nrm in
  let total := np.sum shifted in
  map (fun x => x / total) shifted.

(** [GradientBased_PDF.__call__(num_pts, regular=0.7, random_base=20000)]. *)
Definition __call__ (self : t) (num_pts : Z) (regular : binary64.t)
    (random_base : Z) : method G (list (list R)) :=
  rn <~ lift (reg_num num_pts regular) ;;
  let x_reg := map (fun lim => np.linspace (fst lim) (snd lim) (Z.to_nat rn))
                   (limits self) in
  _ <~ lift (match limits self with [] => Raise ValueError | _ => Ok tt end) ;;
  let x_reg := np.meshgrid_rows x_reg in
  let rand_num := (num_pts - rn ^ 2)%Z in
  x_rand_base <~ random_uniform (map fst (limits self)) (map snd (limits self))
                   random_base (List.length (limits self)) ;;
  dv <~ lift (grad_func self x_rand_base) ;;
  let p := probabilities dv in
  rand_ids <~ random_choice random_base rand_num p ;;
  x_rand <~ lift (take_rows x_rand_base rand_ids) ;;
  ret (x_reg ++ x_rand).

End WithGenerator.

(** The contract of the generator the sampler relies on: a draw of shape
    [(m, d)] has [m] rows, and a choice of [size] indices has [size]
    entries; both refuse a negative size, and a choice without replacement
    refuses more indices than the pool holds and gives indices below the
    size of the pool. *)
Record generator_ok {G : Type}
    (random_uniform : list R -> list R -> Z -> nat -> G -> G * result (list (list R)))
    (random_choice : Z -> Z -> list R -> G -> G * result (list nat)) : Prop := {
  uniform_rows : forall lo hi m d g X,
    snd (random_uniform lo hi m d g) = Ok X ->
    (0 <= m)%Z /\ List.length X = Z.to_nat m;
  choice_size : forall pool size p g ids,
    snd (random_choice pool size p g) = Ok ids ->
    (0 <= size <= pool)%Z /\ List.length ids = Z.to_nat size /\
    Forall (fun i => (Z.of_nat i < pool)%Z) ids
}.

End GradientBased_PDF.

End misc.

(** ** Instances of the library parameters

    Small, computable stand-ins for the SciPy interpolator and the NumPy
    generator, on which the classes above can be run. *)

Module Instances.

Local Open Scope Q_scope.

(** *** A small NumPy and SciPy

    Arrays of rationals of any number of axes, as a shape and the entries
    in row-major order, with the functions of the library parameter on
    them.  The gradient is the one [np.gradient] computes on coordinates
    that increase: one-sided differences at the two ends of an axis, and in
    between the second-order difference for the spacings on the two sides.
    An interpolator keeps the arrays it was handed, as SciPy does with
    arrays of floats, and reads them when it is queried; it is evaluated at
    the nodes of the grid, and a query off the nodes is refused. *)

Record nd : Type := mk_nd {
  shape : list nat;
  entries : list Q
}.

Definition size (sh : list nat) : nat := fold_right Nat.mul 1%nat sh.

Definition fetch (m : list nd) (r : nat) : result nd :=
  match nth_error m r with
  | Some a => Ok a
  | None => Raise TypeError
  end.

(** The entries of a one-dimensional array. *)
Definition vector (a : nd) : result (list Q) :=
  match shape a with
  | [_] => Ok (entries a)
  | _ => Raise ValueError
  end.

Fixpoint increasing (x : list Q) : bool :=
  match x with
  | a :: ((b :: _) as rest) => negb (Qle_bool b a) && increasing rest
  | _ => true
  end.

(** The difference quotient of [np.gradient] at position [i] of an axis of
    coordinates [x], for the entries [f] along that axis. *)
Definition difference (x f : nat -> Q) (n i : nat) : Q :=
  if (i =? 0)%nat then (f 1%nat - f 0%nat) / (x 1%nat - x 0%nat)
  else if (S i =? n)%nat then (f i - f (i - 1)%nat) / (x i - x (i - 1)%nat)
  else
    let hs := x i - x (i - 1)%nat in
    let hd := x (S i) - x i in
    (hs * hs * f (S i) + (hd * hd - hs * hs) * f i - hd * hd * f (i - 1)%nat)
    / (hs * hd * (hd + hs)).

(** [np.gradient(a, x, axis=k)]. *)
Definition gradient_along (a x : nd) (k : nat) : result nd :=
  match nth_error (shape a) k with
  | None => Raise AxisError
  | Some n =>
      xs <- vector x ;;
      if negb (List.length xs =? n)%nat || (n <? 2)%nat then Raise ValueError
      else
        let stride := size (skipn (S k) (shape a)) in
        let entry j := nth j (entries a) 0 in
        Ok (mk_nd (shape a)
              (map (fun idx =>
                      let i := ((idx / stride) mod n)%nat in
                      Qred (difference (fun j => nth j xs 0)
                              (fun j => entry (idx + j * stride - i * stride)%nat) n i))
                   (seq 0 (size (shape a)))))
  end.

(** The entries of an array as arrays without axes: what iterating over a
    one-dimensional array yields. *)
Definition scalars (a : nd) : list nd := map (fun q => mk_nd [] [q]) (entries a).

Definition np_gradient (m : list nd) (F : nat) (axes : list nat) : result (list nd) :=
  a <- fetch m F ;;
  xs <- misc.Interpolator.traverse (fetch m) axes ;;
  if negb (List.length xs =? List.length (shape a))%nat then Raise TypeError
  else
    gs <- misc.Interpolator.traverse
            (fun kx => gradient_along a (snd kx) (fst kx))
            (misc.Interpolator.enumerate 0 xs) ;;
    match gs with
    | [g] => Ok (scalars g)
    | _ => Ok gs
    end.

Definition np_gradient_axis (m : list nd) (c : nd) (xi : nat) (k : nat) : result nd :=
  x <- fetch m xi ;; gradient_along c x k.

Fixpoint same_shape (sh : list nat) (l : list nd) : bool :=
  match l with
  | [] => true
  | a :: rest =>
      (List.length (shape a) =? List.length sh)%nat
      && forallb (fun p => (fst p =? snd p)%nat) (combine (shape a) sh)
      && same_shape sh rest
  end.

(** [np.stack(l, axis=-1)]. *)
Definition np_stack (l : list nd) : result nd :=
  match l with
  | [] => Raise ValueError
  | a :: _ =>
      if same_shape (shape a) l
      then Ok (mk_nd (shape a ++ [List.length l])
                 (flat_map (fun idx => map (fun b => nth idx (entries b) 0) l)
                           (seq 0 (size (shape a)))))
      else Raise ValueError
  end.

Fixpoint chunks (fuel width : nat) (l : list Q) : list (list Q) :=
  match fuel with
  | O => []
  | S fuel' => firstn width l :: chunks fuel' width (skipn width l)
  end.

(** [np.sum(a, axis=-1)]. *)
Definition np_sum (a : nd) : result nd :=
  match rev (shape a) with
  | [] => Raise AxisError
  | last :: front =>
      Ok (mk_nd (rev front)
            (map (fun c => Qred (fold_right Qplus 0 c))
                 (chunks (size (rev front)) last (entries a))))
  end.

(** [a[..., i]]. *)
Definition component (m : list nd) (r : nat) (i : nat) : result nd :=
  a <- fetch m r ;;
  match rev (shape a) with
  | [] => Raise IndexError
  | last :: front =>
      if (i <? last)%nat
      then Ok (mk_nd (rev front)
                 (map (fun c => nth i c 0) (chunks (size (rev front)) last (entries a))))
      else Raise IndexError
  end.

Definition ndim (m : list nd) (r : nat) : nat :=
  match nth_error m r with
  | Some a => List.length (shape a)
  | None => 0%nat
  end.

Definition extreme (pick : Q -> Q -> Q) (m : list nd) (r : nat) : result Q :=
  a <- fetch m r ;;
  match entries a with
  | [] => Raise ValueError
  | q :: rest => Ok (fold_left pick rest q)
  end.

Definition amin : list nd -> nat -> result Q :=
  extreme (fun p q => if Qle_bool p q then p else q).
Definition amax : list nd -> nat -> result Q :=
  extreme (fun p q => if Qle_bool p q then q else p).

(** An interpolator: the arrays it was handed and the method it was given. *)
Record rgi : Type := mk_rgi {
  grid : list nat;
  field_values : nat;
  how : option string
}.

Definition known_method (kw : option string) : bool :=
  match kw with
  | None => true
  | Some name => String.eqb name "linear" || String.eqb name "nearest"
  end.

(** The axes are vectors with increasing entries, as many as the leading
    axes of the values are long. *)
Fixpoint fits (axes : list nd) (sh : list nat) : bool :=
  match axes, sh with
  | [], _ => true
  | x :: axes', n :: sh' =>
      match vector x with
      | Ok xs => (List.length xs =? n)%nat && increasing xs && fits axes' sh'
      | Raise _ => false
      end
  | _ :: _, [] => false
  end.

Definition RegularGridInterpolator (m : list nd) (axes : list nat) (v : nat)
    (kw : option string) : result rgi :=
  if known_method kw then
    xs <- misc.Interpolator.traverse (fetch m) axes ;;
    a <- fetch m v ;;
    if fits xs (shape a) then Ok (mk_rgi axes v kw) else Raise ValueError
  else Raise ValueError.

(** The position of a coordinate among the nodes of an axis. *)
Fixpoint node (xs : list Q) (q : Q) : result nat :=
  match xs with
  | [] => Raise ValueError
  | x :: rest => if Qeq_bool x q then Ok O else i <- node rest q ;; Ok (S i)
  end.

(** The offset of a point among the leading axes. *)
Fixpoint offset (axes : list nd) (sh : list nat) (p : list Q) : result nat :=
  match axes, sh, p with
  | [], _, [] => Ok O
  | x :: axes', n :: sh', q :: p' =>
      xs <- vector x ;;
      i <- node xs q ;;
      rest <- offset axes' sh' p' ;;
      Ok (i * size (firstn (List.length axes') sh') + rest)%nat
  | _, _, _ => Raise ValueError
  end.

Definition interpolate (m : list nd) (f : rgi) (X : list (list Q))
    : result (list (list Q)) :=
  xs <- misc.Interpolator.traverse (fetch m) (grid f) ;;
  a <- fetch m (field_values f) ;;
  if fits xs (shape a) then
    let width := size (skipn (List.length xs) (shape a)) in
    misc.Interpolator.traverse
      (fun p => o <- offset xs (shape a) p ;;
                Ok (firstn width (skipn (o * width) (entries a))))
      X
  else Raise ValueError.

Definition numpy : misc.Interpolator.Library nd (list (list Q)) (list (list Q))
                     (option string) rgi Q :=
  {| misc.Interpolator.RegularGridInterpolator := RegularGridInterpolator;
     misc.Interpolator.interpolate := interpolate;
     misc.Interpolator.np_gradient := np_gradient;
     misc.Interpolator.np_gradient_axis := np_gradient_axis;
     misc.Interpolator.np_stack := np_stack;
     misc.Interpolator.np_sum := np_sum;
     misc.Interpolator.component := component;
     misc.Interpolator.ndim := ndim;
     misc.Interpolator.amin := amin;
     misc.Interpolator.amax := amax |}.

(** The arrays an interpolator reads when it is queried. *)
Definition reads (f : rgi) : list nat := field_values f :: grid f.

(** The field [x ** 2 + z ** 2] on the axes [0, 1, 2] and [0, 1, 2]: the
    memory holds the field and the two axes. *)
Definition paraboloid_memory : list nd :=
  [ mk_nd [3; 3]%nat [0; 1; 4; 1; 2; 5; 4; 5; 8];
    mk_nd [3]%nat [0; 1; 2];
    mk_nd [3]%nat [0; 1; 2] ].

(** The field [x ** 2] on the axis [0, 1, 2]. *)
Definition parabola_memory : list nd :=
  [ mk_nd [3]%nat [0; 1; 4]; mk_nd [3]%nat [0; 1; 2] ].

(** The instances [Interpolator(F, x, z)] on the paraboloid and
    [Interpolator(F, x)] on the parabola, before any derived interpolator
    is built. *)
Definition paraboloid : misc.Interpolator.world nd rgi Q :=
  misc.Interpolator.at_ paraboloid_memory
    (misc.Interpolator.mk 2%nat 0%nat None None [1; 2]%nat
       (mk_rgi [1; 2]%nat 0%nat None) None None [0; 0] [2; 2] 0 8).

Definition parabola : misc.Interpolator.world nd rgi Q :=
  misc.Interpolator.at_ parabola_memory
    (misc.Interpolator.mk 1%nat 0%nat None None [1]%nat
       (mk_rgi [1]%nat 0%nat None) None None [0] [2] 0 4).

(** [Interpolator(F, *axes)] on the arrays of a memory: the world after the
    constructor, when it returns. *)
Definition constructed (m : list nd) (F : nat) (axes : list nat)
    : result (misc.Interpolator.world nd rgi Q) :=
  s <- misc.Interpolator.__init__ numpy F axes None m ;;
  Ok (misc.Interpolator.at_ m s).

(** A generator whose state counts the draws: a uniform draw puts every
    point on the lower bounds, and a choice takes the first indices. *)
Definition random_uniform0 (lo hi : list R) (m : Z) (d : nat) (g : nat)
    : nat * result (list (list R)) :=
  if (m <? 0)%Z then (g, Raise ValueError)
  else (S g, Ok (repeat lo (Z.to_nat m))).

Definition random_choice0 (pool size : Z) (p : list R) (g : nat)
    : nat * result (list nat) :=
  if ((0 <=? size)%Z && (size <=? pool)%Z)%bool
  then (S g, Ok (seq 0 (Z.to_nat size)))
  else (g, Raise ValueError).

(** The bound method [velocity.gradient] of a vertical-gradient model, on
    batches of [d] columns of floats, as [np.random.uniform] draws them. *)
Definition vertical_gradient (self : misc.VerticalGradient.t) (d : nat)
    (X : list (list R)) : result (list (list R)) :=
  Ok (np.rows (misc.VerticalGradient.gradient self np.float64 (np.mk d X))).

(** A vertical-gradient model on the unit square and one on the unit cube,
    and the samplers [GradientBased_PDF(velocity)] of the two. *)
Definition square_model : misc.VerticalGradient.t :=
  misc.VerticalGradient.__init__ 1 1 (Some [0; 0]%R) (Some [1; 1]%R).

Definition cube_model : misc.VerticalGradient.t :=
  misc.VerticalGradient.__init__ 1 1 (Some [0; 0; 0]%R) (Some [1; 1; 1]%R).

Definition square_sampler : misc.GradientBased_PDF.t :=
  misc.GradientBased_PDF.mk (vertical_gradient square_model 2)
    [(0, 1); (0, 1)]%R.

Definition cube_sampler : misc.GradientBased_PDF.t :=
  misc.GradientBased_PDF.mk (vertical_gradient cube_model 3)
    [(0, 1); (0, 1); (0, 1)]%R.

Definition sample0 :
    misc.GradientBased_PDF.t -> Z -> binary64.t -> Z -> method nat (list (list R)) :=
  misc.GradientBased_PDF.__call__ nat random_uniform0 random_choice0.

(** A grid library that only keeps what it is given, on which the loader of
    the Marmousi model can be run: the contents of an array are rows, those
    of an axis one row, and an interpolator is the axes and the field it was
    handed. *)
Definition keeper : misc.Interpolator.Library (list (list R)) unit unit unit
                      (list nat * nat) unit :=
  {| misc.Interpolator.RegularGridInterpolator := fun _ axes F _ => Ok (axes, F);
     misc.Interpolator.interpolate := fun _ _ _ => Raise ValueError;
     misc.Interpolator.np_gradient := fun _ _ _ => Raise ValueError;
     misc.Interpolator.np_gradient_axis := fun _ _ _ _ => Raise ValueError;
     misc.Interpolator.np_stack := fun _ => Raise ValueError;
     misc.Interpolator.np_sum := fun _ => Raise ValueError;
     misc.Interpolator.component := fun _ _ _ => Raise ValueError;
     misc.Interpolator.ndim := fun _ _ => 2%nat;
     misc.Interpolator.amin := fun _ _ => Ok tt;
     misc.Interpolator.amax := fun _ _ => Ok tt |}.

Definition Marmousi2 (data : np.ndarray) :
    option R -> option (option (Z * Z) * option (Z * Z)) ->
    method (list (list (list R))) (misc.Interpolator.t (list nat * nat) unit) :=
  misc.Marmousi.Marmousi keeper tt np.rows (fun x => [x]) (fun V _ => V) data.

(** A model of three rows and two columns, in m/s, and one of a thousand
    equal rows. *)
Definition small_model : np.ndarray :=
  np.mk 2 [[1500; 2000]; [2500; 3000]; [3500; 4000]]%R.

Definition tall_model : np.ndarray := np.mk 2 (repeat [1500; 2000]%R 1000).

End Instances.
Example split_three : PyStr.split "-" "ad-gauss-1" = ["ad"; "gauss"; "1"]%string.
Proof. reflexivity. Qed.

Example split_empty : PyStr.split "-" EmptyString = [EmptyString].
Proof. reflexivity. Qed.

Example split_leading : PyStr.split "-" "-tanh-2" = [EmptyString; "tanh"; "2"]%string.
Proof. reflexivity. Qed.

(** [float] on texts, against what Python gives: [1.5], [-2.0], [12.0],
    [0.5], [0.1] (the float 3602879701896397 / 2 ** 55), and the largest
    integer below which every integer is a float. *)
Example float_of_texts :
  PyStr.float "1.5" = Ok (binary64.of_quotient 15 10) /\
  binary64.to_Q (binary64.of_quotient 15 10) = Some (3 # 2)%Q /\
  PyStr.float "-2" = Ok (binary64.opp (binary64.of_Z 2)) /\
  PyStr.float "12" = Ok (binary64.of_Z 12) /\
  PyStr.float ".5" = Ok (binary64.of_quotient 5 10) /\
  PyStr.float "0.1" = Ok (S754_finite false 7205759403792794 (-56)) /\
  PyStr.float "9007199254740993" = PyStr.float "9007199254740992" /\
  PyStr.float "." = Raise ValueError /\
  PyStr.float "1.2.3" = Raise ValueError /\
  PyStr.float EmptyString = Raise ValueError.
Proof. repeat split; vm_compute; reflexivity. Qed.

(** The superscript two is a digit that [float] refuses; the Arabic-Indic
    three is a decimal digit, alone and next to an ASCII digit. *)
Example float_of_other_digits :
  PyStr.decode baseLayers.superscript_two = Some [178%N] /\
  PyStr.isdigit baseLayers.superscript_two = true /\
  PyStr.isdecimal baseLayers.superscript_two = false /\
  PyStr.float baseLayers.superscript_two = Raise ValueError /\
  PyStr.decode baseLayers.arabic_indic_three = Some [1635%N] /\
  PyStr.isdecimal baseLayers.arabic_indic_three = true /\
  PyStr.float baseLayers.arabic_indic_three = Ok (binary64.of_Z 3) /\
  PyStr.float ("1" ++ baseLayers.arabic_indic_three) = Ok (binary64.of_Z 13).
Proof. repeat split; vm_compute; reflexivity. Qed.

Example slice_last_but_one :
  np.slice (Some (-2)%Z) (Some (-1)%Z) [1%nat; 2%nat; 3%nat] = [2%nat] /\
  np.slice (Some (-2)%Z) (Some (-1)%Z) [1%nat] = [] /\
  np.slice None (Some (-1)%Z) [1%nat; 2%nat; 3%nat] = [1%nat; 2%nat].
Proof. repeat split; reflexivity. Qed.

Example Activation_plain_name :
  baseLayers.Activation "tanh" = Ok (baseLayers.Function tanh) /\
  baseLayers.Activation "cube" = Ok (baseLayers.Text "cube").
Proof. split; reflexivity. Qed.

Example Activation_without_marker :
  exists l, baseLayers.Activation "-tanh-2" = Ok (baseLayers.Layer l) /\
            baseLayers.AdaptiveActivation.adapt l = false /\
            baseLayers.AdaptiveActivation.n l = binary64.of_Z 2 /\
            baseLayers.AdaptiveActivation.weights l = [].
Proof. eexists. repeat split; reflexivity. Qed.

Example unknown_name_raises :
  baseLayers.AdaptiveActivation.__init__ "ad-cube-1"
  = Raise (KeyError "cube").
Proof. reflexivity. Qed.

Example gradient_of_three_columns :
  misc.VerticalGradient.gradient (misc.VerticalGradient.__init__ 1 2 None None)
    np.float64 (np.mk 3 [[5; 6; 7]; [8; 9; 10]]%R)
  = np.mk 3 [[0; 0; 2]; [0; 0; 2]]%R.
Proof. reflexivity. Qed.

(** The float nearest to an integer, and to a decimal literal. *)
Example float_of_twelve : binary64.to_Q (binary64.of_Z 12) = Some (12 # 1)%Q.
Proof. reflexivity. Qed.

Example float_of_large_integer :
  binary64.of_Z (2 ^ 53 + 1) = binary64.of_Z (2 ^ 53) /\
  binary64.of_Z (10 ^ 400) = S754_infinity false.
Proof. split; vm_compute; reflexivity. Qed.

Example float_seven_tenths :
  binary64.of_quotient 7 10 = S754_finite false 6305039478318694 (-53).
Proof. vm_compute. reflexivity. Qed.

(** The regular count in the arithmetic of floats: [5670 * 0.7] is just
    below 3969 and its square root just below 63, while [70 * 0.7] rounds
    to 49. *)
Example reg_num_of_floats :
  misc.GradientBased_PDF.reg_num 1000 (binary64.of_quotient 7 10) = Ok 26%Z /\
  misc.GradientBased_PDF.reg_num 5670 (binary64.of_quotient 7 10) = Ok 62%Z /\
  misc.GradientBased_PDF.reg_num 70 (binary64.of_quotient 7 10) = Ok 7%Z /\
  misc.GradientBased_PDF.reg_num 10 (binary64.of_quotient 7 10) = Ok 2%Z /\
  misc.GradientBased_PDF.reg_num (-10) (binary64.of_quotient 7 10) = Raise ValueError /\
  misc.GradientBased_PDF.reg_num (10 ^ 400) (binary64.of_quotient 7 10)
  = Raise OverflowError.
Proof. repeat split; vm_compute; reflexivity. Qed.

(** * Properties *)

(** ** Splitting and digit texts *)

Section PyStrFacts.

Local Open Scope string_scope.

Lemma split_not_nil (sep : ascii) (s : string) : PyStr.split sep s <> [].
Proof.
  induction s as [|c r IH]; simpl; [discriminate|].
  destruct (Ascii.eqb c sep); [discriminate|].
  destruct (PyStr.split sep r); [contradiction|discriminate].
Qed.

Lemma prefix_one_char (sep c : ascii) (r : string) :
  String.prefix (String sep EmptyString) (String c r) = Ascii.eqb c sep.
Proof.
  simpl. destruct (ascii_dec sep c) as [->|Hne].
  - rewrite Ascii.eqb_refl. now destruct r.
  - symmetry. apply Ascii.eqb_neq. congruence.
Qed.

(** A text splits into one part exactly when the separator is not in it. *)
Lemma split_single (sep : ascii) (s : string) :
  (List.length (PyStr.split sep s) =? 1)%nat
  = negb (PyStr.contains (String sep EmptyString) s).
Proof.
  induction s as [|c r IH].
  - reflexivity.
  - cbn [PyStr.split PyStr.contains]. rewrite prefix_one_char.
    destruct (Ascii.eqb c sep).
    + cbn. pose proof (split_not_nil sep r).
      destruct (PyStr.split sep r); [contradiction|reflexivity].
    + cbn [orb]. rewrite <- IH. pose proof (split_not_nil sep r).
      destruct (PyStr.split sep r); [contradiction|reflexivity].
Qed.

(** The value of a decimal digit is below ten. *)
Lemma decimal_value_below_ten (c d : N) :
  PyStr.decimal_value c = Some d -> (d < 10)%N.
Proof.
  unfold PyStr.decimal_value.
  destruct (find _ PyStr.decimal_starts) as [start|] eqn:E; [|discriminate].
  apply find_some in E as [_ E]. intros [= <-].
  apply andb_true_iff in E as [H1 H2].
  apply N.leb_le in H1. apply N.ltb_lt in H2. lia.
Qed.

(** The ASCII digits are the first run of the table. *)
Lemma decimal_value_ascii (d : N) :
  (d < 10)%N -> PyStr.decimal_value (48 + d) = Some d.
Proof.
  intros Hd. unfold PyStr.decimal_value, PyStr.decimal_starts. cbn [find].
  replace ((48 <=? 48 + d)%N && (48 + d <? 48 + 10)%N) with true.
  - f_equal. lia.
  - symmetry. apply andb_true_iff. split; [apply N.leb_le|apply N.ltb_lt]; lia.
Qed.

(** A digit that is not decimal lies beyond ASCII. *)
Lemma other_digit_beyond_ascii (c : N) :
  PyStr.is_digit c = true -> PyStr.decimal_value c = None -> (128 <= c)%N.
Proof.
  unfold PyStr.is_digit, PyStr.is_decimal. intros H Hd. rewrite Hd in H.
  cbn [orb] in H. apply existsb_exists in H as (r & Hin & Hr).
  apply andb_true_iff in Hr as [Hlo _]. apply N.leb_le in Hlo.
  assert (Hall : forallb (fun r => (128 <=? fst r)%N) PyStr.digit_ranges = true)
    by reflexivity.
  rewrite forallb_forall in Hall. specialize (Hall r Hin). apply N.leb_le in Hall. lia.
Qed.

Lemma decimal_is_digit (c : N) : PyStr.is_decimal c = true -> PyStr.is_digit c = true.
Proof. unfold PyStr.is_digit. now intros ->. Qed.

(** A text that passes [isdecimal] passes [isdigit]. *)
Lemma isdecimal_isdigit (s : string) :
  PyStr.isdecimal s = true -> PyStr.isdigit s = true.
Proof.
  unfold PyStr.isdecimal, PyStr.isdigit, PyStr.all_chars.
  destruct (PyStr.decode s) as [[|c cs]|]; try discriminate.
  rewrite !forallb_forall. intros H x Hx. apply decimal_is_digit. now apply H.
Qed.

(** The first step of [float] turns a run of decimal digits into the ASCII
    digits of the same values. *)
Lemma to_ascii_decimal (cs : list N) :
  forallb PyStr.is_decimal cs = true ->
  exists ds,
    PyStr.to_ascii cs = Some (map (fun d => (48 + d)%N) ds) /\
    Forall (fun d => (d < 10)%N) ds /\
    List.length ds = List.length cs /\
    forall acc, PyStr.digits_value acc (map (fun d => (48 + d)%N) ds)
                = PyStr.digits_value acc cs.
Proof.
  induction cs as [|c cs IH]; cbn [forallb].
  - intros _. exists []. repeat split. constructor.
  - intros [Hc Hcs]%andb_true_iff. destruct (IH Hcs) as (ds & Hds & Hlt & Hlen & Hval).
    unfold PyStr.is_decimal in Hc.
    destruct (PyStr.decimal_value c) as [d|] eqn:Hd; [|discriminate].
    pose proof (decimal_value_below_ten c d Hd) as Hd10.
    exists (d :: ds). cbn [PyStr.to_ascii map List.length]. rewrite Hd, Hds.
    split; [reflexivity|]. split; [now constructor|]. split; [now rewrite Hlen|].
    intros acc. cbn [PyStr.digits_value].
    now rewrite (decimal_value_ascii d Hd10), Hd, Hval.
Qed.

(** It has no reading for a text with a digit that is not decimal. *)
Lemma to_ascii_other_digit (cs : list N) :
  forallb PyStr.is_digit cs = true ->
  forallb PyStr.is_decimal cs = false ->
  PyStr.to_ascii cs = None.
Proof.
  induction cs as [|c cs IH]; cbn [forallb]; [discriminate|].
  intros [Hc Hcs]%andb_true_iff Hdec. cbn [PyStr.to_ascii].
  unfold PyStr.is_decimal in Hdec at 1.
  destruct (PyStr.decimal_value c) as [d|] eqn:Hd.
  - cbn [andb] in Hdec. now rewrite (IH Hcs Hdec).
  - pose proof (other_digit_beyond_ascii c Hc Hd) as Hc128.
    destruct (N.ltb_spec c 128); [lia|reflexivity].
Qed.

(** A run of ASCII digits holds no sign and no point, and all of it is
    decimal. *)
Lemma ascii_digits_plain (ds : list N) :
  Forall (fun d => (d < 10)%N) ds ->
  PyStr.at_point (map (fun d => (48 + d)%N) ds) = (map (fun d => (48 + d)%N) ds, None) /\
  forallb PyStr.is_decimal (map (fun d => (48 + d)%N) ds) = true.
Proof.
  induction 1 as [|d ds Hd Hds [IH1 IH2]]; [now split|].
  cbn [map PyStr.at_point forallb]. rewrite IH1, IH2.
  destruct (N.eqb_spec (48 + d) 46); [lia|].
  unfold PyStr.is_decimal at 1. now rewrite (decimal_value_ascii d Hd).
Qed.

(** [float] on a text that passes [isdecimal] is the float nearest to the
    number it denotes. *)
Lemma float_of_decimal (s : string) :
  PyStr.isdecimal s = true ->
  PyStr.float s = Ok (binary64.of_Z (Z.of_N (PyStr.number s))).
Proof.
  unfold PyStr.isdecimal, PyStr.all_chars, PyStr.float, PyStr.number.
  destruct (PyStr.decode s) as [[|c cs]|]; try discriminate.
  intros Hdec. destruct (to_ascii_decimal (c :: cs) Hdec) as (ds & Hds & Hlt & Hlen & Hval).
  cbn [option_map]. rewrite Hds.
  destruct ds as [|d ds]; [discriminate|].
  destruct (ascii_digits_plain (d :: ds) Hlt) as [Hpoint Hall].
  inversion Hlt as [|? ? Hd _]; subst.
  cbn [map] in *.
  destruct (N.eqb_spec (48 + d) 45); [lia|].
  destruct (N.eqb_spec (48 + d) 43); [lia|].
  rewrite Hpoint, Hall. cbn [forallb andb List.length Nat.add Nat.eqb negb].
  now rewrite (Hval 0%N).
Qed.

(** [float] refuses a text with a character that is a digit but not a
    decimal digit. *)
Lemma float_of_other_digit (s : string) :
  PyStr.isdigit s = true ->
  PyStr.isdecimal s = false ->
  PyStr.float s = Raise ValueError.
Proof.
  unfold PyStr.isdigit, PyStr.isdecimal, PyStr.all_chars, PyStr.float.
  destruct (PyStr.decode s) as [[|c cs]|]; try discriminate.
  intros Hdig Hdec. cbn [option_map]. now rewrite (to_ascii_other_digit _ Hdig Hdec).
Qed.

End PyStrFacts.

(** ** Adaptive activations and the dispatcher *)

Section ActivationFacts.

Import baseLayers.
Local Open Scope string_scope.

(** Every outcome of the constructor, by the parts of the specifier. *)
Lemma init_outcome (spec : string) :
  AdaptiveActivation.__init__ spec =
  match PyStr.split "-" spec with
  | [p0; p1; p2] =>
      match dict_get ACTS p1 with
      | None => Raise (KeyError p1)
      | Some f =>
          if PyStr.isdigit p2 then
            if PyStr.isdecimal p2
            then Ok (built p0 f (binary64.of_Z (Z.of_N (PyStr.number p2))))
            else Raise ValueError
          else Ok (built p0 f binary64.one)
      end
  | _ => Raise AssertionError
  end.
Proof.
  unfold AdaptiveActivation.__init__.
  destruct (PyStr.split "-" spec) as [|p0 [|p1 [|p2 [|p3 ps]]]]; try reflexivity.
  unfold dict_item. destruct (dict_get ACTS p1) as [f|]; [|reflexivity].
  cbn [bind]. unfold built.
  destruct (PyStr.isdigit p2) eqn:Hdig.
  - destruct (PyStr.isdecimal p2) eqn:Hdec.
    + rewrite (float_of_decimal p2 Hdec).
      cbn [bind]. destruct (PyStr.contains "ad" p0); reflexivity.
    + rewrite (float_of_other_digit p2 Hdig Hdec). reflexivity.
  - cbn [bind]. destruct (PyStr.contains "ad" p0); reflexivity.
Qed.

(** C1, as the code has it: from a three-part specifier with a registered
    name, construction succeeds with the degree [n] the float nearest to
    the number the degree part denotes when that part is a non-empty run of
    decimal digits (it passes [isdecimal]), and with [n = 1.0] when the
    degree part does not pass [isdigit]; and whenever construction
    succeeds, [n] is the one or the other. *)
Theorem degree_of_constructed_layer (spec p0 p1 p2 : string) :
  PyStr.split "-" spec = [p0; p1; p2] ->
  dict_mem ACTS p1 = true ->
  (PyStr.isdecimal p2 = true ->
   exists l, AdaptiveActivation.__init__ spec = Ok l /\
             AdaptiveActivation.n l = binary64.of_Z (Z.of_N (PyStr.number p2))) /\
  (PyStr.isdigit p2 = false ->
   exists l, AdaptiveActivation.__init__ spec = Ok l /\
             AdaptiveActivation.n l = binary64.one) /\
  (forall l, AdaptiveActivation.__init__ spec = Ok l ->
     AdaptiveActivation.n l =
       if PyStr.isdecimal p2
       then binary64.of_Z (Z.of_N (PyStr.number p2)) else binary64.one).
Proof.
  intros Hparts Hname. rewrite init_outcome, Hparts.
  unfold dict_mem in Hname.
  destruct (dict_get ACTS p1) as [f|]; [clear Hname|discriminate].
  assert (Hn : forall d, AdaptiveActivation.n (built p0 f d) = d).
  { intros d. unfold built. now destruct (PyStr.contains "ad" p0). }
  split; [|split].
  - intros Hdec. rewrite (isdecimal_isdigit p2 Hdec), Hdec.
    eexists. split; [reflexivity|apply Hn].
  - intros Hdig. rewrite Hdig. eexists. split; [reflexivity|apply Hn].
  - intros l Hinit. destruct (PyStr.isdecimal p2) eqn:Hd.
    + rewrite (isdecimal_isdigit p2 Hd) in Hinit. injection Hinit as <-. apply Hn.
    + destruct (PyStr.isdigit p2); [discriminate|].
      injection Hinit as <-. apply Hn.
Qed.

Lemma degree_of_constructed_layer_witness :
  (exists l, AdaptiveActivation.__init__ "ad-gauss-12" = Ok l /\
             AdaptiveActivation.n l = binary64.of_Z 12) /\
  (exists l, AdaptiveActivation.__init__ ("ad-gauss-" ++ arabic_indic_three) = Ok l /\
             AdaptiveActivation.n l = binary64.of_Z 3) /\
  (exists l, AdaptiveActivation.__init__ "ad-gauss-1.5" = Ok l /\
             AdaptiveActivation.n l = binary64.one).
Proof.
  split; [|split].
  - exact (proj1 (degree_of_constructed_layer "ad-gauss-12" "ad" "gauss" "12"
                    eq_refl eq_refl) eq_refl).
  - exact (proj1 (degree_of_constructed_layer ("ad-gauss-" ++ arabic_indic_three)
                    "ad" "gauss" arabic_indic_three eq_refl eq_refl) eq_refl).
  - exact (proj1 (proj2 (degree_of_constructed_layer "ad-gauss-1.5" "ad" "gauss" "1.5"
                           eq_refl eq_refl)) eq_refl).
Defined.

(** C1 fails as stated: the degree part [1.5] is the text of the float 1.5,
    and the layer built from [ad-gauss-1.5] has degree 1.0; with the degree
    part [-2] the specifier has four parts and no layer is built. *)
Lemma degree_text_counterexample :
  PyStr.float "1.5" = Ok (binary64.of_quotient 15 10) /\
  binary64.to_Q (binary64.of_quotient 15 10) = Some (3 # 2)%Q /\
  (exists l, AdaptiveActivation.__init__ "ad-gauss-1.5" = Ok l /\
             AdaptiveActivation.n l = binary64.one) /\
  binary64.to_Q binary64.one = Some 1%Q /\
  binary64.one <> binary64.of_quotient 15 10 /\
  PyStr.float "-2" = Ok (binary64.opp (binary64.of_Z 2)) /\
  AdaptiveActivation.__init__ "ad-gauss--2" = Raise AssertionError.
Proof.
  split; [vm_compute; reflexivity|]. split; [vm_compute; reflexivity|]. split.
  - eexists. split; vm_compute; reflexivity.
  - split; [vm_compute; reflexivity|]. split; [vm_compute; discriminate|].
    split; vm_compute; reflexivity.
Qed.

(** C4: a layer constructed from a three-part specifier whose middle part
    names the registry function [f] owns, when the adapt marker is present,
    exactly one weight [a], trainable, of shape (1,), initialised to 1.0,
    and evaluates to [f(n * a * X)] for the current value of [a]; when the
    marker is absent it owns no weight and evaluates to [f(n * X)]. *)
Theorem adaptive_weight_and_evaluation
    (spec p0 p1 p2 : string) (f : R -> R) (l : AdaptiveActivation.t) (X : list R) :
  PyStr.split "-" spec = [p0; p1; p2] ->
  dict_get ACTS p1 = Some f ->
  AdaptiveActivation.__init__ spec = Ok l ->
  if PyStr.contains "ad" p0 then
    AdaptiveActivation.weights l = [mkWeight "a" [1%nat] 1%R true] /\
    AdaptiveActivation.trainable_weights l = AdaptiveActivation.weights l /\
    AdaptiveActivation.call l X =
      Ok (map (fun x => f (binary64.to_R (AdaptiveActivation.n l) * 1 * x)%R) X) /\
    forall v : R,
      AdaptiveActivation.call (AdaptiveActivation.trained v l) X =
        Ok (map (fun x => f (binary64.to_R (AdaptiveActivation.n l) * v * x)%R) X)
  else
    AdaptiveActivation.weights l = [] /\
    AdaptiveActivation.trainable_weights l = [] /\
    AdaptiveActivation.call l X =
      Ok (map (fun x => f (binary64.to_R (AdaptiveActivation.n l) * x)%R) X).
Proof.
  intros Hparts Hf Hinit. rewrite init_outcome, Hparts, Hf in Hinit.
  assert (Hl : exists d, l = built p0 f d).
  { destruct (PyStr.isdigit p2).
    - destruct (PyStr.isdecimal p2); [|discriminate].
      injection Hinit as <-. now eexists.
    - injection Hinit as <-. now eexists. }
  destruct Hl as [d ->]. unfold built.
  destruct (PyStr.contains "ad" p0); repeat split; reflexivity.
Qed.

Lemma adaptive_weight_and_evaluation_witness :
  AdaptiveActivation.weights (built "ad" (fun z => exp (- z ^ 2))%R binary64.one)
    = [mkWeight "a" [1%nat] 1%R true] /\
  AdaptiveActivation.call (built "ad" (fun z => exp (- z ^ 2))%R binary64.one) [0%R]
    = Ok [exp (- (binary64.to_R binary64.one * 1 * 0) ^ 2)%R] /\
  AdaptiveActivation.weights (built EmptyString (fun z => exp (- z ^ 2))%R binary64.one) = [] /\
  AdaptiveActivation.call (built EmptyString (fun z => exp (- z ^ 2))%R binary64.one) [0%R]
    = Ok [exp (- (binary64.to_R binary64.one * 0) ^ 2)%R].
Proof.
  pose proof (adaptive_weight_and_evaluation "ad-gauss-1" "ad" "gauss" "1"
                _ _ [0%R] eq_refl eq_refl eq_refl) as Had.
  pose proof (adaptive_weight_and_evaluation "-gauss-1" EmptyString "gauss" "1"
                _ _ [0%R] eq_refl eq_refl eq_refl) as Hno.
  cbv beta iota in Had, Hno.
  destruct Had as (Hw & _ & Hc & _). destruct Hno as (Hw' & _ & Hc').
  exact (conj Hw (conj Hc (conj Hw' Hc'))).
Defined.

(** C5 at the failing input: the specifier has three parts and a registered
    name, and construction raises [ValueError], because [isdigit] accepts
    the superscript two and [float] does not. *)
Theorem superscript_degree_raises :
  PyStr.split "-" superscript_specifier
    = [EmptyString; "gauss"; superscript_two] /\
  dict_mem ACTS "gauss" = true /\
  AdaptiveActivation.__init__ superscript_specifier = Raise ValueError.
Proof. repeat split; reflexivity. Qed.

(** Apart from such degree parts, construction fails exactly on a specifier
    that has not three parts (the assertion) or whose name is not
    registered (the lookup), and succeeds otherwise. *)
Lemma init_fails_iff (spec : string) :
  (forall p0 p1 p2, PyStr.split "-" spec = [p0; p1; p2] ->
     PyStr.isdigit p2 = true -> PyStr.isdecimal p2 = true) ->
  (AdaptiveActivation.__init__ spec = Raise AssertionError <->
     List.length (PyStr.split "-" spec) <> 3%nat) /\
  (forall p1, AdaptiveActivation.__init__ spec = Raise (KeyError p1) <->
     exists p0 p2, PyStr.split "-" spec = [p0; p1; p2] /\ dict_mem ACTS p1 = false) /\
  (returns (AdaptiveActivation.__init__ spec) = true <->
     exists p0 p1 p2, PyStr.split "-" spec = [p0; p1; p2] /\ dict_mem ACTS p1 = true).
Proof.
  intros Hdeg. rewrite init_outcome. unfold dict_mem.
  destruct (PyStr.split "-" spec) as [|p0 [|p1 [|p2 [|p3 ps]]]];
    try (split; [split; [intros _; cbn; lia|reflexivity]
                |split; [intros q; split; [discriminate|intros (? & ? & [=] & _)]
                        |split; [discriminate|intros (? & ? & ? & [=] & _)]]]).
  specialize (Hdeg p0 p1 p2 eq_refl).
  destruct (dict_get ACTS p1) as [f|] eqn:Hf.
  - assert (Hok : exists l,
      (if PyStr.isdigit p2
       then if PyStr.isdecimal p2
            then Ok (built p0 f (binary64.of_Z (Z.of_N (PyStr.number p2))))
            else Raise ValueError
       else Ok (built p0 f binary64.one)) = Ok l).
    { destruct (PyStr.isdigit p2); [rewrite (Hdeg eq_refl)|]; now eexists. }
    destruct Hok as [l ->]. split; [|split].
    + split; [discriminate|cbn; lia].
    + intros q. split; [discriminate|].
      intros (? & ? & [= <- <- <-] & Hm). rewrite Hf in Hm. discriminate.
    + split; [intros _|reflexivity]. exists p0, p1, p2. now rewrite Hf.
  - split; [|split].
    + split; [discriminate|cbn; lia].
    + intros q. split.
      * intros [= <-]. exists p0, p2. now rewrite Hf.
      * intros (? & ? & [= <- <- <-] & _). reflexivity.
    + split; [discriminate|]. intros (? & ? & ? & [= <- <- <-] & Hm).
      rewrite Hf in Hm. discriminate.
Qed.

(** C6, as the code has it: a specifier without a dash gives the registry
    function of that name, or the specifier itself when the name is not
    registered; a specifier with a dash gives what the constructor of
    [AdaptiveActivation] gives on it, the layer or the exception. *)
Theorem Activation_dispatch (spec : string) :
  Activation spec =
  if PyStr.contains "-" spec then
    match AdaptiveActivation.__init__ spec with
    | Ok l => Ok (Layer l)
    | Raise e => Raise e
    end
  else
    match dict_get ACTS spec with
    | Some f => Ok (Function f)
    | None => Ok (Text spec)
    end.
Proof.
  unfold Activation. rewrite split_single.
  destruct (PyStr.contains "-" spec); cbn [negb].
  - reflexivity.
  - unfold dict_mem, dict_item. now destruct (dict_get ACTS spec).
Qed.

(** C6 fails as stated: [tanh-2] contains a dash and no layer is returned;
    the assertion on the number of parts fails. *)
Lemma Activation_dash_counterexample :
  PyStr.contains "-" "tanh-2" = true /\
  Activation "tanh-2" = Raise AssertionError.
Proof. split; reflexivity. Qed.

End ActivationFacts.

(** ** Lazily computed attributes of the analytic velocity models *)

Section CachingFacts.

Import misc.
Local Open Scope R_scope.

Ltac run_method :=
  unfold mbind, when, get, modify, lift, ret, raise, is_None in *; cbn in *.

(** What a value query that returns leaves in the attributes of a
    vertical-gradient model. *)
Lemma VerticalGradient_first_query (self self' : VerticalGradient.t)
    (X : np.ndarray) (V : list R) :
  VerticalGradient.__call__ X self = (self', Ok V) ->
  VerticalGradient.xmin self'
    = cached (VerticalGradient.xmin self) (np.reduce_axis0 Rmin (np.rows X)) /\
  VerticalGradient.xmax self'
    = cached (VerticalGradient.xmax self) (np.reduce_axis0 Rmax (np.rows X)) /\
  VerticalGradient.dim self' = cached (VerticalGradient.dim self) (Ok (np.cols X)) /\
  VerticalGradient.min self' = cached (VerticalGradient.min self) (np.reduce_all Rmin V) /\
  VerticalGradient.max self' = cached (VerticalGradient.max self) (np.reduce_all Rmax V) /\
  VerticalGradient.complete self' = true.
Proof.
  destruct self as [v0 a [xmin|] [xmax|] [mn|] [mx|] [d|]], X as [[|c] [|r rs]];
    unfold VerticalGradient.__call__; run_method;
    intros H; inversion H; subst; cbn; repeat split; congruence.
Qed.

(** A value query, returning or raising, assigns no attribute that is set. *)
Lemma VerticalGradient_query_keeps (self : VerticalGradient.t) (Y : np.ndarray) :
  let self' := fst (VerticalGradient.__call__ Y self) in
  (forall v, VerticalGradient.xmin self = Some v -> VerticalGradient.xmin self' = Some v) /\
  (forall v, VerticalGradient.xmax self = Some v -> VerticalGradient.xmax self' = Some v) /\
  (forall v, VerticalGradient.dim self = Some v -> VerticalGradient.dim self' = Some v) /\
  (forall v, VerticalGradient.min self = Some v -> VerticalGradient.min self' = Some v) /\
  (forall v, VerticalGradient.max self = Some v -> VerticalGradient.max self' = Some v).
Proof.
  destruct self as [v0 a [xmin|] [xmax|] [mn|] [mx|] [d|]], Y as [[|c] [|r rs]];
    unfold VerticalGradient.__call__; run_method;
    repeat split; intros v Hv; congruence.
Qed.

Lemma VerticalGradient_complete_fixed (self : VerticalGradient.t) (Y : np.ndarray) :
  VerticalGradient.complete self = true ->
  fst (VerticalGradient.__call__ Y self) = self.
Proof.
  destruct self as [v0 a [xmin|] [xmax|] [mn|] [mx|] [d|]]; try discriminate.
  intros _. destruct Y as [[|c] rs];
    unfold VerticalGradient.__call__; run_method; reflexivity.
Qed.

Lemma VerticalGradient_queries_fixed (self : VerticalGradient.t) (Ys : list np.ndarray) :
  VerticalGradient.complete self = true ->
  VerticalGradient.queries self Ys = self.
Proof.
  intros Hc. induction Ys as [|Y Ys IH]; [reflexivity|].
  unfold VerticalGradient.queries in *. cbn [fold_left].
  now rewrite VerticalGradient_complete_fixed.
Qed.

Lemma VerticalGradient_queries_keep (self : VerticalGradient.t) (Ys : list np.ndarray) :
  (forall v, VerticalGradient.xmin self = Some v ->
             VerticalGradient.xmin (VerticalGradient.queries self Ys) = Some v) /\
  (forall v, VerticalGradient.xmax self = Some v ->
             VerticalGradient.xmax (VerticalGradient.queries self Ys) = Some v).
Proof.
  revert self. induction Ys as [|Y Ys IH]; intros self; [now split|].
  unfold VerticalGradient.queries in *. cbn [fold_left].
  destruct (VerticalGradient_query_keeps self Y) as (Hlo & Hhi & _).
  destruct (IH (fst (VerticalGradient.__call__ Y self))) as [IHlo IHhi].
  split; intros v Hv; [apply IHlo, Hlo, Hv|apply IHhi, Hhi, Hv].
Qed.

(** The same three facts for the Gaussian-anomaly model, whose lazily
    computed attributes are the two bounds. *)
Lemma LocAnomaly_first_query (self self' : LocAnomaly.t) (X : np.ndarray) (V : list R) :
  LocAnomaly.__call__ X self = (self', Ok V) ->
  LocAnomaly.xmin self'
    = cached (LocAnomaly.xmin self) (np.reduce_axis0 Rmin (np.rows X)) /\
  LocAnomaly.xmax self'
    = cached (LocAnomaly.xmax self) (np.reduce_axis0 Rmax (np.rows X)) /\
  LocAnomaly.xmin self' <> None /\ LocAnomaly.xmax self' <> None.
Proof.
  destruct self as [mus sigmas [xmin|] [xmax|] mn mx d vmin vmax], X as [[|c] [|r rs]];
    unfold LocAnomaly.__call__; run_method;
    repeat match goal with
           | |- context [np.broadcast_cols ?x ?y] => destruct (np.broadcast_cols x y)
           end; cbn;
    intros H; inversion H; subst; cbn; repeat split; congruence.
Qed.

Lemma LocAnomaly_query_keeps (self : LocAnomaly.t) (Y : np.ndarray) :
  let self' := fst (LocAnomaly.__call__ Y self) in
  (forall v, LocAnomaly.xmin self = Some v -> LocAnomaly.xmin self' = Some v) /\
  (forall v, LocAnomaly.xmax self = Some v -> LocAnomaly.xmax self' = Some v).
Proof.
  destruct self as [mus sigmas [xmin|] [xmax|] mn mx d vmin vmax], Y as [[|c] [|r rs]];
    unfold LocAnomaly.__call__; run_method;
    repeat match goal with
           | |- context [np.broadcast_cols ?x ?y] => destruct (np.broadcast_cols x y)
           end; cbn;
    repeat split; intros v Hv; congruence.
Qed.

Lemma LocAnomaly_set_fixed (self : LocAnomaly.t) (Y : np.ndarray) :
  LocAnomaly.xmin self <> None -> LocAnomaly.xmax self <> None ->
  fst (LocAnomaly.__call__ Y self) = self.
Proof.
  destruct self as [mus sigmas [xmin|] [xmax|] mn mx d vmin vmax]; cbn; try congruence.
  intros _ _. unfold LocAnomaly.__call__; run_method.
  repeat match goal with
         | |- context [np.broadcast_cols ?x ?y] => destruct (np.broadcast_cols x y)
         end; reflexivity.
Qed.

Lemma LocAnomaly_queries_fixed (self : LocAnomaly.t) (Ys : list np.ndarray) :
  LocAnomaly.xmin self <> None -> LocAnomaly.xmax self <> None ->
  LocAnomaly.queries self Ys = self.
Proof.
  intros Hlo Hhi. induction Ys as [|Y Ys IH]; [reflexivity|].
  unfold LocAnomaly.queries in *. cbn [fold_left].
  now rewrite LocAnomaly_set_fixed.
Qed.

Lemma LocAnomaly_queries_keep (self : LocAnomaly.t) (Ys : list np.ndarray) :
  (forall v, LocAnomaly.xmin self = Some v ->
             LocAnomaly.xmin (LocAnomaly.queries self Ys) = Some v) /\
  (forall v, LocAnomaly.xmax self = Some v ->
             LocAnomaly.xmax (LocAnomaly.queries self Ys) = Some v).
Proof.
  revert self. induction Ys as [|Y Ys IH]; intros self; [now split|].
  unfold LocAnomaly.queries in *. cbn [fold_left].
  destruct (LocAnomaly_query_keeps self Y) as (Hlo & Hhi).
  destruct (IH (fst (LocAnomaly.__call__ Y self))) as [IHlo IHhi].
  split; intros v Hv; [apply IHlo, Hlo, Hv|apply IHhi, Hhi, Hv].
Qed.

(** C7: for both analytic models, a value query that returns leaves in
    every lazily computed attribute the value it had if it was set (at
    construction or before) and the value computed from this batch
    otherwise; every later value query leaves the object as it is; and
    bounds given at construction survive every sequence of value queries. *)
Theorem lazy_attributes_reflect_first_batch :
  (forall (self self' : VerticalGradient.t) (X : np.ndarray) (V : list R)
          (Ys : list np.ndarray),
     VerticalGradient.__call__ X self = (self', Ok V) ->
     VerticalGradient.xmin self'
       = cached (VerticalGradient.xmin self) (np.reduce_axis0 Rmin (np.rows X)) /\
     VerticalGradient.xmax self'
       = cached (VerticalGradient.xmax self) (np.reduce_axis0 Rmax (np.rows X)) /\
     VerticalGradient.dim self' = cached (VerticalGradient.dim self) (Ok (np.cols X)) /\
     VerticalGradient.min self'
       = cached (VerticalGradient.min self) (np.reduce_all Rmin V) /\
     VerticalGradient.max self'
       = cached (VerticalGradient.max self) (np.reduce_all Rmax V) /\
     VerticalGradient.complete self' = true /\
     VerticalGradient.queries self' Ys = self') /\
  (forall (self self' : LocAnomaly.t) (X : np.ndarray) (V : list R)
          (Ys : list np.ndarray),
     LocAnomaly.__call__ X self = (self', Ok V) ->
     LocAnomaly.xmin self'
       = cached (LocAnomaly.xmin self) (np.reduce_axis0 Rmin (np.rows X)) /\
     LocAnomaly.xmax self'
       = cached (LocAnomaly.xmax self) (np.reduce_axis0 Rmax (np.rows X)) /\
     LocAnomaly.xmin self' <> None /\ LocAnomaly.xmax self' <> None /\
     LocAnomaly.queries self' Ys = self') /\
  (forall (v0 a : R) (lo hi : list R) (Ys : list np.ndarray),
     let self := VerticalGradient.queries
                   (VerticalGradient.__init__ v0 a (Some lo) (Some hi)) Ys in
     VerticalGradient.xmin self = Some lo /\ VerticalGradient.xmax self = Some hi) /\
  (forall (vmin vmax : R) (mus sigmas lo hi : list R) (Ys : list np.ndarray),
     let self := LocAnomaly.queries
                   (LocAnomaly.__init__ vmin vmax mus sigmas (Some lo) (Some hi)) Ys in
     LocAnomaly.xmin self = Some lo /\ LocAnomaly.xmax self = Some hi).
Proof.
  split; [|split; [|split]].
  - intros self self' X V Ys H.
    destruct (VerticalGradient_first_query _ _ _ _ H) as (H1 & H2 & H3 & H4 & H5 & H6).
    repeat (split; [assumption|]).
    now apply VerticalGradient_queries_fixed.
  - intros self self' X V Ys H.
    destruct (LocAnomaly_first_query _ _ _ _ H) as (H1 & H2 & H3 & H4).
    repeat (split; [assumption|]).
    now apply LocAnomaly_queries_fixed.
  - intros v0 a lo hi Ys self.
    destruct (VerticalGradient_queries_keep
                (VerticalGradient.__init__ v0 a (Some lo) (Some hi)) Ys) as [Hlo Hhi].
    split; [apply Hlo|apply Hhi]; reflexivity.
  - intros vmin vmax mus sigmas lo hi Ys self.
    destruct (LocAnomaly_queries_keep
                (LocAnomaly.__init__ vmin vmax mus sigmas (Some lo) (Some hi)) Ys)
      as [Hlo Hhi].
    split; [apply Hlo|apply Hhi]; reflexivity.
Qed.

Lemma lazy_attributes_reflect_first_batch_witness :
  (VerticalGradient.dim
     (fst (VerticalGradient.__call__ (np.mk 2 [[0; 1]; [3; 5]])
             (VerticalGradient.__init__ 1 2 None None)))
   = Some 2%nat /\
   VerticalGradient.queries
     (fst (VerticalGradient.__call__ (np.mk 2 [[0; 1]; [3; 5]])
             (VerticalGradient.__init__ 1 2 None None)))
     [np.mk 2 [[7; 9]]]
   = fst (VerticalGradient.__call__ (np.mk 2 [[0; 1]; [3; 5]])
            (VerticalGradient.__init__ 1 2 None None))) /\
  LocAnomaly.xmin
    (fst (LocAnomaly.__call__ (np.mk 2 [[0; 1]; [3; 5]])
            (LocAnomaly.__init__ 1 3 [0; 0] [1; 1] None None)))
  = Some (fold_left (np.map2 Rmin) [[3; 5]] [0; 1]).
Proof.
  destruct lazy_attributes_reflect_first_batch as (Hvg & Hla & _).
  split.
  - destruct (Hvg (VerticalGradient.__init__ 1 2 None None) _
                (np.mk 2 [[0; 1]; [3; 5]]) _ [np.mk 2 [[7; 9]]] eq_refl)
      as (_ & _ & Hd & _ & _ & _ & Hq).
    exact (conj Hd Hq).
  - destruct (Hla (LocAnomaly.__init__ 1 3 [0; 0] [1; 1] None None) _
                (np.mk 2 [[0; 1]; [3; 5]]) _ [] eq_refl)
      as (Hlo & _).
    exact Hlo.
Defined.

End CachingFacts.

(** ** The vertical-gradient model: gradient and travel time *)

Section VerticalGradientFacts.

Import misc.
Local Open Scope R_scope.

Lemma map_const {A B : Type} (c : B) (l : list A) :
  map (fun _ => c) l = repeat c (List.length l).
Proof. induction l; simpl; congruence. Qed.

Lemma slice_length {A : Type} (start stop : option Z) (l : list A) :
  List.length (np.slice start stop l) =
  let len := Z.of_nat (List.length l) in
  let lo := match start with None => 0%Z | Some i => np.slice_index len i end in
  let hi := match stop with None => len | Some i => np.slice_index len i end in
  Nat.min (Z.to_nat (hi - lo)) (List.length l - Z.to_nat lo).
Proof.
  unfold np.slice. cbv zeta. now rewrite length_firstn, length_skipn.
Qed.

(** A row of at least two entries: zeros, then the coefficient [a] last. *)
Lemma gradient_row_two (self : VerticalGradient.t) (dt : np.dtype) (r : list R)
    (k : nat) :
  List.length r = S (S k) ->
  VerticalGradient.gradient_row self dt r
  = repeat 0 (S k) ++ [np.astype dt (VerticalGradient.a self)].
Proof.
  intros Hlen. unfold VerticalGradient.gradient_row.
  rewrite !map_const, !slice_length. cbv zeta. rewrite Hlen.
  unfold np.slice_index.
  replace (Z.of_nat (S (S k))) with (Z.of_nat k + 2)%Z by lia.
  destruct (Z.ltb_spec (-1) 0) as [_|]; [|lia].
  destruct (Z.ltb_spec (-2) 0) as [_|]; [|lia].
  replace (Z.max (-1 + (Z.of_nat k + 2)) 0) with (Z.of_nat k + 1)%Z by lia.
  replace (Z.max (-2 + (Z.of_nat k + 2)) 0) with (Z.of_nat k) by lia.
  replace (Z.to_nat (Z.of_nat k + 1 - 0)) with (S k) by lia.
  replace (Z.to_nat (Z.of_nat k + 1 - Z.of_nat k)) with 1%nat by lia.
  replace (Z.to_nat 0) with 0%nat by lia.
  replace (Z.to_nat (Z.of_nat k)) with k by lia.
  replace (Nat.min (S k) (S (S k) - 0)) with (S k) by lia.
  replace (Nat.min 1 (S (S k) - k)) with 1%nat by lia.
  reflexivity.
Qed.

(** For a last axis of size two or more, the gradient has the shape of [X],
    zeros everywhere but on the last axis, and [a] there, converted to the
    element type of [X]. *)
Lemma gradient_two_or_more (self : VerticalGradient.t) (dt : np.dtype)
    (X : np.ndarray) (k : nat) :
  np.cols X = S (S k) ->
  np.well_shaped X = true ->
  VerticalGradient.gradient self dt X =
  np.mk (np.cols X)
        (map (fun _ => repeat 0 (S k) ++ [np.astype dt (VerticalGradient.a self)])
             (np.rows X)).
Proof.
  intros Hc Hw. unfold VerticalGradient.gradient. f_equal.
  - rewrite (gradient_row_two self dt _ k) by (now rewrite repeat_length).
    rewrite length_app, repeat_length, Hc. simpl. lia.
  - apply map_ext_in. intros r Hr. apply gradient_row_two.
    unfold np.well_shaped in Hw. rewrite forallb_forall in Hw.
    specialize (Hw r Hr). apply Nat.eqb_eq in Hw. congruence.
Qed.

(** C9 at the failing input: for a last axis of size one the slice
    [X[..., -2:-1]] is empty, and the gradient of the one-point batch [[x]],
    of whatever element type, has no column at all instead of the column
    [a]. *)
Theorem gradient_one_column_is_empty
    (self : VerticalGradient.t) (dt : np.dtype) (x : R) :
  VerticalGradient.gradient self dt (np.mk 1 [[x]]) = np.mk 0 [[]].
Proof. reflexivity. Qed.

Lemma map2_minus_self (xs : list R) :
  np.map2 Rminus xs xs = repeat 0 (List.length xs).
Proof.
  induction xs as [|x xs IH]; simpl; [reflexivity|].
  rewrite IH. f_equal. lra.
Qed.

Lemma sum_squares_zero (k : nat) : np.sum (map (fun x => x ^ 2) (repeat 0 k)) = 0.
Proof.
  induction k as [|k IH]; [reflexivity|].
  cbn [repeat map]. unfold np.sum in *. cbn [fold_right]. rewrite IH. lra.
Qed.

Lemma last_repeat_zero (k : nat) : last (repeat 0 k) 0 = 0.
Proof.
  induction k as [|k IH]; [reflexivity|].
  simpl. destruct k; [reflexivity|exact IH].
Qed.

(** One entry of the travel time where the numerator vanishes. *)
Lemma time_entry_zero (down a : R) :
  down <> 0 -> a <> 0 ->
  match np.divide 0 down with
  | Some q =>
      match np.arccosh (q + 1) with
      | Some c => np.divide c a
      | None => None
      end
  | None => None
  end = Some 0.
Proof.
  intros Hd Ha. unfold np.divide.
  destruct (Req_dec_T down 0) as [|_]; [contradiction|].
  unfold np.arccosh. destruct (Rle_dec 1 (0 / down + 1)) as [_|Hn].
  - destruct (Req_dec_T a 0) as [|_]; [contradiction|].
    f_equal. replace (0 / down + 1) with 1 by (field; exact Hd).
    replace (1 * 1 - 1) with 0 by ring.
    rewrite sqrt_0, Rplus_0_r, ln_1. field. exact Ha.
  - exfalso. apply Hn. right. field. exact Hd.
Qed.

(** The value query at one point [xs] of at least one coordinate returns
    the single velocity [v0 + a * zs] and leaves [v0] and [a] alone. *)
Lemma value_at_point (self : VerticalGradient.t) (xs : list R) :
  xs <> [] ->
  exists self',
    VerticalGradient.__call__ (np.point xs) self
      = (self', Ok [VerticalGradient.v0 self + VerticalGradient.a self * last xs 0]) /\
    VerticalGradient.a self' = VerticalGradient.a self /\
    VerticalGradient.v0 self' = VerticalGradient.v0 self.
Proof.
  intros Hne. destruct xs as [|x xs]; [contradiction|].
  destruct self as [v0 a [xmin|] [xmax|] [mn|] [mx|] [d|]];
    unfold VerticalGradient.__call__, mbind, when, get, modify, lift, ret, is_None;
    cbn -[last]; eexists; (split; [reflexivity|split; reflexivity]).
Qed.

(** C10: with [a > 0] and a positive velocity [v0 + a * zs] at the source
    [xs], the travel time of a batch whose rows all equal [xs] is returned,
    and every entry of it is exactly 0. *)
Theorem time_at_source_is_zero
    (self : VerticalGradient.t) (X : np.ndarray) (xs : list R) :
  0 < VerticalGradient.a self ->
  0 < VerticalGradient.v0 self + VerticalGradient.a self * last xs 0 ->
  xs <> [] ->
  np.cols X = List.length xs ->
  Forall (fun r => r = xs) (np.rows X) ->
  snd (VerticalGradient.time X xs self) = Ok (map (fun _ => Some 0) (np.rows X)).
Proof.
  intros Ha HV Hne Hcols Hrows.
  destruct (value_at_point self xs Hne) as (self' & Hcall & Ha' & Hv0').
  unfold VerticalGradient.time, mbind, lift, get, ret.
  unfold np.broadcast_cols. rewrite Hcols, Nat.eqb_refl.
  rewrite Hcall. cbn [hd]. unfold np.last_entry. cbn [np.cols np.rows].
  destruct (List.length xs) eqn:Hlen; [destruct xs; [contradiction|discriminate]|].
  cbn [snd]. f_equal.
  rewrite !map_map. rewrite Ha'.
  destruct X as [c rws]. cbn [np.rows] in *. clear Hcols Hcall.
  induction Hrows as [|r rws Hr Hrws IH]; [reflexivity|].
  cbn [map combine]. rewrite IH. f_equal. subst r.
  cbn [fst snd]. unfold np.broadcast2. rewrite Nat.eqb_refl.
  rewrite map2_minus_self, sum_squares_zero, last_repeat_zero.
  replace (VerticalGradient.a self ^ 2 * 0) with 0 by ring.
  apply time_entry_zero; [|lra].
  set (V := VerticalGradient.v0 self + VerticalGradient.a self * last xs 0) in *.
  replace (2 * V * (VerticalGradient.a self * 0 + V)) with (2 * (V * V)) by ring.
  nra.
Qed.

Lemma time_at_source_is_zero_witness :
  snd (VerticalGradient.time (np.mk 2 [[3; 4]; [3; 4]]) [3; 4]
         (VerticalGradient.__init__ 1 2 None None))
  = Ok [Some 0; Some 0].
Proof.
  apply (time_at_source_is_zero (VerticalGradient.__init__ 1 2 None None)
           (np.mk 2 [[3; 4]; [3; 4]]) [3; 4]).
  - simpl. lra.
  - simpl. lra.
  - discriminate.
  - reflexivity.
  - repeat constructor.
Defined.

End VerticalGradientFacts.

(** ** The Gaussian-anomaly model: the gradient and the derivative *)

Section LocAnomalyFacts.

Import misc.
Local Open Scope R_scope.

Lemma derivable_pt_lim_ext (f g : R -> R) (x l : R) :
  (forall t, f t = g t) -> derivable_pt_lim f x l -> derivable_pt_lim g x l.
Proof.
  intros Hfg Hf eps Heps. destruct (Hf eps Heps) as [delta Hd].
  exists delta. intros h Hh Hlt. rewrite <- !Hfg. now apply Hd.
Qed.

Lemma broadcast2_same (f : R -> R -> R) (r1 r2 : list R) :
  List.length r1 = List.length r2 -> np.broadcast2 f r1 r2 = np.map2 f r1 r2.
Proof. intros H. unfold np.broadcast2. now rewrite H, Nat.eqb_refl. Qed.

Lemma map2_length (f : R -> R -> R) (r1 r2 : list R) :
  List.length r1 = List.length r2 -> List.length (np.map2 f r1 r2) = List.length r1.
Proof.
  revert r2. induction r1 as [|x r1 IH]; intros [|y r2]; simpl; try easy.
  intros [= H]. now rewrite IH.
Qed.

Lemma put_length (r : list R) (j : nat) (t : R) :
  List.length (np.put r j t) = List.length r.
Proof.
  revert j. induction r as [|x r IH]; intros [|j]; simpl; try easy. now rewrite IH.
Qed.

Lemma put_same (r : list R) (j : nat) : np.put r j (nth j r 0) = r.
Proof.
  revert j. induction r as [|x r IH]; intros [|j]; simpl; try easy. now rewrite IH.
Qed.

(** The exponent of a row of as many entries as [mus] and [sigmas]. *)
Lemma exponent_cons (x m s : R) (r mus sigmas : list R) :
  List.length r = List.length mus -> List.length r = List.length sigmas ->
  LocAnomaly.exponent (m :: mus) (s :: sigmas) (x :: r)
  = (x - m) ^ 2 / 2 / s ^ 2 + LocAnomaly.exponent mus sigmas r.
Proof.
  intros Hm Hs. unfold LocAnomaly.exponent.
  rewrite (broadcast2_same Rminus (x :: r) (m :: mus)) by (simpl; congruence).
  rewrite (broadcast2_same Rminus r mus) by assumption.
  rewrite !broadcast2_same
    by (rewrite map2_length; simpl; congruence).
  reflexivity.
Qed.

Lemma square_term_derivative (m s x : R) :
  s <> 0 ->
  derivable_pt_lim (fun t => (t - m) ^ 2 / 2 / s ^ 2) x ((x - m) / s ^ 2).
Proof.
  intros Hs.
  apply (derivable_pt_lim_ext
           (mult_real_fct (/ 2 / s ^ 2) (mult_fct (minus_fct id (fct_cte m))
                                                   (minus_fct id (fct_cte m))))).
  - intros t. unfold mult_real_fct, mult_fct, minus_fct, id, fct_cte. field. exact Hs.
  - replace ((x - m) / s ^ 2)
      with (/ 2 / s ^ 2 * ((1 - 0) * (minus_fct id (fct_cte m)) x
                           + (minus_fct id (fct_cte m)) x * (1 - 0))).
    + apply derivable_pt_lim_scal. apply derivable_pt_lim_mult;
        apply derivable_pt_lim_minus;
        (apply derivable_pt_lim_id || apply derivable_pt_lim_const).
    + unfold minus_fct, id, fct_cte. field. exact Hs.
Qed.

(** The derivative of the exponent along coordinate [j]. *)
Lemma exponent_partial_derivative (mus sigmas r : list R) (j : nat) :
  List.length r = List.length mus -> List.length r = List.length sigmas ->
  (j < List.length r)%nat ->
  nth j sigmas 0 <> 0 ->
  derivable_pt_lim (fun t => LocAnomaly.exponent mus sigmas (np.put r j t))
    (nth j r 0) ((nth j r 0 - nth j mus 0) / nth j sigmas 0 ^ 2).
Proof.
  revert mus sigmas j.
  induction r as [|x r IH]; intros [|m mus] [|s sigmas] j Hm Hs Hj Hsig;
    simpl in Hm, Hs, Hj; try discriminate; try lia.
  injection Hm as Hm. injection Hs as Hs.
  destruct j as [|j]; cbn [nth] in *.
  - apply (derivable_pt_lim_ext
             (plus_fct (fun t => (t - m) ^ 2 / 2 / s ^ 2)
                       (fct_cte (LocAnomaly.exponent mus sigmas r)))).
    + intros t. cbn [np.put]. now rewrite exponent_cons.
    + replace ((x - m) / s ^ 2) with ((x - m) / s ^ 2 + 0) by ring.
      apply derivable_pt_lim_plus;
        [now apply square_term_derivative|apply derivable_pt_lim_const].
  - apply (derivable_pt_lim_ext
             (plus_fct (fct_cte ((x - m) ^ 2 / 2 / s ^ 2))
                       (fun t => LocAnomaly.exponent mus sigmas (np.put r j t)))).
    + intros t. cbn [np.put]. rewrite exponent_cons; rewrite ?put_length; auto.
    + replace ((nth j r 0 - nth j mus 0) / nth j sigmas 0 ^ 2)
        with (0 + (nth j r 0 - nth j mus 0) / nth j sigmas 0 ^ 2) by ring.
      apply derivable_pt_lim_plus; [apply derivable_pt_lim_const|].
      apply IH; auto. lia.
Qed.

(** The derivative of the value query along coordinate [j], at a point of
    the dimension of the model: it divides by the square of [sigmas]. *)
Lemma value_partial_derivative (self : LocAnomaly.t) (r : list R) (j : nat) :
  List.length r = List.length (LocAnomaly.mus self) ->
  List.length r = List.length (LocAnomaly.sigmas self) ->
  (j < List.length r)%nat ->
  nth j (LocAnomaly.sigmas self) 0 <> 0 ->
  derivable_pt_lim (fun t => LocAnomaly.value_row self (np.put r j t)) (nth j r 0)
    ((LocAnomaly.value_row self r - LocAnomaly.vmin self)
     * (nth j (LocAnomaly.mus self) 0 - nth j r 0)
     / nth j (LocAnomaly.sigmas self) 0 ^ 2).
Proof.
  intros Hm Hs Hj Hsig.
  pose proof (exponent_partial_derivative _ _ r j Hm Hs Hj Hsig) as HE.
  set (E := fun t => LocAnomaly.exponent (LocAnomaly.mus self)
                       (LocAnomaly.sigmas self) (np.put r j t)) in *.
  set (x := nth j r 0) in *. set (m := nth j (LocAnomaly.mus self) 0) in *.
  set (s := nth j (LocAnomaly.sigmas self) 0) in *.
  assert (HEx : E x = LocAnomaly.exponent (LocAnomaly.mus self)
                        (LocAnomaly.sigmas self) r).
  { unfold E, x. now rewrite put_same. }
  apply (derivable_pt_lim_ext
           (plus_fct (mult_real_fct (LocAnomaly.vmax self - LocAnomaly.vmin self)
                                    (comp exp (opp_fct E)))
                     (fct_cte (LocAnomaly.vmin self)))).
  - intros t. reflexivity.
  - replace ((LocAnomaly.value_row self r - LocAnomaly.vmin self) * (m - x) / s ^ 2)
      with ((LocAnomaly.vmax self - LocAnomaly.vmin self)
            * (exp (opp_fct E x) * - ((x - m) / s ^ 2)) + 0).
    + apply derivable_pt_lim_plus; [|apply derivable_pt_lim_const].
      apply derivable_pt_lim_scal. apply derivable_pt_lim_comp.
      * now apply derivable_pt_lim_opp.
      * apply derivable_pt_lim_exp.
    + unfold LocAnomaly.value_row, opp_fct. rewrite HEx. field. exact Hsig.
Qed.

(** What the gradient query returns along coordinate [j]: it divides by
    [sigmas] itself. *)
Lemma gradient_row_entry (self : LocAnomaly.t) (V : R) (r : list R) (j : nat) :
  List.length r = List.length (LocAnomaly.mus self) ->
  List.length r = List.length (LocAnomaly.sigmas self) ->
  (j < List.length r)%nat ->
  nth j (LocAnomaly.gradient_row self V r) 0
  = (V - LocAnomaly.vmin self) * (nth j (LocAnomaly.mus self) 0 - nth j r 0)
    / nth j (LocAnomaly.sigmas self) 0.
Proof.
  unfold LocAnomaly.gradient_row.
  generalize (LocAnomaly.mus self) (LocAnomaly.sigmas self) (LocAnomaly.vmin self).
  intros mus sigmas vmin Hm Hs Hj.
  rewrite (broadcast2_same Rminus mus r) by congruence.
  rewrite broadcast2_same by (rewrite length_map, map2_length; congruence).
  revert mus sigmas j Hm Hs Hj.
  induction r as [|x r IH]; intros [|m mus] [|s sigmas] j Hm Hs Hj;
    simpl in Hm, Hs, Hj; try discriminate; try lia.
  destruct j as [|j]; cbn [np.map2 map nth]; [reflexivity|].
  apply IH; try congruence. lia.
Qed.

(** For a point of the dimension of the model the gradient query returns,
    along every coordinate, [sigmas] times the derivative of the value
    query. *)
Lemma gradient_is_sigma_times_derivative (self : LocAnomaly.t) (r : list R) (j : nat) :
  List.length r = List.length (LocAnomaly.mus self) ->
  List.length r = List.length (LocAnomaly.sigmas self) ->
  (j < List.length r)%nat ->
  nth j (LocAnomaly.sigmas self) 0 <> 0 ->
  exists d,
    derivable_pt_lim (fun t => LocAnomaly.value_row self (np.put r j t)) (nth j r 0) d /\
    nth j (LocAnomaly.gradient_row self (LocAnomaly.value_row self r) r) 0
    = nth j (LocAnomaly.sigmas self) 0 * d.
Proof.
  intros Hm Hs Hj Hsig. eexists. split.
  - now apply value_partial_derivative.
  - rewrite gradient_row_entry by assumption. field. exact Hsig.
Qed.

(** C3 at the failing input: with [vmin = 1], [vmax = 3], [mus = [0]] and
    [sigmas = [2]], the gradient query at the point [[1]] returns
    [(V - vmin) * (mus - X) / sigmas], the derivative of the value query
    there is [(V - vmin) * (mus - X) / sigmas ** 2], and the two differ. *)
Theorem anomaly_gradient_is_not_the_derivative :
  let self := LocAnomaly.__init__ 1 3 [0] [2] None None in
  let V := LocAnomaly.value_row self [1] in
  snd (LocAnomaly.gradient (np.mk 1 [[1]]) self) = Ok [[(V - 1) * (0 - 1) / 2]] /\
  derivable_pt_lim (fun t => LocAnomaly.value_row self [t]) 1
    ((V - 1) * (0 - 1) / 2 ^ 2) /\
  (V - 1) * (0 - 1) / 2 <> (V - 1) * (0 - 1) / 2 ^ 2.
Proof.
  intros self V. split; [reflexivity|]. split.
  - exact (value_partial_derivative self [1] 0 eq_refl eq_refl (Nat.lt_0_1)
             ltac:(cbn; lra)).
  - assert (HV : 0 < V - 1).
    { unfold V, LocAnomaly.value_row, self. cbn [LocAnomaly.vmax LocAnomaly.vmin
        LocAnomaly.__init__ LocAnomaly.mus LocAnomaly.sigmas].
      pose proof (exp_pos (- LocAnomaly.exponent [0] [2] [1])). lra. }
    lra.
Qed.

End LocAnomalyFacts.

(** ** The grid interpolator: derived interpolators are built once *)

Section InterpolatorFacts.

Import misc.

Context {array points values kwargs rgi scalar : Type}.
Variable lib : Interpolator.Library array points values kwargs rgi scalar.

(** What the claim needs to know of SciPy: an interpolator reads, when it
    is queried, some of the arrays of the memory and nothing else of it;
    these arrays exist when it answers; and they are among the arrays it
    was handed when it was built. *)
Variable reads : rgi -> list Interpolator.ref.

Hypothesis interpolate_reads :
  forall (m m' : Interpolator.memory array) (f : rgi) (X : points),
    (forall r, In r (reads f) -> nth_error m r = nth_error m' r) ->
    Interpolator.interpolate lib m f X = Interpolator.interpolate lib m' f X.

Hypothesis answered_reads :
  forall (m : Interpolator.memory array) (f : rgi) (X : points) (v : values),
    Interpolator.interpolate lib m f X = Ok v ->
    forall r, In r (reads f) -> (r < List.length m)%nat.

Hypothesis built_reads :
  forall (m : Interpolator.memory array) (axes : list Interpolator.ref)
         (v : Interpolator.ref) (kw : kwargs) (f : rgi),
    Interpolator.RegularGridInterpolator lib m axes v kw = Ok f ->
    incl (reads f) (v :: axes).

Local Abbreviation world := (Interpolator.world array rgi scalar).
Local Abbreviation action := (Interpolator.action array points kwargs).
Local Abbreviation heap := Interpolator.heap.
Local Abbreviation this := Interpolator.this.
Local Abbreviation dFunc := Interpolator.dFunc.
Local Abbreviation LFunc := Interpolator.LFunc.
Local Abbreviation dF := Interpolator.dF.
Local Abbreviation gradient := (Interpolator.gradient lib).
Local Abbreviation laplacian := (Interpolator.laplacian lib).
Local Abbreviation step := (Interpolator.step lib).
Local Abbreviation run := (Interpolator.run lib).
Local Abbreviation builds := (Interpolator.builds lib).
Local Abbreviation fields := (Interpolator.fields lib).

Ltac run_interp :=
  unfold Interpolator.gradient, Interpolator.laplacian, Interpolator.__call__,
    Interpolator.build_dFunc, Interpolator.build_LFunc, Interpolator.call_attr,
    Interpolator.new, Interpolator.assign, Interpolator.self, Interpolator.arrays,
    Interpolator.allocate, mbind, when, get, modify, lift, ret, is_None in *.

Ltac split_results :=
  repeat match goal with
         | |- context [match ?r with Ok _ => _ | Raise _ => _ end] =>
             let E := fresh "E" in destruct r eqn:E; cbn
         end.

(** A query whose derived interpolator exists evaluates that interpolator
    on the memory as it is, assigns nothing and makes no array. *)
Lemma gradient_cached (w : world) (f : rgi) (X : points) (kw : kwargs) :
  dFunc (this w) = Some f ->
  gradient X kw w = (w, Interpolator.interpolate lib (heap w) f X).
Proof. intros H. run_interp. rewrite H. cbn. rewrite H. reflexivity. Qed.

Lemma laplacian_cached (w : world) (f g : rgi) (X : points) (kw : kwargs) :
  dFunc (this w) = Some f -> LFunc (this w) = Some g ->
  laplacian X kw w = (w, Interpolator.interpolate lib (heap w) g X).
Proof.
  intros Hd HL. run_interp. rewrite Hd. cbn. rewrite HL. cbn. rewrite HL. reflexivity.
Qed.

(** A gradient query that returns has left its interpolator in [dFunc]. *)
Lemma gradient_returns (w w1 : world) (X : points) (kw : kwargs) (r : values) :
  gradient X kw w = (w1, Ok r) ->
  exists f, dFunc (this w1) = Some f /\
            Interpolator.interpolate lib (heap w1) f X = Ok r.
Proof.
  destruct w as [m [dm F0 dF0 LF ax Fn [f|] Lf lo hi mn mx]];
    run_interp; cbn; split_results; try discriminate;
    intros [= <- Hr]; eexists; (split; [reflexivity|exact Hr]).
Qed.

Lemma laplacian_returns (w w1 : world) (X : points) (kw : kwargs) (r : values) :
  laplacian X kw w = (w1, Ok r) ->
  exists f g, dFunc (this w1) = Some f /\ LFunc (this w1) = Some g /\
              Interpolator.interpolate lib (heap w1) g X = Ok r.
Proof.
  destruct w as [m [dm F0 dF0 LF ax Fn [f|] [g|] lo hi mn mx]];
    run_interp; cbn; split_results; try discriminate;
    intros [= <- Hr]; eexists; eexists;
    (split; [reflexivity|split; [reflexivity|exact Hr]]).
Qed.

(** No action assigns a derived interpolator that exists, nor the gradient
    field once its interpolator exists. *)
Lemma step_keeps_dFunc (w : world) (f : rgi) (act : action) :
  dFunc (this w) = Some f ->
  dFunc (this (step w act)) = Some f /\ dF (this (step w act)) = dF (this w).
Proof.
  destruct w as [m [dm F0 dF0 LF ax Fn [f'|] [g|] lo hi mn mx]]; cbn; try discriminate;
    intros [= ->]; destruct act; cbn; run_interp; cbn; split_results; split; reflexivity.
Qed.

Lemma step_keeps_LFunc (w : world) (g : rgi) (act : action) :
  LFunc (this w) = Some g -> LFunc (this (step w act)) = Some g.
Proof.
  destruct w as [m [dm F0 dF0 LF ax Fn [f|] [g'|] lo hi mn mx]]; cbn; try discriminate;
    intros [= ->]; destruct act; cbn; run_interp; cbn; split_results; reflexivity.
Qed.

Lemma run_keeps_dFunc (w : world) (f : rgi) (acts : list action) :
  dFunc (this w) = Some f ->
  dFunc (this (run w acts)) = Some f /\ dF (this (run w acts)) = dF (this w).
Proof.
  revert w. induction acts as [|act acts IH]; intros w H; [now split|].
  unfold Interpolator.run in *. cbn [fold_left].
  destruct (step_keeps_dFunc w f act H) as [H1 H2].
  destruct (IH _ H1) as [H3 H4]. split; [exact H3|congruence].
Qed.

Lemma run_keeps_LFunc (w : world) (g : rgi) (acts : list action) :
  LFunc (this w) = Some g -> LFunc (this (run w acts)) = Some g.
Proof.
  revert w. induction acts as [|act acts IH]; intros w H; [assumption|].
  unfold Interpolator.run in *. cbn [fold_left].
  apply IH. now apply step_keeps_LFunc.
Qed.

(** Over a run, an interpolator that exists is assigned no more. *)
Lemma builds_none_after (attr : Interpolator.t rgi scalar -> option rgi)
    (w : world) (acts : list action) :
  (forall w' act f, attr (this w') = Some f -> attr (this (step w' act)) = Some f) ->
  attr (this w) <> None -> builds attr w acts = 0%nat.
Proof.
  intros Hkeep. revert w. induction acts as [|act acts IH]; intros w Hw; [reflexivity|].
  cbn [Interpolator.builds]. destruct (attr (this w)) as [f|] eqn:Ha; [|contradiction].
  cbn. apply IH. rewrite (Hkeep w act f Ha). discriminate.
Qed.

Lemma builds_at_most_once (attr : Interpolator.t rgi scalar -> option rgi)
    (w : world) (acts : list action) :
  (forall w' act f, attr (this w') = Some f -> attr (this (step w' act)) = Some f) ->
  (builds attr w acts <= 1)%nat.
Proof.
  intros Hkeep. revert w. induction acts as [|act acts IH]; intros w; [cbn; lia|].
  cbn [Interpolator.builds].
  destruct (attr (this w)) as [f|] eqn:Ha.
  - cbn. rewrite builds_none_after; [lia|exact Hkeep|].
    rewrite (Hkeep w act f Ha). discriminate.
  - destruct (attr (this (step w act))) as [f|] eqn:Hb; cbn.
    + rewrite builds_none_after; [lia|exact Hkeep|]. rewrite Hb. discriminate.
    + apply IH.
Qed.

(** Once the gradient interpolator exists, the gradient field is assigned
    no more. *)
Lemma fields_none_after (w : world) (f : rgi) (acts : list action) :
  dFunc (this w) = Some f -> fields w acts = 0%nat.
Proof.
  revert w. induction acts as [|act acts IH]; intros w H; [reflexivity|].
  cbn [Interpolator.fields].
  destruct (step_keeps_dFunc w f act H) as [H1 H2]. rewrite H2, (IH _ H1).
  destruct (dF (this w)); [now rewrite Nat.eqb_refl|reflexivity].
Qed.

(** *** What the actions do to the memory *)

Lemma write_length (r : nat) (a : array) (m : list array) :
  List.length (Interpolator.write r a m) = List.length m.
Proof.
  revert r. induction m as [|x m IH]; intros [|r]; cbn; try reflexivity.
  now rewrite IH.
Qed.

Lemma write_elsewhere (r r' : nat) (a : array) (m : list array) :
  r <> r' -> nth_error (Interpolator.write r' a m) r = nth_error m r.
Proof.
  revert r r'. induction m as [|x m IH]; intros [|r] [|r'] Hne; cbn; try reflexivity.
  - contradiction.
  - apply IH. congruence.
Qed.

(** A query only adds arrays to the memory. *)
Lemma gradient_extends (w : world) (X : points) (kw : kwargs) :
  exists extra, heap (fst (gradient X kw w)) = (heap w ++ extra)%list.
Proof.
  destruct w as [m [dm F0 dF0 LF ax Fn [f|] Lf lo hi mn mx]];
    run_interp; cbn; split_results;
    solve [exists []; now rewrite app_nil_r | eexists; reflexivity].
Qed.

Lemma laplacian_extends (w : world) (X : points) (kw : kwargs) :
  exists extra, heap (fst (laplacian X kw w)) = (heap w ++ extra)%list.
Proof.
  destruct w as [m [dm F0 dF0 LF ax Fn [f|] [g|] lo hi mn mx]];
    run_interp; cbn; split_results;
    solve [exists []; now rewrite app_nil_r | eexists; reflexivity
          | eexists; rewrite <- app_assoc; reflexivity].
Qed.

(** An action that is not a write into the array [r] leaves the contents of
    [r], an array that exists, as they are, and no array ceases to exist. *)
Lemma step_frame (w : world) (act : action) (r : nat) :
  (r < List.length (heap w))%nat ->
  match act with Interpolator.Write r' _ => r <> r' | _ => True end ->
  nth_error (heap (step w act)) r = nth_error (heap w) r /\
  (r < List.length (heap (step w act)))%nat.
Proof.
  intros Hr Hact.
  assert (Hext : forall extra, nth_error (heap w ++ extra) r = nth_error (heap w) r /\
                               (r < List.length (heap w ++ extra))%nat).
  { intros extra. split; [now apply nth_error_app1|rewrite length_app; lia]. }
  destruct act as [X|X kw|X kw|r'|rs|a|r' a]; cbn [Interpolator.step].
  - unfold Interpolator.__call__. run_interp. cbn. now split.
  - destruct (gradient_extends w X kw) as [extra ->]. apply Hext.
  - destruct (laplacian_extends w X kw) as [extra ->]. apply Hext.
  - now split.
  - now split.
  - cbn. apply Hext.
  - cbn. rewrite write_length. split; [now apply write_elsewhere|exact Hr].
Qed.

Lemma spares_cons (rs : list nat) (act : action) (acts : list action) :
  Interpolator.spares rs (act :: acts) = true ->
  (forall r, In r rs -> match act with Interpolator.Write r' _ => r <> r' | _ => True end)
  /\ Interpolator.spares rs acts = true.
Proof.
  unfold Interpolator.spares. cbn [forallb]. intros [Hact Hrest]%andb_true_iff.
  split; [|exact Hrest]. intros r Hr. destruct act; try exact I.
  apply negb_true_iff in Hact. intros ->.
  assert (existsb (Nat.eqb r0) rs = true); [|congruence].
  apply existsb_exists. exists r0. split; [exact Hr|apply Nat.eqb_refl].
Qed.

(** Over a run that spares the arrays [rs], arrays that exist, each of them
    keeps its contents. *)
Lemma run_frame (rs : list nat) (acts : list action) (w : world) :
  (forall r, In r rs -> (r < List.length (heap w))%nat) ->
  Interpolator.spares rs acts = true ->
  forall r, In r rs -> nth_error (heap (run w acts)) r = nth_error (heap w) r.
Proof.
  revert w. induction acts as [|act acts IH]; intros w Hex Hsp r Hr; [reflexivity|].
  apply spares_cons in Hsp as [Hact Hrest].
  unfold Interpolator.run in *. cbn [fold_left].
  rewrite (IH (step w act)); [|intros r' Hr'|exact Hrest|exact Hr].
  - apply step_frame; [now apply Hex|now apply Hact].
  - apply step_frame; [now apply Hex|now apply Hact].
Qed.

(** An interpolator that has answered a query answers it the same after a
    run that spares the arrays it reads. *)
Lemma answer_stable (w : world) (f : rgi) (X : points) (r : values)
    (acts : list action) :
  Interpolator.interpolate lib (heap w) f X = Ok r ->
  Interpolator.spares (reads f) acts = true ->
  Interpolator.interpolate lib (heap (run w acts)) f X = Ok r.
Proof.
  intros Hr Hsp. rewrite <- Hr. apply interpolate_reads.
  apply run_frame; [|exact Hsp]. now apply (answered_reads _ _ _ _ Hr).
Qed.

(** A gradient query that builds the interpolator hands it the axes and the
    new array of the gradient field. *)
Lemma gradient_builds (w w1 : world) (X : points) (kw : kwargs) (r : values) :
  dFunc (this w) = None ->
  gradient X kw w = (w1, Ok r) ->
  exists f, dFunc (this w1) = Some f /\
            dF (this w1) = Some (List.length (heap w)) /\
            incl (reads f) (List.length (heap w) :: Interpolator.axes (this w)).
Proof.
  destruct w as [m [dm F0 dF0 LF ax Fn [f|] Lf lo hi mn mx]]; cbn; [discriminate|].
  intros _. run_interp. cbn.
  destruct (Interpolator.np_gradient lib m F0 ax) as [g|]; cbn; [|discriminate].
  destruct (Interpolator.np_stack lib g) as [d|]; cbn; [|discriminate].
  destruct (Interpolator.RegularGridInterpolator lib _ ax _ kw) as [f|] eqn:Hf; cbn;
    [|discriminate].
  destruct (Interpolator.interpolate lib _ f X); cbn; [|discriminate].
  intros [= <- _]. cbn. exists f. repeat split. exact (built_reads _ _ _ _ _ Hf).
Qed.

(** C8, as the code has it, over every sequence of queries, of assignments
    to the attributes [F] and [axes], and of writes in place into arrays.
    Each derived interpolator is assigned at most once.  Once the gradient
    interpolator exists, neither it nor the gradient field is assigned
    again and a gradient query evaluates it.  A gradient or Laplacian query
    that has returned returns the same result for the same points after
    every such sequence that spares the arrays the cached interpolator
    reads.  The gradient interpolator reads at most the axes it was built
    on and the array of the gradient field, which is new: so the sequence
    may assign [F] and [axes] and write into every other array. *)
Theorem derived_interpolators_built_once :
  (forall (w : world) (acts : list action),
     (builds dFunc w acts <= 1)%nat /\ (builds LFunc w acts <= 1)%nat) /\
  (forall (w : world) (f : rgi) (acts : list action) (X : points) (kw : kwargs),
     dFunc (this w) = Some f ->
     dFunc (this (run w acts)) = Some f /\ dF (this (run w acts)) = dF (this w) /\
     fields w acts = 0%nat /\
     gradient X kw (run w acts)
     = (run w acts, Interpolator.interpolate lib (heap (run w acts)) f X)) /\
  (forall (w : world) (g : rgi) (acts : list action),
     LFunc (this w) = Some g -> LFunc (this (run w acts)) = Some g) /\
  (forall (w w1 : world) (X : points) (kw kw' : kwargs) (r : values)
          (acts : list action),
     gradient X kw w = (w1, Ok r) ->
     dFunc (this w1) <> None /\
     forall f, dFunc (this w1) = Some f ->
       Interpolator.spares (reads f) acts = true ->
       snd (gradient X kw' (run w1 acts)) = Ok r) /\
  (forall (w w1 : world) (X : points) (kw kw' : kwargs) (r : values)
          (acts : list action),
     laplacian X kw w = (w1, Ok r) ->
     LFunc (this w1) <> None /\
     forall g, LFunc (this w1) = Some g ->
       Interpolator.spares (reads g) acts = true ->
       snd (laplacian X kw' (run w1 acts)) = Ok r) /\
  (forall (w w1 : world) (X : points) (kw kw' : kwargs) (r : values)
          (acts : list action),
     dFunc (this w) = None ->
     gradient X kw w = (w1, Ok r) ->
     dF (this w1) = Some (List.length (heap w)) /\
     (Interpolator.spares (List.length (heap w) :: Interpolator.axes (this w)) acts
      = true ->
      snd (gradient X kw' (run w1 acts)) = Ok r)).
Proof.
  split; [|split; [|split; [|split; [|split]]]].
  - intros w acts. split; apply builds_at_most_once.
    + intros w' act f H. now apply step_keeps_dFunc.
    + intros w' act g H. now apply step_keeps_LFunc.
  - intros w f acts X kw H. destruct (run_keeps_dFunc w f acts H) as [H1 H2].
    repeat split; try assumption; [now apply (fields_none_after w f)|].
    now apply gradient_cached.
  - intros w g acts H. now apply run_keeps_LFunc.
  - intros w w1 X kw kw' r acts H.
    destruct (gradient_returns _ _ _ _ _ H) as (f & Hf & Hr).
    split; [rewrite Hf; discriminate|]. intros f' Hf' Hsp.
    rewrite Hf in Hf'. injection Hf' as <-.
    destruct (run_keeps_dFunc w1 f acts Hf) as [H1 _].
    rewrite (gradient_cached _ f X kw' H1). cbn [snd]. now apply answer_stable.
  - intros w w1 X kw kw' r acts H.
    destruct (laplacian_returns _ _ _ _ _ H) as (f & g & Hf & Hg & Hr).
    split; [rewrite Hg; discriminate|]. intros g' Hg' Hsp.
    rewrite Hg in Hg'. injection Hg' as <-.
    destruct (run_keeps_dFunc w1 f acts Hf) as [H1 _].
    pose proof (run_keeps_LFunc w1 g acts Hg) as H2.
    rewrite (laplacian_cached _ f g X kw' H1 H2). cbn [snd]. now apply answer_stable.
  - intros w w1 X kw kw' r acts Hnone H.
    destruct (gradient_builds _ _ _ _ _ Hnone H) as (f & Hf & HdF & Hincl).
    split; [exact HdF|]. intros Hsp.
    destruct (gradient_returns _ _ _ _ _ H) as (f' & Hf' & Hr).
    rewrite Hf in Hf'. injection Hf' as <-.
    destruct (run_keeps_dFunc w1 f acts Hf) as [H1 _].
    rewrite (gradient_cached _ f X kw' H1). cbn [snd]. apply answer_stable; [exact Hr|].
    unfold Interpolator.spares in *. rewrite forallb_forall in *.
    intros act Hact. specialize (Hsp act Hact). destruct act; try reflexivity.
    apply negb_true_iff. apply negb_true_iff in Hsp.
    destruct (existsb (Nat.eqb r0) (reads f)) eqn:E; [|reflexivity].
    apply existsb_exists in E as (x & Hx & Hrx). apply Hincl in Hx.
    rewrite <- Hsp. symmetry. apply existsb_exists. now exists x.
Qed.

End InterpolatorFacts.

(** The small library keeps the contract. *)
Lemma traverse_ext {A B : Type} (f g : A -> result B) (l : list A) :
  (forall x, In x l -> f x = g x) ->
  misc.Interpolator.traverse f l = misc.Interpolator.traverse g l.
Proof.
  induction l as [|x l IH]; intros H; [reflexivity|].
  cbn [misc.Interpolator.traverse]. rewrite (H x (or_introl eq_refl)).
  rewrite IH; [reflexivity|]. intros y Hy. apply H. now right.
Qed.

Lemma traverse_each {A B : Type} (f : A -> result B) (l : list A) (ys : list B) :
  misc.Interpolator.traverse f l = Ok ys ->
  forall x, In x l -> exists y, f x = Ok y.
Proof.
  revert ys. induction l as [|x l IH]; intros ys H z Hz; [contradiction|].
  cbn [misc.Interpolator.traverse] in H.
  destruct (f x) as [y|] eqn:Hy; [|discriminate]. cbn [bind] in H.
  destruct (misc.Interpolator.traverse f l) as [ys'|]; [|discriminate].
  destruct Hz as [<-|Hz]; [now exists y|]. now apply (IH ys').
Qed.

Lemma numpy_reads (m m' : list Instances.nd) (f : Instances.rgi) (X : list (list Q)) :
  (forall r, In r (Instances.reads f) -> nth_error m r = nth_error m' r) ->
  Instances.interpolate m f X = Instances.interpolate m' f X.
Proof.
  intros H. unfold Instances.interpolate.
  rewrite (traverse_ext (Instances.fetch m) (Instances.fetch m') (Instances.grid f)).
  - unfold Instances.fetch at 2 4.
    now rewrite (H (Instances.field_values f) (or_introl eq_refl)).
  - intros r Hr. unfold Instances.fetch. rewrite (H r); [reflexivity|now right].
Qed.

Lemma numpy_answered (m : list Instances.nd) (f : Instances.rgi) (X v : list (list Q)) :
  Instances.interpolate m f X = Ok v ->
  forall r, In r (Instances.reads f) -> (r < List.length m)%nat.
Proof.
  unfold Instances.interpolate. intros H r Hr.
  destruct (misc.Interpolator.traverse (Instances.fetch m) (Instances.grid f))
    as [xs|] eqn:Hxs; [|discriminate]. cbn [bind] in H.
  destruct (Instances.fetch m (Instances.field_values f)) as [a|] eqn:Ha; [|discriminate].
  assert (Hfetch : exists y, Instances.fetch m r = Ok y).
  { destruct Hr as [<-|Hr]; [now exists a|]. now apply (traverse_each _ _ _ Hxs). }
  destruct Hfetch as [y Hy]. unfold Instances.fetch in Hy.
  apply nth_error_Some. destruct (nth_error m r); [discriminate|discriminate].
Qed.

Lemma numpy_built (m : list Instances.nd) (axes : list nat) (v : nat)
    (kw : option string) (f : Instances.rgi) :
  Instances.RegularGridInterpolator m axes v kw = Ok f ->
  incl (Instances.reads f) (v :: axes).
Proof.
  unfold Instances.RegularGridInterpolator.
  destruct (Instances.known_method kw); [|discriminate].
  destruct (misc.Interpolator.traverse _ axes) as [xs|]; [|discriminate]. cbn [bind].
  destruct (Instances.fetch m v) as [a|]; [|discriminate]. cbn [bind].
  destruct (Instances.fits xs (Instances.shape a)); [|discriminate].
  intros [= <-]. apply incl_refl.
Qed.

(** The constructor gives the two instances, and their first queries:
    at the node [(1, 1)] the gradient of the paraboloid is [(2, 2)] and the
    Laplacian of the differences is 2.  In one dimension the gradient
    field has one axis, [dF[..., 0]] has none, and the Laplacian query
    fails on it. *)
Example paraboloid_queries :
  Instances.constructed Instances.paraboloid_memory 0 [1; 2]%nat
  = Ok Instances.paraboloid /\
  snd (misc.Interpolator.gradient Instances.numpy [[1; 1]; [0; 2]]%Q None
         Instances.paraboloid) = Ok [[2; 2]; [1; 3]]%Q /\
  snd (misc.Interpolator.laplacian Instances.numpy [[1; 1]]%Q None
         Instances.paraboloid) = Ok [[2]]%Q /\
  Instances.constructed Instances.parabola_memory 0 [1]%nat = Ok Instances.parabola /\
  snd (misc.Interpolator.gradient Instances.numpy [[1]; [2]]%Q None
         Instances.parabola) = Ok [[2]; [3]]%Q /\
  snd (misc.Interpolator.laplacian Instances.numpy [[1]]%Q None
         Instances.parabola) = Raise AxisError.
Proof. repeat split; vm_compute; reflexivity. Qed.

Lemma derived_interpolators_built_once_witness :
  snd (misc.Interpolator.gradient Instances.numpy [[1; 1]]%Q None
         (misc.Interpolator.run Instances.numpy
            (fst (misc.Interpolator.gradient Instances.numpy [[1; 1]]%Q None
                    Instances.paraboloid))
            [misc.Interpolator.AssignF 1%nat;
             misc.Interpolator.Write 0%nat (Instances.mk_nd [1]%nat [9%Q]);
             misc.Interpolator.AssignAxes [0%nat];
             misc.Interpolator.New (Instances.mk_nd [1]%nat [7%Q]);
             misc.Interpolator.Laplacian [[0; 0]]%Q None]))
  = Ok [[2; 2]]%Q /\
  snd (misc.Interpolator.laplacian Instances.numpy [[1; 1]]%Q None
         (misc.Interpolator.run Instances.numpy
            (fst (misc.Interpolator.laplacian Instances.numpy [[1; 1]]%Q None
                    Instances.paraboloid))
            [misc.Interpolator.Write 0%nat (Instances.mk_nd [1]%nat [9%Q]);
             misc.Interpolator.Write 3%nat (Instances.mk_nd [1]%nat [9%Q]);
             misc.Interpolator.AssignF 2%nat;
             misc.Interpolator.Gradient [[0; 0]]%Q (Some "nearest"%string)]))
  = Ok [[2]]%Q.
Proof.
  destruct (derived_interpolators_built_once Instances.numpy Instances.reads
              numpy_reads numpy_answered numpy_built) as (_ & _ & _ & _ & Hl & Hg).
  split.
  - refine (proj2 (Hg Instances.paraboloid _ [[1; 1]]%Q None None [[2; 2]]%Q _
                      eq_refl _) _).
    + vm_compute. reflexivity.
    + vm_compute. reflexivity.
  - refine (proj2 (Hl Instances.paraboloid _ [[1; 1]]%Q None None [[2]]%Q _ _)
                  (Instances.mk_rgi [1; 2]%nat 4 None) _ _).
    + vm_compute. reflexivity.
    + vm_compute. reflexivity.
    + vm_compute. reflexivity.
Defined.

(** C8 fails as stated.  When the first gradient query fails to build the
    interpolator (here on a method SciPy does not know), the gradient field
    has been computed and assigned, and the next gradient query computes
    and assigns it again: twice in all.  And with a library that keeps the
    arrays it is handed, a write in place into an axis array between two
    gradient queries at the same point changes the result: with the first
    axis turned from [0, 1, 2] into [1, 2, 3], the point [(1, 1)] is the
    first node of that axis, where the gradient is [(1, 2)]. *)
Lemma derived_field_counterexample :
  snd (misc.Interpolator.gradient Instances.numpy [[1; 1]]%Q (Some "spline"%string)
         Instances.paraboloid) = Raise ValueError /\
  misc.Interpolator.dF
    (misc.Interpolator.this
       (misc.Interpolator.run Instances.numpy Instances.paraboloid
          [misc.Interpolator.Gradient [[1; 1]]%Q (Some "spline"%string)]))
  = Some 3%nat /\
  misc.Interpolator.dF
    (misc.Interpolator.this
       (misc.Interpolator.run Instances.numpy Instances.paraboloid
          [misc.Interpolator.Gradient [[1; 1]]%Q (Some "spline"%string);
           misc.Interpolator.Gradient [[1; 1]]%Q None]))
  = Some 4%nat /\
  misc.Interpolator.fields Instances.numpy Instances.paraboloid
    [misc.Interpolator.Gradient [[1; 1]]%Q (Some "spline"%string);
     misc.Interpolator.Gradient [[1; 1]]%Q None]
  = 2%nat /\
  snd (misc.Interpolator.gradient Instances.numpy [[1; 1]]%Q None Instances.paraboloid)
  = Ok [[2; 2]]%Q /\
  snd (misc.Interpolator.gradient Instances.numpy [[1; 1]]%Q None
         (misc.Interpolator.run Instances.numpy
            (fst (misc.Interpolator.gradient Instances.numpy [[1; 1]]%Q None
                    Instances.paraboloid))
            [misc.Interpolator.Write 1%nat (Instances.mk_nd [3]%nat [1; 2; 3]%Q)]))
  = Ok [[1; 2]]%Q.
Proof. repeat split; vm_compute; reflexivity. Qed.

(** ** The gradient-biased sampler: how many points it returns *)

Section SamplerFacts.

Import misc.

Variable G : Type.
Variable random_uniform :
  list R -> list R -> Z -> nat -> G -> G * result (list (list R)).
Variable random_choice : Z -> Z -> list R -> G -> G * result (list nat).
Hypothesis generator : GradientBased_PDF.generator_ok random_uniform random_choice.

Local Abbreviation sample :=
  (GradientBased_PDF.__call__ G random_uniform random_choice).

Lemma linspace_length (lo hi : R) (num : nat) :
  List.length (np.linspace lo hi num) = num.
Proof.
  destruct num as [|[|k]]; [reflexivity|reflexivity|].
  unfold np.linspace. now rewrite length_map, length_seq.
Qed.

Lemma flat_map_constant_length {A B : Type} (f : A -> list B) (l : list A) (k : nat) :
  (forall x, List.length (f x) = k) ->
  List.length (flat_map f l) = (List.length l * k)%nat.
Proof.
  intros Hf. induction l as [|x l IH]; [reflexivity|].
  cbn [flat_map]. rewrite length_app, Hf, IH. cbn [List.length]. lia.
Qed.

(** A regular grid of [num] points along each of [d] axes has [num ^ d]
    rows. *)
Lemma meshgrid_rows_length (axes : list (list R)) (num : nat) :
  Forall (fun ax => List.length ax = num) axes ->
  List.length (np.meshgrid_rows axes) = (num ^ List.length axes)%nat.
Proof.
  induction 1 as [|ax axes Hax Haxes IH]; [reflexivity|].
  cbn [np.meshgrid_rows List.length Nat.pow].
  rewrite (flat_map_constant_length _ _ (num ^ List.length axes)).
  - now rewrite Hax.
  - intros x. now rewrite length_map.
Qed.

Lemma regular_rows (limits : list (R * R)) (num : nat) :
  List.length
    (np.meshgrid_rows
       (map (fun lim => np.linspace (fst lim) (snd lim) num) limits))
  = (num ^ List.length limits)%nat.
Proof.
  rewrite (meshgrid_rows_length _ num), length_map; [reflexivity|].
  apply Forall_map, Forall_forall. intros lim _. apply linspace_length.
Qed.

Lemma take_rows_length (base : list (list R)) (ids : list nat) (rs : list (list R)) :
  GradientBased_PDF.take_rows base ids = Ok rs -> List.length rs = List.length ids.
Proof.
  revert rs. induction ids as [|i ids IH]; intros rs; cbn.
  - now intros [= <-].
  - destruct (nth_error base i); [|discriminate].
    destruct (GradientBased_PDF.take_rows base ids) as [rs'|]; [|discriminate].
    cbn. intros [= <-]. cbn. now rewrite (IH rs').
Qed.

Lemma take_rows_in_range (base : list (list R)) (ids : list nat) :
  Forall (fun i => (i < List.length base)%nat) ids ->
  exists rs, GradientBased_PDF.take_rows base ids = Ok rs.
Proof.
  induction 1 as [|i ids Hi Hids [rs IH]]; cbn; [now eexists|].
  destruct (nth_error base i) eqn:Hn.
  - rewrite IH. cbn. now eexists.
  - apply nth_error_None in Hn. lia.
Qed.

(** What rounding returns has the sign it was given. *)
Lemma round_keeps_sign (sx : bool) (mx ex : Z) (lx : location) :
  match binary_round_aux binary64.prec binary64.emax sx mx ex lx with
  | S754_zero s | S754_infinity s | S754_finite s _ _ => s = sx
  | S754_nan => True
  end.
Proof.
  unfold binary_round_aux.
  destruct (shr_fexp binary64.prec binary64.emax mx ex lx) as [mrs' e'].
  destruct (shr_fexp binary64.prec binary64.emax _ e' loc_Exact) as [mrs'' e''].
  destruct (shr_m mrs''); [reflexivity| |exact I].
  destruct (Z.leb e'' (Z.sub binary64.emax binary64.prec)); reflexivity.
Qed.

(** The integer part of a square root is not negative. *)
Lemma reg_num_nonneg (num_pts : Z) (regular : binary64.t) (rn : Z) :
  GradientBased_PDF.reg_num num_pts regular = Ok rn -> (0 <= rn)%Z.
Proof.
  unfold GradientBased_PDF.reg_num.
  destruct (binary64.of_int num_pts) as [n|]; [|discriminate]. cbn [bind].
  destruct (binary64.mul n regular) as [s|[|]| |[|] m e]; cbn;
    try discriminate; try (intros [= <-]; lia).
  destruct (SFsqrt_core_binary binary64.prec binary64.emax (Z.pos m) e)
    as [[mz ez] lz].
  pose proof (round_keeps_sign false mz ez lz) as Hs.
  destruct (binary_round_aux binary64.prec binary64.emax false mz ez lz)
    as [s|s| |s m' e']; cbn; try discriminate.
  - intros [= <-]. lia.
  - subst s. intros [= <-]. apply Z.shiftl_nonneg. lia.
Qed.

(** Whenever the sampler returns, it has drawn [num_pts - reg_num ** 2]
    random points, and returns them after the [reg_num ** dim] regular
    ones. *)
Lemma sampler_row_count (self : GradientBased_PDF.t) (num_pts : Z)
    (regular : binary64.t) (random_base : Z) (g : G) (x : list (list R)) :
  snd (sample self num_pts regular random_base g) = Ok x ->
  exists rn,
    GradientBased_PDF.reg_num num_pts regular = Ok rn /\
    (0 <= rn)%Z /\
    (0 <= num_pts - rn ^ 2 <= random_base)%Z /\
    List.length x
    = (Z.to_nat rn ^ List.length (GradientBased_PDF.limits self)
       + Z.to_nat (num_pts - rn ^ 2))%nat.
Proof.
  unfold GradientBased_PDF.__call__, mbind, lift, ret.
  destruct (GradientBased_PDF.reg_num num_pts regular) as [rn|] eqn:Hrn; [|discriminate].
  pose proof (regular_rows (GradientBased_PDF.limits self) (Z.to_nat rn)) as Hreg.
  set (x_reg := np.meshgrid_rows _) in *.
  destruct (match GradientBased_PDF.limits self with
            | [] => Raise ValueError
            | _ :: _ => Ok tt
            end); [|discriminate].
  destruct (random_uniform _ _ random_base _ g) as [g1 [pool|]] eqn:Hu; [|discriminate].
  destruct (GradientBased_PDF.grad_func self pool) as [dv|]; [|discriminate].
  destruct (random_choice random_base _ _ g1) as [g2 [ids|]] eqn:Hc; [|discriminate].
  destruct (GradientBased_PDF.take_rows pool ids) as [rs|] eqn:Ht; [|discriminate].
  cbn [snd]. intros [= <-].
  pose proof (GradientBased_PDF.choice_size _ _ generator _ _ _ _ ids
                ltac:(rewrite Hc; reflexivity)) as (Hsize & Hlen & _).
  exists rn. split; [reflexivity|]. split; [exact (reg_num_nonneg _ _ _ Hrn)|].
  split; [exact Hsize|].
  rewrite length_app, Hreg, (take_rows_length _ _ _ Ht), Hlen. reflexivity.
Qed.

(** When the two draws and the gradient succeed, the sampler returns. *)
Lemma sampler_returns (self : GradientBased_PDF.t) (num_pts : Z)
    (regular : binary64.t) (random_base : Z) (g g1 g2 : G) (rn : Z)
    (pool dv : list (list R)) (ids : list nat) :
  GradientBased_PDF.reg_num num_pts regular = Ok rn ->
  GradientBased_PDF.limits self <> [] ->
  random_uniform (map fst (GradientBased_PDF.limits self))
    (map snd (GradientBased_PDF.limits self)) random_base
    (List.length (GradientBased_PDF.limits self)) g = (g1, Ok pool) ->
  GradientBased_PDF.grad_func self pool = Ok dv ->
  random_choice random_base (num_pts - rn ^ 2)
    (GradientBased_PDF.probabilities dv) g1 = (g2, Ok ids) ->
  exists x, sample self num_pts regular random_base g = (g2, Ok x).
Proof.
  intros Hrn Hlim Hu Hdv Hc.
  pose proof (GradientBased_PDF.uniform_rows _ _ generator _ _ _ _ _ pool
                ltac:(rewrite Hu; reflexivity)) as [Hm Hpool].
  pose proof (GradientBased_PDF.choice_size _ _ generator _ _ _ _ ids
                ltac:(rewrite Hc; reflexivity)) as (Hsize & Hlen & Hids).
  destruct (take_rows_in_range pool ids) as [rs Hrs].
  { eapply Forall_impl; [|exact Hids]. cbv beta. intros i Hi. lia. }
  unfold GradientBased_PDF.__call__, mbind, lift, ret. rewrite Hrn.
  destruct (GradientBased_PDF.limits self) as [|lim lims] eqn:El; [contradiction|].
  rewrite Hu, Hdv, Hc, Hrs. now eexists.
Qed.

(** Whenever the sampler returns, the point set has
    [reg_num ** dim + (num_pts - reg_num ** 2)] rows, [reg_num] being the
    regular count the floats give; in two dimensions that is [num_pts]. *)
Lemma sampler_rows (self : GradientBased_PDF.t) (num_pts : Z)
    (regular : binary64.t) (random_base : Z) (g : G) (x : list (list R)) :
  snd (sample self num_pts regular random_base g) = Ok x ->
  exists rn,
    GradientBased_PDF.reg_num num_pts regular = Ok rn /\
    (0 <= num_pts - rn ^ 2 <= random_base)%Z /\
    List.length x
    = (Z.to_nat rn ^ List.length (GradientBased_PDF.limits self)
       + Z.to_nat (num_pts - rn ^ 2))%nat /\
    (List.length (GradientBased_PDF.limits self) = 2%nat ->
     List.length x = Z.to_nat num_pts).
Proof.
  intros Hx.
  destruct (sampler_row_count _ _ _ _ _ _ Hx) as (rn & Hrn & Hpos & Hsize & Hlen).
  exists rn. repeat split; try assumption; try lia.
  intros Hdim. rewrite Hlen, Hdim.
  replace (Z.to_nat rn ^ 2)%nat with (Z.to_nat (rn ^ 2)).
  - rewrite <- Z2Nat.inj_add by lia. f_equal. lia.
  - rewrite Z2Nat.inj_pow by lia. reflexivity.
Qed.

(** C2 at the failing input: a sampler over a model of three dimensions,
    asked for [num_pts = 10] points with [regular = 0.7].  The regular
    count is 2 and [num_pts - reg_num ** dim = 2] is positive; whatever the
    generator draws, whenever the sampler returns it returns
    [2 ** 3 + (10 - 2 ** 2) = 14] rows, not 10: the number of random points
    is [num_pts - reg_num ** 2] in every dimension. *)
Theorem sampler_misses_the_budget_in_three_dimensions
    (self : GradientBased_PDF.t) (random_base : Z) (g : G) (x : list (list R)) :
  List.length (GradientBased_PDF.limits self) = 3%nat ->
  snd (sample self 10 (binary64.of_quotient 7 10) random_base g) = Ok x ->
  GradientBased_PDF.reg_num 10 (binary64.of_quotient 7 10) = Ok 2%Z /\
  (0 < 10 - 2 ^ 3)%Z /\
  List.length x = (2 ^ 3 + (10 - 2 ^ 2))%nat /\
  List.length x <> Z.to_nat 10.
Proof.
  intros Hdim Hx.
  assert (Hrn : GradientBased_PDF.reg_num 10 (binary64.of_quotient 7 10) = Ok 2%Z)
    by (vm_compute; reflexivity).
  destruct (sampler_row_count _ _ _ _ _ _ Hx) as (rn & Hrn' & _ & _ & Hlen).
  rewrite Hrn in Hrn'. injection Hrn' as <-. rewrite Hdim in Hlen.
  split; [exact Hrn|]. split; [lia|]. rewrite Hlen.
  split; [reflexivity|discriminate].
Qed.

End SamplerFacts.

Lemma generator0_ok :
  misc.GradientBased_PDF.generator_ok Instances.random_uniform0 Instances.random_choice0.
Proof.
  split.
  - intros lo hi m d g X. unfold Instances.random_uniform0.
    destruct (Z.ltb_spec m 0); cbn; [discriminate|].
    intros [= <-]. split; [assumption|apply repeat_length].
  - intros pool size p g ids. unfold Instances.random_choice0.
    destruct (Z.leb_spec 0 size); cbn; [|discriminate].
    destruct (Z.leb_spec size pool); cbn; [|discriminate].
    intros [= <-]. split; [lia|]. split; [apply length_seq|].
    apply Forall_forall. intros i Hi. apply in_seq in Hi. lia.
Qed.

(** The sampler of the unit cube returns on these arguments, with a
    generator that puts every point on the lower bounds and takes the
    first indices: 14 rows. *)
Lemma sampler_misses_the_budget_in_three_dimensions_witness :
  exists x,
    snd (Instances.sample0 Instances.cube_sampler 10 (binary64.of_quotient 7 10)
           20 0%nat) = Ok x /\
    List.length x = 14%nat.
Proof.
  destruct (sampler_returns nat Instances.random_uniform0 Instances.random_choice0
              generator0_ok Instances.cube_sampler 10 (binary64.of_quotient 7 10)
              20 0%nat _ _ 2%Z _ _ _
              ltac:(vm_compute; reflexivity) ltac:(discriminate)
              eq_refl eq_refl eq_refl) as [x Hx].
  exists x. unfold Instances.sample0. rewrite Hx. split; [reflexivity|].
  exact (proj1 (proj2 (proj2
           (sampler_misses_the_budget_in_three_dimensions nat
              Instances.random_uniform0 Instances.random_choice0 generator0_ok
              Instances.cube_sampler 20 0%nat x eq_refl
              ltac:(rewrite Hx; reflexivity))))).
Defined.

(** In two dimensions the same arguments give the 10 rows asked for. *)
Example sampler_of_the_square :
  exists x,
    snd (Instances.sample0 Instances.square_sampler 10 (binary64.of_quotient 7 10)
           20 0%nat) = Ok x /\
    List.length x = 10%nat.
Proof.
  destruct (sampler_returns nat Instances.random_uniform0 Instances.random_choice0
              generator0_ok Instances.square_sampler 10 (binary64.of_quotient 7 10)
              20 0%nat _ _ 2%Z _ _ _
              ltac:(vm_compute; reflexivity) ltac:(discriminate)
              eq_refl eq_refl eq_refl) as [x Hx].
  exists x. unfold Instances.sample0. rewrite Hx. split; [reflexivity|].
  destruct (sampler_rows nat Instances.random_uniform0 Instances.random_choice0
              generator0_ok Instances.square_sampler 10 (binary64.of_quotient 7 10)
              20 0%nat x ltac:(rewrite Hx; reflexivity)) as (rn & _ & _ & _ & H2).
  exact (H2 eq_refl).
Qed.

(** * Further properties of the two files *)

(** ** Constructed activations *)

Section MoreActivationFacts.

Import baseLayers.
Local Open Scope string_scope.

Lemma init_fails_iff_witness :
  (AdaptiveActivation.__init__ "ad-gauss-1" = Raise AssertionError <->
     List.length (PyStr.split "-" "ad-gauss-1") <> 3%nat) /\
  (forall p1, AdaptiveActivation.__init__ "ad-gauss-1" = Raise (KeyError p1) <->
     exists p0 p2, PyStr.split "-" "ad-gauss-1" = [p0; p1; p2] /\
                   dict_mem ACTS p1 = false) /\
  (returns (AdaptiveActivation.__init__ "ad-gauss-1") = true <->
     exists p0 p1 p2, PyStr.split "-" "ad-gauss-1" = [p0; p1; p2] /\
                      dict_mem ACTS p1 = true).
Proof.
  apply (init_fails_iff "ad-gauss-1").
  intros p0 p1 p2 [= <- <- <-] _. reflexivity.
Defined.

(** What a constructed layer computes, for the current value [w] of its
    weight when it has one. *)
Lemma call_of_built (p0 : string) (f : R -> R) (d : binary64.t) (X : list R) :
  AdaptiveActivation.call (built p0 f d) X
  = Ok (map (fun x => f (if PyStr.contains "ad" p0
                         then binary64.to_R d * 1 * x else binary64.to_R d * x)%R) X).
Proof. unfold built. destruct (PyStr.contains "ad" p0); reflexivity. Qed.

Lemma constructed_is_built (spec p0 p1 p2 : string) (f : R -> R) (l : AdaptiveActivation.t) :
  PyStr.split "-" spec = [p0; p1; p2] ->
  dict_get ACTS p1 = Some f ->
  AdaptiveActivation.__init__ spec = Ok l ->
  l = built p0 f (AdaptiveActivation.n l).
Proof.
  intros Hparts Hf Hinit. rewrite init_outcome, Hparts, Hf in Hinit.
  assert (Hn : forall d, AdaptiveActivation.n (built p0 f d) = d).
  { intros d. unfold built. now destruct (PyStr.contains "ad" p0). }
  destruct (PyStr.isdigit p2).
  - destruct (PyStr.isdecimal p2); [|discriminate].
    injection Hinit as <-. now rewrite Hn.
  - injection Hinit as <-. now rewrite Hn.
Qed.

(** A layer constructed with degree 1 computes, before any training step,
    the registry function itself, with or without the adapt marker. *)
Theorem fresh_layer_of_degree_one_is_the_registry_function
    (spec p0 p1 p2 : string) (f : R -> R) (l : AdaptiveActivation.t) (X : list R) :
  PyStr.split "-" spec = [p0; p1; p2] ->
  dict_get ACTS p1 = Some f ->
  AdaptiveActivation.__init__ spec = Ok l ->
  AdaptiveActivation.n l = binary64.one ->
  AdaptiveActivation.call l X = Ok (map f X).
Proof.
  intros Hparts Hf Hinit Hn.
  rewrite (constructed_is_built _ _ _ _ _ _ Hparts Hf Hinit), Hn, call_of_built.
  f_equal. apply map_ext. intros x. f_equal.
  assert (H1 : binary64.to_R binary64.one = 1%R).
  { change (binary64.to_R binary64.one) with (Q2R 1). unfold Q2R. cbn. lra. }
  rewrite H1. destruct (PyStr.contains "ad" p0); lra.
Qed.

Lemma fresh_layer_of_degree_one_is_the_registry_function_witness :
  (exists l, AdaptiveActivation.__init__ "ad-tanh-1" = Ok l /\
             AdaptiveActivation.call l [0; 1]%R = Ok (map tanh [0; 1]%R)) /\
  (exists l, AdaptiveActivation.__init__ "-tanh-x" = Ok l /\
             AdaptiveActivation.call l [0; 1]%R = Ok (map tanh [0; 1]%R)).
Proof.
  split; eexists; (split; [reflexivity|]).
  - exact (fresh_layer_of_degree_one_is_the_registry_function
             "ad-tanh-1" "ad" "tanh" "1" tanh _ [0; 1]%R
             eq_refl eq_refl eq_refl eq_refl).
  - exact (fresh_layer_of_degree_one_is_the_registry_function
             "-tanh-x" EmptyString "tanh" "x" tanh _ [0; 1]%R
             eq_refl eq_refl eq_refl eq_refl).
Defined.

(** The weight of a constructed layer after a training step. *)
Lemma call_of_trained (p0 : string) (f : R -> R) (d : binary64.t) (w : R) (X : list R) :
  AdaptiveActivation.call (AdaptiveActivation.trained w (built p0 f d)) X
  = Ok (map (fun x => f (if PyStr.contains "ad" p0
                         then binary64.to_R d * w * x else binary64.to_R d * x)%R) X).
Proof. unfold built. destruct (PyStr.contains "ad" p0); reflexivity. Qed.

(** The registry entries [linear], [gauss] and [laplace] are even functions. *)
Lemma even_entries (name : string) (f : R -> R) :
  In name ["linear"; "gauss"; "laplace"] ->
  dict_get ACTS name = Some f ->
  forall z : R, f (- z)%R = f z.
Proof.
  intros [<-|[<-|[<-|[]]]] [= <-] z.
  - apply Rabs_Ropp.
  - f_equal. ring.
  - now rewrite Rabs_Ropp.
Qed.

(** A layer constructed on [linear], [gauss] or [laplace] gives the same
    output on [X] and on [-X], whatever its degree and whatever value
    training has given its weight. *)
Theorem even_activation_layers
    (spec p0 p1 p2 : string) (l : AdaptiveActivation.t) (w : R) (X : list R) :
  PyStr.split "-" spec = [p0; p1; p2] ->
  In p1 ["linear"; "gauss"; "laplace"] ->
  AdaptiveActivation.__init__ spec = Ok l ->
  AdaptiveActivation.call l (map Ropp X) = AdaptiveActivation.call l X /\
  AdaptiveActivation.call (AdaptiveActivation.trained w l) (map Ropp X)
  = AdaptiveActivation.call (AdaptiveActivation.trained w l) X.
Proof.
  intros Hparts Hname Hinit.
  assert (Hf : exists f, dict_get ACTS p1 = Some f).
  { destruct Hname as [<-|[<-|[<-|[]]]]; now eexists. }
  destruct Hf as [f Hf]. pose proof (even_entries p1 f Hname Hf) as Heven.
  rewrite (constructed_is_built _ _ _ _ _ _ Hparts Hf Hinit).
  rewrite !call_of_built, !call_of_trained, !map_map.
  split; f_equal; apply map_ext; intros x; rewrite <- Heven; f_equal;
    destruct (PyStr.contains "ad" p0); ring.
Qed.

Lemma even_activation_layers_witness :
  exists l, AdaptiveActivation.__init__ "ad-gauss-2" = Ok l /\
            AdaptiveActivation.call l (map Ropp [1; 3]%R)
            = AdaptiveActivation.call l [1; 3]%R.
Proof.
  eexists. split; [reflexivity|].
  exact (proj1 (even_activation_layers "ad-gauss-2" "ad" "gauss" "2" _ 1%R [1; 3]%R
                  eq_refl (or_intror (or_introl eq_refl)) eq_refl)).
Defined.

End MoreActivationFacts.

(** ** The holder of losses *)

Section LossesHolderFacts.

Import baseLayers.
Local Open Scope string_scope.

Lemma dict_get_set {V : Type} (d : list (string * V)) (k k' : string) (v : V) :
  dict_get (dict_set d k v) k' = if String.eqb k' k then Some v else dict_get d k'.
Proof.
  induction d as [|[k0 w] d IH]; cbn.
  - reflexivity.
  - destruct (String.eqb_spec k k0) as [->|Hne]; cbn.
    + destruct (String.eqb_spec k' k0); reflexivity.
    + rewrite IH. destruct (String.eqb_spec k' k0) as [->|]; [|reflexivity].
      destruct (String.eqb_spec k0 k); [congruence|reflexivity].
Qed.

Lemma record_history (self : LossesHolder.t) (item : string * R) (k : string) :
  dict_get (LossesHolder.logs (LossesHolder.record self item)) k
  = LossesHolder.extended (dict_get (LossesHolder.logs self) k)
                          (LossesHolder.reported k [item]).
Proof.
  destruct item as [kw v]. unfold LossesHolder.record, LossesHolder.reported.
  cbn [filter fst snd map].
  destruct (dict_get (LossesHolder.logs self) kw) as [h|] eqn:Hkw.
  - rewrite Hkw. cbn [LossesHolder.logs]. rewrite dict_get_set.
    rewrite (String.eqb_sym kw k).
    destruct (String.eqb_spec k kw) as [->|Hne]; cbn.
    + now rewrite Hkw.
    + destruct (dict_get (LossesHolder.logs self) k); cbn;
        [now rewrite app_nil_r|reflexivity].
  - rewrite dict_get_set, String.eqb_refl. cbn [LossesHolder.logs].
    rewrite !dict_get_set. rewrite (String.eqb_sym kw k).
    destruct (String.eqb_spec k kw) as [->|Hne]; cbn.
    + now rewrite Hkw.
    + destruct (dict_get (LossesHolder.logs self) k); cbn;
        [now rewrite app_nil_r|reflexivity].
Qed.

Lemma extended_twice (old : option (list R)) (vs ws : list R) :
  LossesHolder.extended (LossesHolder.extended old vs) ws
  = LossesHolder.extended old (vs ++ ws)%list.
Proof.
  destruct old as [h|], vs as [|v vs], ws as [|w ws]; cbn;
    rewrite ?app_nil_r, <- ?app_assoc; reflexivity.
Qed.

Lemma extended_nil (old : option (list R)) : LossesHolder.extended old [] = old.
Proof. destruct old; cbn; now rewrite ?app_nil_r. Qed.

Lemma reported_cons (k : string) (item : string * R) (items : list (string * R)) :
  LossesHolder.reported k (item :: items)
  = (LossesHolder.reported k [item] ++ LossesHolder.reported k items)%list.
Proof.
  unfold LossesHolder.reported. cbn [filter].
  destruct (String.eqb (fst item) k); reflexivity.
Qed.

Lemma records_history (items : list (string * R)) (self : LossesHolder.t) (k : string) :
  dict_get (LossesHolder.logs (fold_left LossesHolder.record items self)) k
  = LossesHolder.extended (dict_get (LossesHolder.logs self) k)
                          (LossesHolder.reported k items).
Proof.
  revert self. induction items as [|item items IH]; intros self.
  - cbn. now rewrite extended_nil.
  - cbn [fold_left]. now rewrite IH, record_history, extended_twice, <- reported_cons.
Qed.

(** Over any sequence of epochs, the history the holder keeps under a key
    is what it held before followed by every value reported under that key,
    in the order of the epochs: nothing is overridden or reordered, and a
    key that was never held nor reported stays absent. *)
Theorem losses_accumulate_in_order
    (self : LossesHolder.t) (epochs : list (list (string * R))) (k : string) :
  dict_get (LossesHolder.logs (LossesHolder.train self epochs)) k
  = LossesHolder.extended (dict_get (LossesHolder.logs self) k)
      (List.concat (map (LossesHolder.reported k) epochs)).
Proof.
  revert self. induction epochs as [|items epochs IH]; intros self.
  - cbn. now rewrite extended_nil.
  - unfold LossesHolder.train in *. cbn [fold_left map List.concat].
    rewrite IH. unfold LossesHolder.on_epoch_end, modify. cbn [fst].
    now rewrite records_history, extended_twice.
Qed.

(** Without [logs] the callback raises and keeps what it held. *)
Lemma on_epoch_end_without_logs (self : LossesHolder.t) (epoch : Z) :
  LossesHolder.on_epoch_end epoch None self = (self, Raise AttributeError).
Proof. reflexivity. Qed.

Example two_epochs :
  dict_get (LossesHolder.logs
              (LossesHolder.train LossesHolder.__init__
                 [[("loss", 3%R); ("mae", 7%R)]; [("loss", 2%R); ("mae", 5%R)]]))
           "mae" = Some [7%R; 5%R] /\
  dict_get (LossesHolder.logs
              (LossesHolder.train LossesHolder.__init__
                 [[("loss", 3%R); ("mae", 7%R)]; [("loss", 2%R); ("mae", 5%R)]]))
           "val_loss" = Some [].
Proof. split; reflexivity. Qed.

End LossesHolderFacts.

(** ** The block of fully connected layers *)

Section DenseBodyFacts.

Import baseLayers.
Local Open Scope string_scope.

Variable object : Type.
Variable dense_raises :
  Z -> activation -> DenseBody.kwargs object -> DenseBody.tensor object -> option exn.

Local Abbreviation DenseBody := (DenseBody.DenseBody object dense_raises).
Local Abbreviation hidden := (DenseBody.hidden object dense_raises).
Local Abbreviation stack := (DenseBody.stack object).

Lemma skipn_nth_error {A : Type} (l : list A) (i : nat) (x : A) :
  nth_error l i = Some x -> skipn i l = x :: skipn (S i) l.
Proof.
  revert i. induction l as [|y l IH]; intros [|i]; cbn; try discriminate.
  - now intros [= ->].
  - intros H. now rewrite (IH i H).
Qed.

Lemma Dense_output (n : Z) (a : activation) (kw : DenseBody.kwargs object)
    (x y : DenseBody.tensor object) :
  DenseBody.Dense object dense_raises n a kw x = Ok y ->
  y = DenseBody.DenseOutput object n a kw x.
Proof.
  unfold DenseBody.Dense. destruct (dense_raises n a kw x); [discriminate|].
  now intros [= <-].
Qed.

(** The loop over the indices [i, i + 1, ...] adds one layer per index, of
    the width found there. *)
Lemma hidden_layers (nu : list Z) (act : string) (a : activation)
    (kw : DenseBody.kwargs object) (k i : nat) (x y : DenseBody.tensor object) :
  Activation act = Ok a ->
  hidden nu act kw (seq i k) x = Ok y ->
  y = stack kw (map (fun n => (n, a)) (firstn k (skipn i nu))) x.
Proof.
  intros Ha. revert i x. induction k as [|k IH]; intros i x; cbn [seq DenseBody.hidden].
  - now intros [= <-].
  - unfold DenseBody.item. destruct (nth_error nu i) as [n|] eqn:Hn; [|discriminate].
    cbn [bind]. rewrite Ha. cbn [bind].
    destruct (DenseBody.Dense object dense_raises n a kw x) as [x'|] eqn:Hd;
      [|discriminate].
    cbn [bind]. intros Hy. apply IH in Hy. apply Dense_output in Hd. subst.
    rewrite (skipn_nth_error _ _ _ Hn). reflexivity.
Qed.

(** Whenever the builder returns, there is at least one hidden layer, the
    widths fit [nl], both activations were constructed, and the output is
    reached from [inputs] through [nl] hidden layers of the given widths
    (all equal to [nu] when it is a plain integer), each with the
    activation of [act], and one layer of width [out_dim] with the
    activation of [out_act]; every layer gets the keyword arguments with
    the kernel initializer defaulted to [he_normal]. *)
Theorem DenseBody_layers (inputs out : DenseBody.tensor object) (nu : DenseBody.widths)
    (nl out_dim : Z) (act out_act : string) (kw : DenseBody.kwargs object) :
  DenseBody inputs nu nl out_dim act out_act kw = Ok out ->
  (1 <= nl)%Z /\
  Z.of_nat (List.length (DenseBody.expanded nu nl)) = nl /\
  exists a ao,
    Activation act = Ok a /\ Activation out_act = Ok ao /\
    out = stack (DenseBody.defaulted object kw)
            (map (fun n => (n, a)) (DenseBody.expanded nu nl) ++ [(out_dim, ao)])
            inputs.
Proof.
  unfold DenseBody.DenseBody.
  set (kw' := DenseBody.defaulted object kw). set (ws := DenseBody.expanded nu nl).
  destruct (Z.eqb_spec (Z.of_nat (List.length ws)) nl) as [Hlen|]; [|discriminate].
  cbn [negb]. destruct ws as [|n0 ws'] eqn:Hws; [discriminate|].
  cbn [DenseBody.item nth_error bind].
  destruct (Activation act) as [a|] eqn:Ha; [|discriminate]. cbn [bind].
  destruct (DenseBody.Dense object dense_raises n0 a kw' inputs) as [x|] eqn:Hd;
    [|discriminate].
  cbn [bind].
  destruct (hidden (n0 :: ws') act kw' (seq 1 (Z.to_nat nl - 1)) x) as [y|] eqn:Hh;
    [|discriminate].
  cbn [bind]. destruct (Activation out_act) as [ao|] eqn:Hao; [|discriminate].
  cbn [bind]. intros Hout.
  apply Dense_output in Hd, Hout. apply (hidden_layers _ _ a) in Hh; [|exact Ha].
  cbn [List.length] in Hlen. split; [lia|]. split; [exact Hlen|].
  exists a, ao. split; [reflexivity|]. split; [reflexivity|].
  subst out y x. cbn [skipn] in *.
  replace (Z.to_nat nl - 1)%nat with (List.length ws') by lia.
  rewrite firstn_all. unfold DenseBody.stack.
  cbn [map app fold_left fst snd]. rewrite fold_left_app. reflexivity.
Qed.

(** What the builder refuses: a list of widths whose length is not [nl]
    fails the assertion, and so does a plain integer with a negative [nl];
    with [nl = 0] the assertion passes for a plain integer and for the empty
    list, and reading the first width raises [IndexError]. *)
Theorem DenseBody_refusals (inputs : DenseBody.tensor object) (nl out_dim : Z)
    (act out_act : string) (kw : DenseBody.kwargs object) :
  (forall l, Z.of_nat (List.length l) <> nl ->
     DenseBody inputs (DenseBody.List l) nl out_dim act out_act kw
     = Raise AssertionError) /\
  (forall n, (nl < 0)%Z ->
     DenseBody inputs (DenseBody.Int n) nl out_dim act out_act kw
     = Raise AssertionError) /\
  (forall n, nl = 0%Z ->
     DenseBody inputs (DenseBody.Int n) nl out_dim act out_act kw = Raise IndexError /\
     DenseBody inputs (DenseBody.List []) nl out_dim act out_act kw = Raise IndexError).
Proof.
  split; [|split].
  - intros l Hl. unfold DenseBody.DenseBody. cbn [DenseBody.expanded].
    destruct (Z.eqb_spec (Z.of_nat (List.length l)) nl); [contradiction|reflexivity].
  - intros n Hn. unfold DenseBody.DenseBody. cbn [DenseBody.expanded].
    rewrite repeat_length.
    destruct (Z.eqb_spec (Z.of_nat (Z.to_nat nl)) nl); [lia|reflexivity].
  - intros n ->. split; reflexivity.
Qed.

End DenseBodyFacts.

Lemma DenseBody_layers_witness :
  exists a ao,
    baseLayers.Activation "ad-gauss-1" = Ok a /\
    baseLayers.Activation "ad-sigmoid-1" = Ok ao /\
    baseLayers.DenseBody.DenseBody unit (fun _ _ _ _ => None)
      (baseLayers.DenseBody.Placeholder unit 0) (baseLayers.DenseBody.Int 50) 4 1
      "ad-gauss-1" "ad-sigmoid-1" []
    = Ok (baseLayers.DenseBody.stack unit
            [("kernel_initializer"%string, baseLayers.DenseBody.KStr unit "he_normal")]
            [(50%Z, a); (50%Z, a); (50%Z, a); (50%Z, a); (1%Z, ao)]
            (baseLayers.DenseBody.Placeholder unit 0)).
Proof.
  destruct (DenseBody_layers unit (fun _ _ _ _ => None)
              (baseLayers.DenseBody.Placeholder unit 0) _
              (baseLayers.DenseBody.Int 50) 4 1 "ad-gauss-1" "ad-sigmoid-1" [] eq_refl)
    as (_ & _ & a & ao & Ha & Hao & _).
  exists a, ao. split; [exact Ha|]. split; [exact Hao|].
  cbv in Ha, Hao. injection Ha as <-. injection Hao as <-. reflexivity.
Defined.

Lemma DenseBody_refusals_witness :
  baseLayers.DenseBody.DenseBody unit (fun _ _ _ _ => None)
    (baseLayers.DenseBody.Placeholder unit 0) (baseLayers.DenseBody.List [50; 50]%Z) 4 1
    "ad-gauss-1" "ad-sigmoid-1" [] = Raise AssertionError /\
  baseLayers.DenseBody.DenseBody unit (fun _ _ _ _ => None)
    (baseLayers.DenseBody.Placeholder unit 0) (baseLayers.DenseBody.Int 50) 0 1
    "ad-gauss-1" "ad-sigmoid-1" [] = Raise IndexError.
Proof.
  destruct (DenseBody_refusals unit (fun _ _ _ _ => None)
              (baseLayers.DenseBody.Placeholder unit 0) 4 1
              "ad-gauss-1" "ad-sigmoid-1" []) as (Hlist & _).
  destruct (DenseBody_refusals unit (fun _ _ _ _ => None)
              (baseLayers.DenseBody.Placeholder unit 0) 0 1
              "ad-gauss-1" "ad-sigmoid-1" []) as (_ & _ & Hzero).
  split.
  - apply Hlist. discriminate.
  - exact (proj1 (Hzero 50%Z eq_refl)).
Defined.

(** ** The source-location layer *)

Section SourceLocFacts.

Import baseLayers.
Local Open Scope R_scope.

Lemma ones_times (r xs : list R) :
  List.length r = List.length xs ->
  np.map2 Rmult (map (fun _ => 1) r) xs = xs.
Proof.
  revert xs. induction r as [|x r IH]; intros [|y xs]; cbn; try easy.
  intros [= H]. rewrite (IH xs H). f_equal. ring.
Qed.

Lemma broadcast_ones (r xs : list R) :
  List.length r = List.length xs \/ List.length r = 1%nat ->
  np.broadcast2 Rmult (map (fun _ => 1) r) xs = xs.
Proof.
  unfold np.broadcast2. rewrite length_map.
  destruct (Nat.eqb_spec (List.length r) (List.length xs)) as [Heq|Hne].
  - intros _. now apply ones_times.
  - intros [H|H]; [contradiction|].
    destruct r as [|x [|x' r]]; try discriminate. cbn [map].
    destruct xs as [|y [|y' xs]]; cbn [map].
    + reflexivity.
    + cbn in Hne. contradiction.
    + f_equal; [ring|]. f_equal; [ring|].
      rewrite <- (map_id xs) at 2. apply map_ext. intros z. ring.
Qed.

(** The layer holds the source location as its one weight, which is not
    trainable, and its configuration gives the location back; called on a
    batch whose last axis has the size of the location (or size 1), it
    returns the location once per row of the batch, whatever the entries of
    the batch are. *)
Theorem SourceLoc_repeats_the_source (xs : list R) (x : np.ndarray) :
  np.well_shaped x = true ->
  np.cols x = List.length xs \/ np.cols x = 1%nat ->
  SourceLoc.xs (SourceLoc.__init__ xs) = xs /\
  SourceLoc.trainable (SourceLoc.__init__ xs) = false /\
  SourceLoc.get_config (SourceLoc.__init__ xs) = [("xs"%string, xs)] /\
  SourceLoc.call (SourceLoc.__init__ xs) x
  = Ok (np.mk (List.length xs) (map (fun _ => xs) (np.rows x))).
Proof.
  intros Hw Hc. repeat split.
  unfold SourceLoc.call. cbn [SourceLoc.xs SourceLoc.__init__ Initializer.__call__
    Initializer.__init__ Initializer.x].
  assert (Hb : np.broadcast_cols (np.cols x) (List.length xs) = Ok (List.length xs)).
  { unfold np.broadcast_cols. destruct Hc as [->| ->].
    - now rewrite Nat.eqb_refl.
    - destruct (Nat.eqb_spec 1 (List.length xs)) as [<-|_]; [reflexivity|].
      destruct (List.length xs =? 1)%nat eqn:E; [apply Nat.eqb_eq in E; now rewrite E|].
      reflexivity. }
  rewrite Hb. cbn [bind]. do 2 f_equal. apply map_ext_in. intros r Hr.
  apply broadcast_ones. unfold np.well_shaped in Hw. rewrite forallb_forall in Hw.
  specialize (Hw r Hr). apply Nat.eqb_eq in Hw. rewrite Hw. exact Hc.
Qed.

Lemma SourceLoc_repeats_the_source_witness :
  SourceLoc.call (SourceLoc.__init__ [3; 4]) (np.mk 2 [[0; 1]; [5; 6]; [7; 8]])
  = Ok (np.mk 2 [[3; 4]; [3; 4]; [3; 4]]).
Proof.
  exact (proj2 (proj2 (proj2 (SourceLoc_repeats_the_source [3; 4]
                                (np.mk 2 [[0; 1]; [5; 6]; [7; 8]])
                                eq_refl (or_introl eq_refl))))).
Defined.

End SourceLocFacts.

(** ** The vertical-gradient model: values, bounds and derivatives *)

Section MoreVerticalGradientFacts.

Import misc.
Local Open Scope R_scope.

Lemma fold_min_spec (l : list R) (v : R) :
  In (fold_left Rmin l v) (v :: l) /\
  Forall (fun x => fold_left Rmin l v <= x) (v :: l).
Proof.
  revert v. induction l as [|x l IH]; intros v; cbn [fold_left].
  - split; [now left|]. constructor; [lra|constructor].
  - destruct (IH (Rmin v x)) as [Hin Hall]. inversion Hall as [|? ? Hhd Htl]; subst.
    split.
    + destruct Hin as [Heq|Hin]; [|right; now right].
      rewrite <- Heq. unfold Rmin. destruct (Rle_dec v x); [now left|right; now left].
    + pose proof (Rmin_l v x). pose proof (Rmin_r v x).
      constructor; [lra|]. constructor; [lra|exact Htl].
Qed.

Lemma fold_max_spec (l : list R) (v : R) :
  In (fold_left Rmax l v) (v :: l) /\
  Forall (fun x => x <= fold_left Rmax l v) (v :: l).
Proof.
  revert v. induction l as [|x l IH]; intros v; cbn [fold_left].
  - split; [now left|]. constructor; [lra|constructor].
  - destruct (IH (Rmax v x)) as [Hin Hall]. inversion Hall as [|? ? Hhd Htl]; subst.
    split.
    + destruct Hin as [Heq|Hin]; [|right; now right].
      rewrite <- Heq. unfold Rmax. destruct (Rle_dec v x); [right; now left|now left].
    + pose proof (Rmax_l v x). pose proof (Rmax_r v x).
      constructor; [lra|]. constructor; [lra|exact Htl].
Qed.

(** What a value query returns: the velocity [v0 + a * z] at the depth [z]
    of each row. *)
Lemma value_query_returns (self self' : VerticalGradient.t) (X : np.ndarray) (V : list R) :
  VerticalGradient.__call__ X self = (self', Ok V) ->
  V = map (fun r => VerticalGradient.v0 self + VerticalGradient.a self * last r 0)
          (np.rows X).
Proof.
  destruct self as [v0 a [xmin|] [xmax|] [mn|] [mx|] [d|]], X as [[|c] [|r rs]];
    unfold VerticalGradient.__call__, mbind, when, get, modify, lift, ret, is_None;
    cbn -[last]; intros H; inversion H; subst; rewrite ?map_map; reflexivity.
Qed.

(** On a model whose [min] and [max] are not yet set, the value query that
    first returns sets them to the least and the greatest velocity of that
    batch: both are velocities of the batch and every velocity of the batch
    lies between them. *)
Theorem first_batch_sets_min_and_max
    (self self' : VerticalGradient.t) (X : np.ndarray) (V : list R) :
  VerticalGradient.min self = None ->
  VerticalGradient.max self = None ->
  VerticalGradient.__call__ X self = (self', Ok V) ->
  V = map (fun r => VerticalGradient.v0 self + VerticalGradient.a self * last r 0)
          (np.rows X) /\
  exists lo hi,
    VerticalGradient.min self' = Some lo /\ VerticalGradient.max self' = Some hi /\
    In lo V /\ In hi V /\ Forall (fun v => lo <= v <= hi) V.
Proof.
  intros Hmin Hmax Hcall. split; [now apply (value_query_returns self self')|].
  destruct (VerticalGradient_first_query _ _ _ _ Hcall) as (_ & _ & _ & Hlo & Hhi & _).
  rewrite Hmin in Hlo. rewrite Hmax in Hhi. cbn [cached] in Hlo, Hhi.
  destruct V as [|v V].
  - exfalso. clear Hlo Hhi.
    destruct self as [v0 a [xmin|] [xmax|] [mn|] [mx|] [d|]];
      cbn in Hmin, Hmax; try discriminate;
      destruct X as [[|c] [|r rs]]; revert Hcall;
      unfold VerticalGradient.__call__, mbind, when, get, modify, lift, ret, is_None;
      cbn -[last]; discriminate.
  - cbn [np.reduce_all] in Hlo, Hhi.
    destruct (fold_min_spec V v) as [Hin1 Hall1].
    destruct (fold_max_spec V v) as [Hin2 Hall2].
    eexists _, _. repeat split; try eassumption.
    rewrite Forall_forall in *. intros x Hx. split; [now apply Hall1|now apply Hall2].
Qed.

Lemma first_batch_sets_min_and_max_witness :
  exists lo hi,
    VerticalGradient.min
      (fst (VerticalGradient.__call__ (np.mk 2 [[0; 1]; [3; 5]])
              (VerticalGradient.__init__ 1 2 None None))) = Some lo /\
    VerticalGradient.max
      (fst (VerticalGradient.__call__ (np.mk 2 [[0; 1]; [3; 5]])
              (VerticalGradient.__init__ 1 2 None None))) = Some hi /\
    Forall (fun v => lo <= v <= hi) [1 + 2 * 1; 1 + 2 * 5].
Proof.
  destruct (first_batch_sets_min_and_max (VerticalGradient.__init__ 1 2 None None) _
              (np.mk 2 [[0; 1]; [3; 5]]) _ eq_refl eq_refl eq_refl)
    as (_ & lo & hi & Hlo & Hhi & _ & _ & Hall).
  exists lo, hi. repeat split; assumption.
Defined.

Lemma last_put (r : list R) (j : nat) (t : R) :
  (j < List.length r)%nat ->
  last (np.put r j t) 0 = if (S j =? List.length r)%nat then t else last r 0.
Proof.
  revert j. induction r as [|x r IH]; intros j Hj; [cbn in Hj; lia|].
  destruct j as [|j]; cbn [np.put List.length].
  - destruct r as [|y r]; [reflexivity|]. cbn [List.length Nat.eqb]. reflexivity.
  - cbn [List.length] in Hj. assert (Hj' : (j < List.length r)%nat) by lia.
    specialize (IH j Hj'). destruct r as [|y r]; [cbn in Hj'; lia|].
    change (last (x :: np.put (y :: r) j t) 0) with
      (match np.put (y :: r) j t with [] => x | _ :: _ => last (np.put (y :: r) j t) 0 end).
    destruct (np.put (y :: r) j t) eqn:E.
    + destruct j; discriminate E.
    + rewrite IH. reflexivity.
Qed.

Lemma nth_zeros_then (k j : nat) (a : R) :
  nth j (repeat 0 k ++ [a]) 0 = if (j =? k)%nat then a else 0.
Proof.
  revert j. induction k as [|k IH]; intros [|j]; cbn; try reflexivity.
  - now destruct j.
  - apply IH.
Qed.

(** Dropping the fraction of a number that lies between an integer and the
    next, on the side of zero. *)
Lemma truncate_spec (x : R) (z : Z) :
  (0 <= z)%Z -> IZR z <= x < IZR z + 1 -> np.truncate x = IZR z.
Proof.
  intros Hz [Hlo Hhi]. unfold np.truncate.
  assert (0 <= IZR z) by (apply IZR_le; exact Hz).
  destruct (Rle_dec 0 x) as [_|Hn]; [|lra].
  f_equal. symmetry. apply Int_part_spec. lra.
Qed.

Lemma truncate_integer (x : R) : np.truncate x = x <-> exists z, x = IZR z.
Proof.
  unfold np.truncate. split.
  - destruct (Rle_dec 0 x); intros H.
    + eexists. symmetry. exact H.
    + exists (- Int_part (- x))%Z. rewrite opp_IZR. symmetry. exact H.
  - intros [z ->]. destruct (Rle_dec 0 (IZR z)).
    + f_equal. symmetry. apply Int_part_spec. lra.
    + assert (Hp : Int_part (- IZR z) = (- z)%Z).
      { symmetry. apply Int_part_spec. rewrite opp_IZR. lra. }
      rewrite Hp, opp_IZR. ring.
Qed.

(** For a point of two or more coordinates, the gradient query gives 0
    along the horizontal coordinates and, along the depth, the coefficient
    [a] converted to the element type of the batch.  For a batch of floats
    this is along every coordinate the derivative of the value query along
    it.  For a batch of integers the entry along the depth is [a] without
    its fraction, which is [a], the derivative, only when [a] is an
    integer. *)
Theorem vertical_gradient_is_the_derivative
    (self : VerticalGradient.t) (dt : np.dtype) (r : list R) (k j : nat) :
  List.length r = S (S k) ->
  (j < List.length r)%nat ->
  VerticalGradient.gradient_row self dt r
  = repeat 0 (S k) ++ [np.astype dt (VerticalGradient.a self)] /\
  (forall t, exists self',
     VerticalGradient.__call__ (np.point (np.put r j t)) self
     = (self', Ok [VerticalGradient.v0 self
                   + VerticalGradient.a self * last (np.put r j t) 0])) /\
  derivable_pt_lim
    (fun t => VerticalGradient.v0 self + VerticalGradient.a self * last (np.put r j t) 0)
    (nth j r 0) (nth j (VerticalGradient.gradient_row self np.float64 r) 0) /\
  nth (S k) (VerticalGradient.gradient_row self np.int64 r) 0
  = np.truncate (VerticalGradient.a self) /\
  (np.truncate (VerticalGradient.a self) = VerticalGradient.a self <->
   exists z, VerticalGradient.a self = IZR z).
Proof.
  intros Hlen Hj. split; [now apply gradient_row_two|]. split; [|split; [|split]].
  - intros t. destruct (value_at_point self (np.put r j t)) as (self' & H & _).
    + destruct r as [|x r]; [discriminate|]. now destruct j.
    + now exists self'.
  - rewrite (gradient_row_two self np.float64 r k Hlen), nth_zeros_then.
    cbn [np.astype].
    apply (derivable_pt_lim_ext
             (fun t => VerticalGradient.v0 self + VerticalGradient.a self
                       * (if (S j =? List.length r)%nat then t else last r 0))).
    + intros t. now rewrite last_put.
    + rewrite Hlen. cbn [Nat.eqb].
      destruct (Nat.eqb_spec j (S k)) as [->|Hne].
      * apply (derivable_pt_lim_ext
                 (plus_fct (fct_cte (VerticalGradient.v0 self))
                           (mult_real_fct (VerticalGradient.a self) id))).
        { intros t. reflexivity. }
        replace (VerticalGradient.a self) with (0 + VerticalGradient.a self * 1) at 2 by ring.
        apply derivable_pt_lim_plus; [apply derivable_pt_lim_const|].
        apply derivable_pt_lim_scal, derivable_pt_lim_id.
      * apply derivable_pt_lim_const.
  - rewrite (gradient_row_two self np.int64 r k Hlen), nth_zeros_then.
    now rewrite Nat.eqb_refl.
  - apply truncate_integer.
Qed.

Lemma vertical_gradient_is_the_derivative_witness :
  derivable_pt_lim
    (fun t => VerticalGradient.v0 (VerticalGradient.__init__ 1 2 None None)
              + VerticalGradient.a (VerticalGradient.__init__ 1 2 None None)
                * last (np.put [5; 6; 7] 2 t) 0)
    (nth 2 [5; 6; 7] 0)
    (nth 2 (VerticalGradient.gradient_row (VerticalGradient.__init__ 1 2 None None)
              np.float64 [5; 6; 7]) 0).
Proof.
  exact (proj1 (proj2 (proj2 (vertical_gradient_is_the_derivative
                         (VerticalGradient.__init__ 1 2 None None) np.float64
                         [5; 6; 7] 1 2 eq_refl (Nat.lt_succ_diag_r 2))))).
Defined.

(** On the batch [[5, 6]] of integers, a model of coefficient 2.5 has the
    gradient [[0, 2]]. *)
Example gradient_of_an_integer_batch :
  VerticalGradient.gradient (VerticalGradient.__init__ 1 (5 / 2) None None)
    np.int64 (np.mk 2 [[5; 6]])
  = np.mk 2 [[0; 2]].
Proof.
  rewrite (gradient_two_or_more _ _ _ 0) by reflexivity.
  cbn [np.cols np.rows map repeat app np.astype VerticalGradient.a
       VerticalGradient.__init__].
  rewrite (truncate_spec (5 / 2) 2) by (try lia; lra). reflexivity.
Qed.

End MoreVerticalGradientFacts.

(** ** The vertical-gradient model: travel times *)

Section TravelTimeFacts.

Import misc.
Local Open Scope R_scope.

(** The travel-time query evaluates the model at the source before anything
    else.  So whenever it returns, every lazily computed attribute that was
    not set is set from the source point [xs] alone, whatever the batch [X]
    holds: the bounds [xmin] and [xmax] are both [xs], [dim] is the length
    of [xs], and [min] and [max] are both the velocity [v0 + a * zs] at the
    source; [v0] and [a] are as before, and the result has one entry per
    row of [X]. *)
Theorem travel_time_query_takes_the_bounds_from_the_source
    (self self' : VerticalGradient.t) (X : np.ndarray) (xs : list R)
    (ts : list (option R)) :
  VerticalGradient.time X xs self = (self', Ok ts) ->
  VerticalGradient.xmin self' = cached (VerticalGradient.xmin self) (Ok xs) /\
  VerticalGradient.xmax self' = cached (VerticalGradient.xmax self) (Ok xs) /\
  VerticalGradient.dim self'
    = cached (VerticalGradient.dim self) (Ok (List.length xs)) /\
  VerticalGradient.min self'
    = cached (VerticalGradient.min self)
        (Ok (VerticalGradient.v0 self + VerticalGradient.a self * last xs 0)) /\
  VerticalGradient.max self'
    = cached (VerticalGradient.max self)
        (Ok (VerticalGradient.v0 self + VerticalGradient.a self * last xs 0)) /\
  VerticalGradient.v0 self' = VerticalGradient.v0 self /\
  VerticalGradient.a self' = VerticalGradient.a self /\
  List.length ts = List.length (np.rows X).
Proof.
  unfold VerticalGradient.time, mbind, lift, get, ret.
  destruct (np.broadcast_cols (np.cols X) (List.length xs)) as [c|]; [|discriminate].
  destruct (VerticalGradient.__call__ (np.point xs) self) as [s1 [V|]] eqn:Hcall;
    [|discriminate].
  destruct (np.last_entry _) as [z|] eqn:Hz; [|discriminate].
  intros [= <- <-].
  pose proof (value_query_returns _ _ _ _ Hcall) as HV.
  destruct (VerticalGradient_first_query _ _ _ _ Hcall)
    as (H1 & H2 & H3 & H4 & H5 & _).
  cbn [np.point np.rows np.cols map] in HV, H1, H2, H3. subst V.
  cbn [np.reduce_axis0 np.reduce_all fold_left] in H1, H2, H4, H5.
  repeat split; try assumption.
  - revert Hcall. clear.
    destruct self as [v0 a [xmin|] [xmax|] [mn|] [mx|] [d|]], xs as [|x xs];
      unfold VerticalGradient.__call__, mbind, when, get, modify, lift, ret, is_None;
      cbn -[last]; intros H; inversion H; reflexivity.
  - revert Hcall. clear.
    destruct self as [v0 a [xmin|] [xmax|] [mn|] [mx|] [d|]], xs as [|x xs];
      unfold VerticalGradient.__call__, mbind, when, get, modify, lift, ret, is_None;
      cbn -[last]; intros H; inversion H; reflexivity.
  - unfold np.last_entry in Hz. cbn [np.cols np.rows] in Hz.
    destruct c; [discriminate|]. injection Hz as <-.
    rewrite length_map, length_combine, !length_map. apply Nat.min_id.
Qed.

Lemma travel_time_query_takes_the_bounds_from_the_source_witness :
  VerticalGradient.xmin
    (fst (VerticalGradient.time (np.mk 2 [[0; 1]; [7; 9]]) [3; 4]
            (VerticalGradient.__init__ 1 2 None None))) = Some [3; 4] /\
  VerticalGradient.xmax
    (fst (VerticalGradient.time (np.mk 2 [[0; 1]; [7; 9]]) [3; 4]
            (VerticalGradient.__init__ 1 2 None None))) = Some [3; 4] /\
  VerticalGradient.min
    (fst (VerticalGradient.time (np.mk 2 [[0; 1]; [7; 9]]) [3; 4]
            (VerticalGradient.__init__ 1 2 None None))) = Some (1 + 2 * 4).
Proof.
  destruct (travel_time_query_takes_the_bounds_from_the_source
              (VerticalGradient.__init__ 1 2 None None)
              (fst (VerticalGradient.time (np.mk 2 [[0; 1]; [7; 9]]) [3; 4]
                      (VerticalGradient.__init__ 1 2 None None)))
              (np.mk 2 [[0; 1]; [7; 9]]) [3; 4] _ eq_refl)
    as (H1 & H2 & _ & H4 & _).
  repeat split; assumption.
Defined.

End TravelTimeFacts.

(** ** The vertical-gradient model: the gradient of the travel time *)

Section TravelTimeGradientFacts.

Import misc.
Local Open Scope R_scope.

Lemma dtime_row_length (a V : R) (d : list R) :
  List.length (VerticalGradient.dtime_row a V d) = 2%nat.
Proof.
  unfold VerticalGradient.dtime_row.
  destruct (np.divide _ _); [|reflexivity].
  destruct (np.sqrt_entry _); [|reflexivity].
  destruct (np.divide _ _); reflexivity.
Qed.

(** At the source the square root in [A] vanishes, and neither entry is
    finite. *)
Lemma dtime_row_at_source (a V : R) (n : nat) :
  VerticalGradient.dtime_row a V (repeat 0 n) = [None; None].
Proof.
  unfold VerticalGradient.dtime_row. rewrite sum_squares_zero.
  replace (a * 2 * 0) with 0 by ring.
  set (down := 2 * V * (a * last (repeat 0 n) 0 + V)).
  unfold np.divide at 1. destruct (Req_dec_T down 0) as [|Hd]; [reflexivity|].
  replace ((0 / down + 1) ^ 2 - 1) with 0 by (field; exact Hd).
  unfold np.sqrt_entry. destruct (Rle_dec 0 0) as [_|Hn]; [|exfalso; lra].
  rewrite sqrt_0. unfold np.divide. destruct (Req_dec_T 0 0) as [_|Hn]; [reflexivity|].
  now contradiction Hn.
Qed.

(** For a source of at least one coordinate and a batch of the same last
    axis, the gradient of the travel time raises [ZeroDivisionError] when
    [a] is zero; otherwise it is returned with one row of exactly two
    entries per row of the batch, whatever the dimension, and in a row of
    the batch equal to the source neither entry is finite. *)
Theorem travel_time_gradient_has_two_columns_and_none_at_source
    (self : VerticalGradient.t) (X : np.ndarray) (xs : list R) :
  xs <> [] ->
  np.cols X = List.length xs ->
  (VerticalGradient.a self = 0 ->
   snd (VerticalGradient.dtime X xs self) = Ok ZeroDivisionError) /\
  (VerticalGradient.a self <> 0 ->
   exists out,
     snd (VerticalGradient.dtime X xs self) = Ok (Finished out) /\
     Forall2 (fun r row => List.length row = 2%nat /\ (r = xs -> row = [None; None]))
             (np.rows X) out).
Proof.
  intros Hne Hcols.
  destruct (value_at_point self xs Hne) as (self' & Hcall & Ha' & Hv0').
  assert (Hrun : snd (VerticalGradient.dtime X xs self) =
                 if Req_dec_T (VerticalGradient.a self) 0 then Ok ZeroDivisionError
                 else Ok (Finished
                            (map (fun r => VerticalGradient.dtime_row
                                             (VerticalGradient.a self)
                                             (VerticalGradient.v0 self
                                              + VerticalGradient.a self * last xs 0)
                                             (np.broadcast2 Rminus r xs))
                                 (np.rows X)))).
  { unfold VerticalGradient.dtime, mbind, lift, get, ret.
    unfold np.broadcast_cols. rewrite Hcols, Nat.eqb_refl.
    rewrite Hcall. cbn [hd]. unfold np.last_entry. cbn [np.cols np.rows].
    destruct (List.length xs) eqn:Hlen; [destruct xs; [contradiction|discriminate]|].
    rewrite Ha'. destruct (Req_dec_T (VerticalGradient.a self) 0); cbn [snd];
      [reflexivity|]. now rewrite map_map. }
  rewrite Hrun. split; intros Ha.
  - destruct (Req_dec_T (VerticalGradient.a self) 0); [reflexivity|contradiction].
  - destruct (Req_dec_T (VerticalGradient.a self) 0) as [|_]; [contradiction|].
    eexists. split; [reflexivity|]. clear Hrun.
    induction (np.rows X) as [|r rws IH]; cbn [map]; constructor; [|exact IH].
    split; [apply dtime_row_length|].
    intros ->. unfold np.broadcast2. rewrite Nat.eqb_refl, map2_minus_self.
    apply dtime_row_at_source.
Qed.

Lemma travel_time_gradient_has_two_columns_and_none_at_source_witness :
  exists out,
    snd (VerticalGradient.dtime (np.mk 3 [[3; 4; 5]; [0; 1; 2]]) [3; 4; 5]
           (VerticalGradient.__init__ 1 2 None None)) = Ok (Finished out) /\
    Forall2 (fun r row => List.length row = 2%nat /\ (r = [3; 4; 5] -> row = [None; None]))
            [[3; 4; 5]; [0; 1; 2]] out.
Proof.
  apply (travel_time_gradient_has_two_columns_and_none_at_source
           (VerticalGradient.__init__ 1 2 None None)
           (np.mk 3 [[3; 4; 5]; [0; 1; 2]]) [3; 4; 5]).
  - discriminate.
  - reflexivity.
  - cbn. lra.
Defined.

End TravelTimeGradientFacts.

(** ** The Gaussian-anomaly model: the range of the values *)

Section AnomalyRangeFacts.

Import misc.
Local Open Scope R_scope.

Lemma anomaly_query_returns (self self' : LocAnomaly.t) (X : np.ndarray) (V : list R) :
  LocAnomaly.__call__ X self = (self', Ok V) ->
  V = map (LocAnomaly.value_row self) (np.rows X).
Proof.
  destruct self as [mus sigmas [xmin|] [xmax|] mn mx d vmin vmax], X as [[|c] [|r rs]];
    unfold LocAnomaly.__call__, mbind, when, get, modify, lift, ret, is_None;
    cbn -[LocAnomaly.value_row];
    repeat match goal with
           | |- context [np.broadcast_cols ?x ?y] => destruct (np.broadcast_cols x y)
           end; cbn -[LocAnomaly.value_row];
    intros H; inversion H; subst; reflexivity.
Qed.

Lemma sum_nonneg (l : list R) : Forall (fun x => 0 <= x) l -> 0 <= np.sum l.
Proof.
  induction 1 as [|x l Hx Hl IH]; unfold np.sum in *; cbn [fold_right]; lra.
Qed.

Lemma term_nonneg (d s : R) : s <> 0 -> 0 <= d ^ 2 / 2 / s ^ 2.
Proof.
  intros Hs.
  assert (0 < s ^ 2).
  { pose proof (pow2_ge_0 s). pose proof (pow_nonzero s 2 Hs). lra. }
  pose proof (pow2_ge_0 d).
  apply Rmult_le_pos; [lra|]. left. now apply Rinv_0_lt_compat.
Qed.

Lemma map2_forall (P : R -> Prop) (f : R -> R -> R) (l1 l2 : list R) :
  (forall x y, In x l1 -> In y l2 -> P (f x y)) ->
  Forall P (np.map2 f l1 l2).
Proof.
  revert l2. induction l1 as [|x l1 IH]; intros [|y l2] H; cbn; constructor.
  - apply H; now left.
  - apply IH. intros x' y' Hx Hy. apply H; now right.
Qed.

(** A property of every result of the operation holds of every entry of the
    broadcast result. *)
Lemma broadcast2_forall (P : R -> Prop) (f : R -> R -> R) (l1 l2 : list R) :
  (forall x y, In x l1 -> In y l2 -> P (f x y)) ->
  Forall P (np.broadcast2 f l1 l2).
Proof.
  intros H. unfold np.broadcast2.
  destruct (List.length l1 =? List.length l2)%nat; [now apply map2_forall|].
  destruct l1 as [|x [|x' l1]], l2 as [|y [|y' l2]]; cbn [map];
    repeat constructor;
    try (apply H; cbn; tauto);
    apply Forall_map, Forall_forall; intros z Hz; apply H; cbn; tauto.
Qed.

(** The exponent is not negative, however the row, the centre and the
    widths broadcast. *)
Lemma exponent_nonneg (mus sigmas r : list R) :
  Forall (fun s => s <> 0) sigmas ->
  0 <= LocAnomaly.exponent mus sigmas r.
Proof.
  intros Hs. unfold LocAnomaly.exponent. apply sum_nonneg.
  apply broadcast2_forall. intros d s _ Hin. apply term_nonneg.
  rewrite Forall_forall in Hs. now apply Hs.
Qed.

(** With every width nonzero, every value of the model lies between the
    two velocities it was built from. *)
Lemma value_row_range (self : LocAnomaly.t) (r : list R) :
  Forall (fun s => s <> 0) (LocAnomaly.sigmas self) ->
  Rmin (LocAnomaly.vmin self) (LocAnomaly.vmax self) <= LocAnomaly.value_row self r
  <= Rmax (LocAnomaly.vmin self) (LocAnomaly.vmax self).
Proof.
  intros Hs. unfold LocAnomaly.value_row.
  pose proof (exponent_nonneg (LocAnomaly.mus self) _ r Hs) as HE.
  set (E := LocAnomaly.exponent _ _ r) in *.
  assert (He : 0 < exp (- E) <= 1).
  { split; [apply exp_pos|]. rewrite <- exp_0.
    destruct HE as [HE| <-]; [left; apply exp_increasing; lra|rewrite Ropp_0; lra]. }
  unfold Rmin, Rmax. destruct (Rle_dec (LocAnomaly.vmin self) (LocAnomaly.vmax self));
    split; nra.
Qed.

(** For a model whose [min] and [max] are those of construction and whose
    widths are all nonzero, no value a value query returns lies beyond the
    background velocity [vmin]: when [vmin <= vmax] every value is at least
    [min], which is [vmin], and when [vmax <= vmin] every value is at most
    [max], which is [vmin]. *)
Theorem anomaly_values_do_not_cross_vmin
    (self self' : LocAnomaly.t) (X : np.ndarray) (V : list R) :
  LocAnomaly.min self = Rmin (LocAnomaly.vmin self) (LocAnomaly.vmax self) ->
  LocAnomaly.max self = Rmax (LocAnomaly.vmin self) (LocAnomaly.vmax self) ->
  Forall (fun s => s <> 0) (LocAnomaly.sigmas self) ->
  LocAnomaly.__call__ X self = (self', Ok V) ->
  (LocAnomaly.vmin self <= LocAnomaly.vmax self ->
   LocAnomaly.min self = LocAnomaly.vmin self /\
   Forall (fun v => LocAnomaly.min self <= v) V) /\
  (LocAnomaly.vmax self <= LocAnomaly.vmin self ->
   LocAnomaly.max self = LocAnomaly.vmin self /\
   Forall (fun v => v <= LocAnomaly.max self) V).
Proof.
  intros Hmin Hmax Hs Hcall. rewrite (anomaly_query_returns _ _ _ _ Hcall).
  rewrite Hmin, Hmax. split; intros Hle.
  - split; [now apply Rmin_left|].
    apply Forall_map, Forall_forall. intros r _. now apply value_row_range.
  - split; [now apply Rmax_left|].
    apply Forall_map, Forall_forall. intros r _. now apply value_row_range.
Qed.

Lemma anomaly_values_do_not_cross_vmin_witness :
  Forall (fun v => 1 <= v)
    (map (LocAnomaly.value_row (LocAnomaly.__init__ 1 3 [0; 0] [1; 2] None None))
         [[0; 0]; [5; 7]]).
Proof.
  destruct (anomaly_values_do_not_cross_vmin
              (LocAnomaly.__init__ 1 3 [0; 0] [1; 2] None None)
              (fst (LocAnomaly.__call__ (np.mk 2 [[0; 0]; [5; 7]])
                      (LocAnomaly.__init__ 1 3 [0; 0] [1; 2] None None)))
              (np.mk 2 [[0; 0]; [5; 7]])
              (map (LocAnomaly.value_row
                      (LocAnomaly.__init__ 1 3 [0; 0] [1; 2] None None))
                   [[0; 0]; [5; 7]])
              eq_refl eq_refl) as [Hlow _].
  - repeat constructor; cbn; lra.
  - reflexivity.
  - destruct Hlow as [Hm Hall]; [cbn; lra|].
    cbn [LocAnomaly.min LocAnomaly.__init__] in Hall.
    replace (Rmin 1 3) with 1 in Hall by (symmetry; apply Rmin_left; lra).
    exact Hall.
Defined.

End AnomalyRangeFacts.

(** ** The gradient-biased sampler: the regular count and the probabilities *)

Section SamplerBudgetFacts.

Import misc.


Local Open Scope R_scope.






End SamplerBudgetFacts.

(** ** The regular grid of collocation points *)

Section RegularGridFacts.

Import misc.
Local Open Scope R_scope.

(** The samples of [np.linspace] lie between the two ends. *)
Lemma linspace_between (lo hi : R) (num : nat) :
  lo <= hi -> Forall (fun x => lo <= x <= hi) (np.linspace lo hi num).
Proof.
  intros Hle. destruct num as [|[|k]]; cbn [np.linspace].
  - constructor.
  - constructor; [lra|constructor].
  - apply Forall_map, Forall_forall. intros i Hi. apply in_seq in Hi.
    assert (Hk : 0 < INR (S k)) by (apply lt_0_INR; lia).
    assert (Hi0 : 0 <= INR i) by apply pos_INR.
    assert (Hik : INR i <= INR (S k)) by (apply le_INR; lia).
    assert (Hfrac : 0 <= INR i / INR (S k) <= 1).
    { split.
      - apply Rmult_le_pos; [exact Hi0|left; now apply Rinv_0_lt_compat].
      - apply Rmult_le_reg_r with (r := INR (S k)); [exact Hk|].
        replace (INR i / INR (S k) * INR (S k)) with (INR i) by (field; lra). lra. }
    replace (INR i * ((hi - lo) / INR (S k))) with (INR i / INR (S k) * (hi - lo))
      by (field; lra).
    split; nra.
Qed.

(** A row of the grid takes its entry on every axis from the samples of
    that axis. *)
Lemma meshgrid_row_entries (axes : list (list R)) (row : list R) :
  In row (np.meshgrid_rows axes) -> Forall2 (fun x ax => In x ax) row axes.
Proof.
  revert row. induction axes as [|ax axes IH]; intros row; cbn [np.meshgrid_rows].
  - intros [<-|[]]. constructor.
  - rewrite in_flat_map. intros (x & Hx & Hrow). apply in_map_iff in Hrow.
    destruct Hrow as (rest & <- & Hrest). constructor; [exact Hx|now apply IH].
Qed.

Lemma meshgrid_rows_count (axes : list (list R)) :
  List.length (np.meshgrid_rows axes)
  = fold_right Nat.mul 1%nat (map (@List.length R) axes).
Proof.
  induction axes as [|ax axes IH]; [reflexivity|].
  cbn [np.meshgrid_rows map fold_right].
  rewrite (flat_map_constant_length _ _ (List.length (np.meshgrid_rows axes))).
  - now rewrite IH.
  - intros x. now rewrite length_map.
Qed.

(** What the comprehension over the axes yields when it succeeds. *)
Lemma axes_from_spec (self : RegularGrid.t) (axes : list Z) (i : nat)
    (xi : list (list R)) :
  RegularGrid.axes_from self i axes = Ok xi ->
  Forall (fun num => (0 <= num)%Z) axes /\
  map (@List.length R) xi = map Z.to_nat axes /\
  forall j ax, nth_error xi j = Some ax ->
    exists lo hi num,
      RegularGrid.item (RegularGrid.xmins self) (i + j) = Ok lo /\
      RegularGrid.item (RegularGrid.xmaxs self) (i + j) = Ok hi /\
      ax = np.linspace lo hi num.
Proof.
  revert i xi. induction axes as [|num axes IH]; intros i xi; cbn [RegularGrid.axes_from].
  - intros [= <-]. split; [constructor|]. split; [reflexivity|].
    intros [|j] ax; discriminate.
  - destruct (RegularGrid.item (RegularGrid.xmins self) i) as [lo|] eqn:Hlo; [|discriminate].
    destruct (RegularGrid.item (RegularGrid.xmaxs self) i) as [hi|] eqn:Hhi; [|discriminate].
    cbn [bind]. unfold RegularGrid.linspace.
    destruct (Z.ltb_spec num 0) as [|Hnum]; [discriminate|]. cbn [bind].
    destruct (RegularGrid.axes_from self (S i) axes) as [axs|] eqn:Hrest; [|discriminate].
    cbn [bind]. intros [= <-].
    destruct (IH (S i) axs Hrest) as (Hpos & Hlens & Hnth).
    split; [now constructor|]. split.
    + cbn [map]. now rewrite linspace_length, Hlens.
    + intros [|j] ax; cbn [nth_error].
      * intros [= <-]. exists lo, hi, (Z.to_nat num). now rewrite Nat.add_0_r.
      * intros Hj. destruct (Hnth j ax Hj) as (lo' & hi' & num' & H1 & H2 & H3).
        exists lo', hi', num'. now rewrite Nat.add_succ_r.
Qed.

(** Whenever the grid is returned, there is at least one axis and no
    negative count; the array has the leading shape [(n1, ..., nk)], one
    row per combination of samples, [n1 * ... * nk] in all, each of [k]
    entries; and the entry of every row on an axis whose lower bound does
    not exceed its upper bound lies between the two bounds. *)
Theorem regular_grid_lies_in_the_domain
    (self : RegularGrid.t) (axes : list Z) (shape : list nat) (X : np.ndarray) :
  RegularGrid.__call__ self axes = Ok (shape, X) ->
  axes <> [] /\
  Forall (fun num => (0 <= num)%Z) axes /\
  shape = map Z.to_nat axes /\
  np.cols X = List.length axes /\
  List.length (np.rows X) = fold_right Nat.mul 1%nat shape /\
  forall row, In row (np.rows X) ->
    List.length row = List.length axes /\
    forall j lo hi,
      (j < List.length axes)%nat ->
      RegularGrid.item (RegularGrid.xmins self) j = Ok lo ->
      RegularGrid.item (RegularGrid.xmaxs self) j = Ok hi ->
      lo <= hi ->
      lo <= nth j row 0 <= hi.
Proof.
  unfold RegularGrid.__call__.
  destruct (RegularGrid.axes_from self 0 axes) as [xi|] eqn:Hxi; [|discriminate].
  cbn [bind]. destruct (axes_from_spec self axes 0 xi Hxi) as (Hpos & Hlens & Hnth).
  assert (Hk : List.length xi = List.length axes).
  { rewrite <- (length_map (@List.length R) xi), Hlens. apply length_map. }
  intros H. destruct xi as [|ax0 xi']; [discriminate H|].
  injection H as <- <-. set (xi := ax0 :: xi') in *. cbn [np.cols np.rows].
  split; [destruct axes; [discriminate|discriminate]|].
  split; [exact Hpos|]. split; [exact Hlens|]. split; [exact Hk|].
  split; [exact (meshgrid_rows_count xi)|].
  intros row Hrow. apply (meshgrid_row_entries xi) in Hrow.
  split; [rewrite <- Hk; now apply (Forall2_length Hrow)|].
  intros j lo hi Hj Hlo Hhi Hle.
  assert (Hjx : (j < List.length xi)%nat) by lia.
  destruct (nth_error xi j) as [ax|] eqn:Hax; [|apply nth_error_None in Hax; lia].
  destruct (Hnth j ax Hax) as (lo' & hi' & num & H1 & H2 & ->).
  cbn [Nat.add] in H1, H2. rewrite Hlo in H1. rewrite Hhi in H2.
  injection H1 as <-. injection H2 as <-.
  assert (Hin : In (nth j row 0) (np.linspace lo hi num)).
  { clear - Hrow Hax. revert j Hax. induction Hrow as [|x a row xi Hx Hrest IH];
      intros [|j]; cbn; try discriminate.
    - now intros [= <-].
    - apply IH. }
  pose proof (linspace_between lo hi num Hle) as Hall.
  rewrite Forall_forall in Hall. now apply Hall.
Qed.

Lemma regular_grid_lies_in_the_domain_witness :
  exists X,
    RegularGrid.__call__ (RegularGrid.__init__ (Some [0; 0]) (Some [1; 2])) [3; 2]%Z
    = Ok ([3; 2]%nat, X) /\
    List.length (np.rows X) = 6%nat /\
    forall row, In row (np.rows X) -> 0 <= nth 1 row 0 <= 2.
Proof.
  eexists. split; [reflexivity|].
  destruct (regular_grid_lies_in_the_domain
              (RegularGrid.__init__ (Some [0; 0]) (Some [1; 2])) [3; 2]%Z _ _ eq_refl)
    as (_ & _ & _ & _ & Hcount & Hbox).
  split; [exact Hcount|].
  intros row Hrow. destruct (Hbox row Hrow) as [_ H].
  apply (H 1%nat 0 2); [cbn; lia|reflexivity|reflexivity|lra].
Defined.

(** Along the comprehension the first index that fails decides the
    exception: a negative count at an index the bounds still cover is a
    [ValueError], an index past the bounds is an [IndexError]. *)
Lemma axes_from_outcome (self : RegularGrid.t) (lo hi : list R) :
  RegularGrid.xmins self = Some lo ->
  RegularGrid.xmaxs self = Some hi ->
  List.length hi = List.length lo ->
  forall (axes : list Z) (i : nat),
  match RegularGrid.axes_from self i axes with
  | Ok _ =>
      Forall (fun n => (0 <= n)%Z) axes /\
      (List.length axes <= List.length lo - i)%nat
  | Raise e =>
      (e = ValueError /\
       Exists (fun n => (n < 0)%Z) (firstn (List.length lo - i) axes)) \/
      (e = IndexError /\
       Forall (fun n => (0 <= n)%Z) (firstn (List.length lo - i) axes) /\
       (List.length lo - i < List.length axes)%nat)
  end.
Proof.
  intros Hlo Hhi Hlen axes. induction axes as [|num axes IH]; intros i.
  - cbn. split; [constructor|lia].
  - cbn [RegularGrid.axes_from]. unfold RegularGrid.item. rewrite Hlo, Hhi.
    destruct (nth_error lo i) as [l|] eqn:El.
    + assert (Hi : (i < List.length lo)%nat) by (apply nth_error_Some; congruence).
      destruct (nth_error hi i) as [h|] eqn:Eh; [|apply nth_error_None in Eh; lia].
      cbn [bind]. unfold RegularGrid.linspace.
      replace (List.length lo - i)%nat with (S (List.length lo - S i)) by lia.
      cbn [firstn List.length].
      destruct (Z.ltb_spec num 0) as [Hneg|Hpos]; cbn [bind].
      * left. split; [reflexivity|]. now constructor.
      * specialize (IH (S i)).
        destruct (RegularGrid.axes_from self (S i) axes) as [axs|e]; cbn [bind].
        -- destruct IH as [Hall Hk]. split; [now constructor|lia].
        -- destruct IH as [[-> Hex]|(-> & Hall & Hk)].
           ++ left. split; [reflexivity|]. now apply Exists_cons_tl.
           ++ right. split; [reflexivity|]. split; [now constructor|lia].
    + apply nth_error_None in El. right. split; [reflexivity|].
      replace (List.length lo - i)%nat with 0%nat by lia.
      cbn [firstn List.length]. split; [constructor|lia].
Qed.

Lemma negative_among_the_first (k : nat) (axes : list Z) :
  Exists (fun n => (n < 0)%Z) (firstn k axes) ->
  Forall (fun n => (0 <= n)%Z) axes -> False.
Proof.
  intros Hex Hall. apply Exists_exists in Hex as (n & Hin & Hn).
  assert (Hin' : In n axes).
  { rewrite <- (firstn_skipn k axes). apply in_or_app. now left. }
  rewrite Forall_forall in Hall. specialize (Hall n Hin'). lia.
Qed.

(** What the grid refuses.  With no axis there is nothing to stack:
    [ValueError].  With bounds that are still [None] every other call is a
    [TypeError].  With bounds of [d] entries each, the call is a
    [ValueError] exactly when there is no axis or one of the first [d]
    counts is negative, an [IndexError] exactly when none of the first [d]
    counts is negative and there are more than [d] axes, and it returns
    exactly when there are between 1 and [d] axes and no count is
    negative. *)
Theorem regular_grid_refusals (self : RegularGrid.t) (axes : list Z) :
  RegularGrid.__call__ self [] = Raise ValueError /\
  (RegularGrid.xmins self = None -> axes <> [] ->
   RegularGrid.__call__ self axes = Raise TypeError) /\
  (forall lo hi,
     RegularGrid.xmins self = Some lo -> RegularGrid.xmaxs self = Some hi ->
     List.length hi = List.length lo ->
     (RegularGrid.__call__ self axes = Raise ValueError <->
        axes = [] \/ Exists (fun n => (n < 0)%Z) (firstn (List.length lo) axes)) /\
     (RegularGrid.__call__ self axes = Raise IndexError <->
        Forall (fun n => (0 <= n)%Z) (firstn (List.length lo) axes) /\
        (List.length lo < List.length axes)%nat) /\
     (returns (RegularGrid.__call__ self axes) = true <->
        axes <> [] /\ Forall (fun n => (0 <= n)%Z) axes /\
        (List.length axes <= List.length lo)%nat)).
Proof.
  split; [reflexivity|]. split.
  - intros H Hne. destruct axes as [|num axes]; [contradiction|].
    unfold RegularGrid.__call__. cbn [RegularGrid.axes_from]. now rewrite H.
  - intros lo hi Hlo Hhi Hlen.
    pose proof (axes_from_outcome self lo hi Hlo Hhi Hlen axes 0) as Hout.
    rewrite Nat.sub_0_r in Hout. unfold RegularGrid.__call__.
    destruct (RegularGrid.axes_from self 0 axes) as [xi|e] eqn:Hxi; cbn [bind].
    + destruct Hout as [Hall Hk].
      destruct (axes_from_spec self axes 0 xi Hxi) as (_ & Hlens & _).
      assert (Hsame : List.length xi = List.length axes).
      { rewrite <- (length_map (@List.length R) xi), Hlens. apply length_map. }
      destruct xi as [|ax xi].
      * destruct axes; [|discriminate]. cbn.
        split; [|split].
        -- split; [now left|reflexivity].
        -- split; [discriminate|cbn; lia].
        -- split; [discriminate|]. now intros [? _].
      * destruct axes as [|num axes]; [discriminate|]. cbn [returns].
        split; [|split].
        -- split; [discriminate|]. intros [|Hex]; [discriminate|].
           now destruct (negative_among_the_first _ _ Hex Hall).
        -- split; [discriminate|]. intros [_ Hgt]. lia.
        -- split; [|reflexivity]. intros _. split; [discriminate|]. now split.
    + cbn [returns]. destruct Hout as [[-> Hex]|(-> & Hall & Hk)].
      * split; [|split].
        -- split; [now right|reflexivity].
        -- split; [discriminate|]. intros [Hall _]. exfalso.
           apply Exists_exists in Hex as (n & Hin & Hn). rewrite Forall_forall in Hall.
           specialize (Hall n Hin). lia.
        -- split; [discriminate|]. intros (_ & Hall & _).
           now destruct (negative_among_the_first _ _ Hex Hall).
      * split; [|split].
        -- split; [discriminate|]. intros [->|Hex]; [cbn in Hk; lia|]. exfalso.
           apply Exists_exists in Hex as (n & Hin & Hn). rewrite Forall_forall in Hall.
           specialize (Hall n Hin). lia.
        -- split; [now intros _|reflexivity].
        -- split; [discriminate|]. intros (_ & _ & Hle). lia.
Qed.

End RegularGridFacts.

Lemma regular_grid_refusals_witness :
  misc.RegularGrid.__call__
    (misc.RegularGrid.__init__ (Some [0; 0]%R) (Some [1; 2]%R)) [3; -1]%Z
  = Raise ValueError /\
  misc.RegularGrid.__call__
    (misc.RegularGrid.__init__ (Some [0]%R) (Some [1]%R)) [3; -1]%Z
  = Raise IndexError /\
  misc.RegularGrid.__call__
    (misc.RegularGrid.__init__ (Some [0; 0]%R) (Some [1; 2]%R)) [3; 2; 4]%Z
  = Raise IndexError /\
  misc.RegularGrid.__call__
    (misc.RegularGrid.__init__ None None) [3; 2]%Z = Raise TypeError.
Proof.
  split; [|split; [|split]].
  - destruct (regular_grid_refusals
                (misc.RegularGrid.__init__ (Some [0; 0]%R) (Some [1; 2]%R))
                [3; -1]%Z) as (_ & _ & H).
    apply (H [0; 0]%R [1; 2]%R eq_refl eq_refl eq_refl).
    right. cbn. apply Exists_cons_tl, Exists_cons_hd. lia.
  - destruct (regular_grid_refusals
                (misc.RegularGrid.__init__ (Some [0]%R) (Some [1]%R))
                [3; -1]%Z) as (_ & _ & H).
    apply (H [0]%R [1]%R eq_refl eq_refl eq_refl).
    cbn. split; [repeat constructor; lia|lia].
  - destruct (regular_grid_refusals
                (misc.RegularGrid.__init__ (Some [0; 0]%R) (Some [1; 2]%R))
                [3; 2; 4]%Z) as (_ & _ & H).
    apply (H [0; 0]%R [1; 2]%R eq_refl eq_refl eq_refl).
    cbn. split; [repeat constructor; lia|lia].
  - destruct (regular_grid_refusals (misc.RegularGrid.__init__ None None)
                [3; 2]%Z) as (_ & H & _).
    apply H; [reflexivity|discriminate].
Defined.

(** ** The grid interpolator: derived fields and a field assigned later *)

Section StaleFieldFacts.

Import misc.

Context {array points values kwargs rgi scalar : Type}.
Variable lib : Interpolator.Library array points values kwargs rgi scalar.

Local Abbreviation world := (Interpolator.world array rgi scalar).
Local Abbreviation gradient := (Interpolator.gradient lib).
Local Abbreviation laplacian := (Interpolator.laplacian lib).
Local Abbreviation step := (Interpolator.step lib).

(** Once the gradient interpolator exists, no gradient or Laplacian query
    reads the attribute [F]: with another array assigned to [F], a query
    returns what it would have returned and leaves the memory and the
    instance as it would have left them.  In particular a Laplacian first
    queried after such an assignment is built from the gradient of the
    field that was there when the gradient was built. *)
Theorem derived_queries_do_not_read_F
    (w : world) (f : rgi) (F' : Interpolator.ref) (X : points) (kw : kwargs) :
  Interpolator.dFunc (Interpolator.this w) = Some f ->
  gradient X kw (step w (Interpolator.AssignF F'))
  = (step (fst (gradient X kw w)) (Interpolator.AssignF F'), snd (gradient X kw w)) /\
  laplacian X kw (step w (Interpolator.AssignF F'))
  = (step (fst (laplacian X kw w)) (Interpolator.AssignF F'), snd (laplacian X kw w)).
Proof.
  destruct w as [m [dm F0 dF0 LF ax Fn [f'|] [g|] lo hi mn mx]]; cbn;
    try discriminate; intros _; split;
    unfold Interpolator.gradient, Interpolator.laplacian, Interpolator.build_dFunc,
      Interpolator.build_LFunc, Interpolator.call_attr, Interpolator.self,
      Interpolator.arrays, Interpolator.assign, Interpolator.new,
      mbind, when, get, modify, lift, ret, is_None; cbn;
    repeat match goal with
           | |- context [match ?r with Ok _ => _ | Raise _ => _ end] =>
               destruct r; cbn
           end; reflexivity.
Qed.

End StaleFieldFacts.

Lemma derived_queries_do_not_read_F_witness :
  snd (misc.Interpolator.laplacian Instances.numpy [[1; 1]]%Q None
         (misc.Interpolator.step Instances.numpy
            (fst (misc.Interpolator.gradient Instances.numpy [[1; 1]]%Q None
                    Instances.paraboloid))
            (misc.Interpolator.AssignF 1%nat)))
  = Ok [[2]]%Q.
Proof.
  exact (f_equal snd
           (proj2 (derived_queries_do_not_read_F Instances.numpy
                     (fst (misc.Interpolator.gradient Instances.numpy [[1; 1]]%Q None
                             Instances.paraboloid))
                     _ 1%nat [[1; 1]]%Q None eq_refl))).
Defined.

(** ** The loader of the Marmousi model *)

Section MarmousiFacts.

Import misc.
Local Open Scope R_scope.

Context {array points values kwargs rgi scalar : Type}.
Variable lib : Interpolator.Library array points values kwargs rgi scalar.
Variable no_kwargs : kwargs.
Variable as_field : np.ndarray -> array.
Variable as_axis : list R -> array.
Variable gaussian_filter : np.ndarray -> R -> np.ndarray.
Variable data : np.ndarray.

Hypothesis filter_keeps_shape :
  forall V sigma, Marmousi.shape (gaussian_filter V sigma) = Marmousi.shape V.

Local Abbreviation Marmousi :=
  (Marmousi.Marmousi lib no_kwargs as_field as_axis gaussian_filter data).
Local Abbreviation MarmousiSmoothedPart :=
  (Marmousi.MarmousiSmoothedPart lib no_kwargs as_field as_axis gaussian_filter data).
Local Abbreviation field := (Marmousi.field gaussian_filter data).

Lemma nth_map_seq {A : Type} (f : nat -> A) (n start i : nat) (d : A) :
  (i < n)%nat -> nth i (map f (seq start n)) d = f (start + i)%nat.
Proof.
  revert start i. induction n as [|n IH]; intros start [|i] Hi; try lia; cbn [seq map nth].
  - now rewrite Nat.add_0_r.
  - rewrite IH by lia. f_equal. lia.
Qed.

(** The nodes of [np.linspace(0, hi, n)] for [n >= 2]. *)
Lemma linspace_node (hi : R) (n i : nat) :
  (2 <= n)%nat -> (i < n)%nat ->
  nth i (np.linspace 0 hi n) 0 = INR i * (hi / INR (n - 1)).
Proof.
  intros Hn Hi. destruct n as [|[|k]]; try lia. cbn [np.linspace].
  replace (S (S k) - 1)%nat with (S k) by lia.
  rewrite nth_map_seq by exact Hi. cbn [Nat.add].
  rewrite Rminus_0_r. ring.
Qed.

(** A slice from 0 to past the end is the whole list. *)
Lemma slice_whole {A : Type} (l : list A) :
  np.slice (Some 0%Z) (Some (Z.of_nat (List.length l) + 1)%Z) l = l.
Proof.
  unfold np.slice, np.slice_index.
  destruct (Z.ltb_spec 0 0); [lia|].
  destruct (Z.ltb_spec (Z.of_nat (List.length l) + 1) 0); [lia|].
  rewrite (Z.min_l 0) by lia. rewrite Z.min_r by lia.
  replace (Z.to_nat 0) with 0%nat by lia. cbn [skipn].
  replace (Z.to_nat (Z.of_nat (List.length l) - 0)) with (List.length l) by lia.
  apply firstn_all.
Qed.

Lemma slice_whole_length {A : Type} (l : list A) (n : nat) :
  n = List.length l ->
  List.length (np.slice (Some 0%Z) (Some (Z.of_nat n + 1)%Z) l) = n.
Proof. intros ->. now rewrite slice_whole. Qed.

Lemma slice_inside {A : Type} (a b : Z) (l : list A) :
  (0 <= a <= b)%Z -> (b <= Z.of_nat (List.length l))%Z ->
  List.length (np.slice (Some a) (Some b) l) = Z.to_nat (b - a).
Proof.
  intros Hab Hb. unfold np.slice, np.slice_index.
  destruct (Z.ltb_spec a 0); [lia|]. destruct (Z.ltb_spec b 0); [lia|].
  rewrite !Z.min_l by lia. rewrite length_firstn, length_skipn. lia.
Qed.

(** Entry [k] of a slice [a : b] is entry [a + k] of the list, and the
    slice has [b - a] entries when it lies inside the list. *)
Lemma slice_nth {A : Type} (a b k : nat) (l : list A) (d : A) :
  (k < b - a)%nat ->
  nth k (np.slice (Some (Z.of_nat a)) (Some (Z.of_nat b)) l) d = nth (a + k) l d.
Proof.
  intros Hk. unfold np.slice, np.slice_index.
  destruct (Z.ltb_spec (Z.of_nat a) 0); [lia|].
  destruct (Z.ltb_spec (Z.of_nat b) 0); [lia|].
  destruct (Nat.le_gt_cases (List.length l) (a + k)) as [Hout|Hin].
  - rewrite (nth_overflow l) by exact Hout. apply nth_overflow.
    rewrite length_firstn, length_skipn. lia.
  - rewrite (Z.min_l (Z.of_nat a)) by lia. rewrite Nat2Z.id.
    rewrite nth_firstn.
    destruct (Nat.ltb_spec k (Z.to_nat (Z.min (Z.of_nat b) (Z.of_nat (List.length l))
                                        - Z.of_nat a))); [|lia].
    apply nth_skipn.
Qed.

Lemma slice_count {A : Type} (a b : nat) (l : list A) :
  List.length (np.slice (Some (Z.of_nat a)) (Some (Z.of_nat b)) l)
  = (Nat.min b (List.length l) - Nat.min a (List.length l))%nat.
Proof.
  unfold np.slice, np.slice_index.
  destruct (Z.ltb_spec (Z.of_nat a) 0); [lia|].
  destruct (Z.ltb_spec (Z.of_nat b) 0); [lia|].
  rewrite length_firstn, length_skipn.
  rewrite <- !Nat2Z.inj_min, Z2Nat.inj_sub, !Nat2Z.id by lia.
  generalize (List.length l). intros n. clear. lia.
Qed.

Lemma nth_map_default {A B : Type} (g : A -> B) (l : list A) (n : nat) (d : A) (d' : B) :
  g d = d' -> nth n (map g l) d' = g (nth n l d).
Proof. intros <-. apply map_nth. Qed.

(** What the loader hands to the interpolator it returns: three new
    arrays, the field and the two axes. *)
Lemma Marmousi_returns (smooth : option R)
    (section : option (option (Z * Z) * option (Z * Z)))
    (m m' : Interpolator.memory array) (vel : Interpolator.t rgi scalar) :
  Marmousi smooth section m = (m', Ok vel) ->
  m' = (m ++ [as_field (field smooth section);
              as_axis (np.linspace 0
                         (0.0125 * INR (fst (Marmousi.shape (field smooth section))))
                         (fst (Marmousi.shape (field smooth section))));
              as_axis (np.linspace 0
                         (0.0125 * INR (snd (Marmousi.shape (field smooth section))))
                         (snd (Marmousi.shape (field smooth section))))])%list /\
  Interpolator.F vel = List.length m /\
  Interpolator.axes vel = [S (List.length m); S (S (List.length m))] /\
  Interpolator.dFunc vel = None /\ Interpolator.LFunc vel = None.
Proof.
  unfold Marmousi.Marmousi, Marmousi.new, Interpolator.allocate, Interpolator.__init__,
    mbind, get, lift.
  destruct (Marmousi.shape (field smooth section)) as [nx' nz'] eqn:Hshape.
  cbn [fst snd]. rewrite !length_app. cbn [List.length].
  rewrite <- !app_assoc. cbn [app].
  destruct (Interpolator.RegularGridInterpolator _ _ _ _ _) as [f|];
    [|discriminate].
  cbn [bind].
  destruct (Interpolator.traverse (Interpolator.amin _ _) _) as [lo|];
    [|discriminate]. cbn [bind].
  destruct (Interpolator.traverse (Interpolator.amax _ _) _) as [hi|];
    [|discriminate]. cbn [bind].
  destruct (Interpolator.amin _ _ _) as [mn|]; [|discriminate]. cbn [bind].
  destruct (Interpolator.amax _ _ _) as [mx|]; [|discriminate]. cbn [bind].
  intros [= <- <-]. cbn. rewrite !Nat.add_1_r. repeat split.
Qed.

(** The entries of the field before smoothing, without a section and with
    one: the rows [a : b] and the columns [c0 : c1] of the data, divided by
    1000.  A range that is [None] is the whole axis. *)
Lemma field_entries :
  np.rows (field None None) = map (map (fun v => v / 1000)) (np.rows data) /\
  np.cols (field None None) = np.cols data /\
  forall (s0 s1 : option (Z * Z)) (a b c0 c1 : nat),
    (s0 = None /\ a = 0%nat /\ b = List.length (np.rows data) \/
     s0 = Some (Z.of_nat a, Z.of_nat b) /\
     (a <= b <= List.length (np.rows data))%nat) ->
    (s1 = None /\ c0 = 0%nat /\ c1 = np.cols data \/
     s1 = Some (Z.of_nat c0, Z.of_nat c1) /\ (c0 <= c1 <= np.cols data)%nat) ->
    Marmousi.shape (field None (Some (s0, s1))) = ((b - a)%nat, (c1 - c0)%nat) /\
    forall r c, (r < b - a)%nat -> (c < c1 - c0)%nat ->
      nth c (nth r (np.rows (field None (Some (s0, s1)))) []) 0
      = nth (c0 + c) (nth (a + r) (np.rows data) []) 0 / 1000.
Proof.
  split; [reflexivity|]. split; [reflexivity|].
  intros s0 s1 a b c0 c1 Hrows Hcols.
  unfold Marmousi.field. cbv zeta.
  unfold Marmousi.window, Marmousi.shape. cbn [np.rows np.cols fst snd].
  rewrite !length_map.
  set (n := List.length (np.rows data)) in *.
  set (k := np.cols data) in *.
  assert (Hi : exists b', (b - a <= b' - a)%nat /\
             (match s0 with None => (0, Z.of_nat n + 1) | Some i => i end)%Z
             = (Z.of_nat a, Z.of_nat b') /\
             (Nat.min b' n - Nat.min a n = b - a)%nat).
  { destruct Hrows as [(-> & -> & ->)|(-> & Hab)].
    - exists (S n). repeat split; [lia| |lia]. f_equal. lia.
    - exists b. repeat split; lia. }
  assert (Hj : exists c1', (c1 - c0 <= c1' - c0)%nat /\
             (match s1 with None => (0, Z.of_nat k + 1) | Some j => j end)%Z
             = (Z.of_nat c0, Z.of_nat c1') /\
             (Nat.min c1' k - Nat.min c0 k = c1 - c0)%nat).
  { destruct Hcols as [(-> & -> & ->)|(-> & Hab)].
    - exists (S k). repeat split; [lia| |lia]. f_equal. lia.
    - exists c1. repeat split; lia. }
  destruct Hi as (b' & Hb' & -> & Hlen). destruct Hj as (c1' & Hc1' & -> & Hwid).
  cbn [fst snd]. split.
  - rewrite !slice_count, length_map, repeat_length. fold n. now rewrite Hlen, Hwid.
  - intros r c Hr Hc.
    rewrite (nth_map_default
               (np.slice (Some (Z.of_nat c0)) (Some (Z.of_nat c1'))) _ r [] [])
      by (unfold np.slice; now rewrite skipn_nil, firstn_nil).
    rewrite slice_nth by lia. rewrite slice_nth by lia.
    rewrite (nth_map_default (map (fun v => v / 1000)) _ (a + r) [] []) by reflexivity.
    apply (nth_map_default (fun v => v / 1000) _ (c0 + c) 0 0). lra.
Qed.

(** Whenever the loader returns an interpolator, it has made three new
    arrays, which the interpolator holds: the field, which is the data
    divided by 1000, cut to the section and then smoothed, each when asked
    for, of some shape [(nx, nz)], and two axes of [nx] and [nz] samples from
    0 to [0.0125 * nx] and to [0.0125 * nz].  So for [nx >= 2] node [i] of
    the first axis lies at [i * 0.0125 * nx / (nx - 1)]: the spacing of the
    nodes is [0.0125 * nx / (nx - 1)], not [0.0125]. *)
Theorem Marmousi_axes (smooth : option R)
    (section : option (option (Z * Z) * option (Z * Z)))
    (m m' : Interpolator.memory array) (vel : Interpolator.t rgi scalar) :
  Marmousi smooth section m = (m', Ok vel) ->
  let nx := fst (Marmousi.shape (field smooth section)) in
  let nz := snd (Marmousi.shape (field smooth section)) in
  (m' = (m ++ [as_field (field smooth section);
               as_axis (np.linspace 0 (0.0125 * INR nx) nx);
               as_axis (np.linspace 0 (0.0125 * INR nz) nz)])%list /\
   Interpolator.F vel = List.length m /\
   Interpolator.axes vel = [S (List.length m); S (S (List.length m))] /\
   Interpolator.dFunc vel = None /\ Interpolator.LFunc vel = None) /\
  (forall i, (2 <= nx)%nat -> (i < nx)%nat ->
     nth i (np.linspace 0 (0.0125 * INR nx) nx) 0
     = INR i * (0.0125 * INR nx / INR (nx - 1))) /\
  field smooth section
  = match smooth with
    | Some sigma => gaussian_filter (field None section) sigma
    | None => field None section
    end /\
  np.rows (field None None) = map (map (fun v => v / 1000)) (np.rows data) /\
  np.cols (field None None) = np.cols data /\
  (forall (s0 s1 : option (Z * Z)) (a b c0 c1 : nat),
     (s0 = None /\ a = 0%nat /\ b = List.length (np.rows data) \/
      s0 = Some (Z.of_nat a, Z.of_nat b) /\
      (a <= b <= List.length (np.rows data))%nat) ->
     (s1 = None /\ c0 = 0%nat /\ c1 = np.cols data \/
      s1 = Some (Z.of_nat c0, Z.of_nat c1) /\ (c0 <= c1 <= np.cols data)%nat) ->
     Marmousi.shape (field None (Some (s0, s1))) = ((b - a)%nat, (c1 - c0)%nat) /\
     forall r c, (r < b - a)%nat -> (c < c1 - c0)%nat ->
       nth c (nth r (np.rows (field None (Some (s0, s1)))) []) 0
       = nth (c0 + c) (nth (a + r) (np.rows data) []) 0 / 1000).
Proof.
  intros H nx nz. split; [exact (Marmousi_returns _ _ _ _ _ H)|].
  split; [intros i Hn Hi; now apply linspace_node|].
  split; [destruct smooth; reflexivity|]. exact field_entries.
Qed.

(** The shape of the field: that of the data without a section; with the
    rows [a : b] inside the data and no range of columns, [b - a] rows and
    every column. *)
Lemma field_shape (smooth : option R) :
  Marmousi.shape (field smooth None) = Marmousi.shape data /\
  (forall a b, (0 <= a <= b)%Z -> (b <= Z.of_nat (List.length (np.rows data)))%Z ->
     Marmousi.shape (field smooth (Some (Some (a, b), None)))
     = (Z.to_nat (b - a), np.cols data)).
Proof.
  split.
  - unfold Marmousi.field. destruct smooth; rewrite ?filter_keeps_shape;
      unfold Marmousi.shape; cbn [np.rows np.cols]; now rewrite length_map.
  - intros a b Hab Hb. unfold Marmousi.field. cbv zeta.
    destruct smooth; rewrite ?filter_keeps_shape;
      unfold Marmousi.window, Marmousi.shape; cbn [np.rows np.cols fst snd];
      rewrite length_map, slice_inside by (rewrite ?length_map; lia);
      (f_equal; apply slice_whole_length; now rewrite repeat_length).
Qed.

(** On data of at least 900 rows, whenever the preset returns an
    interpolator its field has 300 rows and every column of the data, and
    its axes are two new arrays: 300 samples from 0 to 3.75, and as many
    samples as the data has columns. *)
Theorem MarmousiSmoothedPart_axes
    (m m' : Interpolator.memory array) (vel : Interpolator.t rgi scalar) :
  (900 <= List.length (np.rows data))%nat ->
  MarmousiSmoothedPart m = (m', Ok vel) ->
  Marmousi.shape (field (Some 3) (Some (Some (600, 900)%Z, None)))
  = (300%nat, np.cols data) /\
  map (nth_error m') (Interpolator.axes vel)
  = [Some (as_axis (np.linspace 0 (0.0125 * 300) 300));
     Some (as_axis (np.linspace 0 (0.0125 * INR (np.cols data)) (np.cols data)))].
Proof.
  intros Hrows H. unfold Marmousi.MarmousiSmoothedPart in H.
  destruct (Marmousi_returns _ _ _ _ _ H) as (-> & _ & -> & _).
  destruct (field_shape (Some 3)) as [_ Hs].
  specialize (Hs 600%Z 900%Z ltac:(lia) ltac:(lia)).
  change (Z.to_nat (900 - 600)) with 300%nat in Hs.
  split; [exact Hs|]. rewrite Hs. cbn [fst snd map].
  replace (INR 300) with 300 by (rewrite INR_IZR_INZ; reflexivity).
  rewrite !nth_error_app2 by lia.
  replace (S (List.length m) - List.length m)%nat with 1%nat by lia.
  replace (S (S (List.length m)) - List.length m)%nat with 2%nat by lia.
  reflexivity.
Qed.

End MarmousiFacts.

Lemma Marmousi_axes_witness :
  Instances.Marmousi2 Instances.small_model None (Some (Some (1, 3)%Z, None)) []
  = ([ [[2500 / 1000; 3000 / 1000]; [3500 / 1000; 4000 / 1000]]%R;
       [np.linspace 0 (0.0125 * INR 2) 2];
       [np.linspace 0 (0.0125 * INR 2) 2] ],
     Ok (misc.Interpolator.mk 2%nat 0%nat None None [1; 2]%nat ([1; 2]%nat, 0%nat) None None
           [tt; tt] [tt; tt] tt tt)) /\
  nth 1%nat (nth 0%nat (np.rows (misc.Marmousi.field (fun V _ => V) Instances.small_model None
                           (Some (Some (1, 3)%Z, None)))) []) 0%R
  = (nth 1%nat (nth 1%nat (np.rows Instances.small_model) []) 0 / 1000)%R.
Proof.
  split; [reflexivity|].
  refine (proj2 (proj2 (proj2 (proj2 (proj2 (proj2
            (Marmousi_axes Instances.keeper tt np.rows (fun x => [x])
               (fun V _ => V) Instances.small_model None
               (Some (Some (1, 3)%Z, None)) []
               [ [[2500 / 1000; 3000 / 1000]; [3500 / 1000; 4000 / 1000]]%R;
                 [np.linspace 0 (0.0125 * INR 2) 2];
                 [np.linspace 0 (0.0125 * INR 2) 2] ]
               (misc.Interpolator.mk 2%nat 0%nat None None [1; 2]%nat
                  ([1; 2]%nat, 0%nat) None None [tt; tt] [tt; tt] tt tt)
               eq_refl)))))
            (Some (1, 3)%Z) None 1%nat 3%nat 0%nat 2%nat _ _) 0%nat 1%nat _ _).
  - right. split; [reflexivity|]. cbn. lia.
  - left. repeat split.
  - lia.
  - lia.
Defined.

Lemma MarmousiSmoothedPart_axes_witness :
  map (nth_error
         (fst (misc.Marmousi.MarmousiSmoothedPart Instances.keeper tt np.rows
                 (fun x => [x]) (fun V _ => V) Instances.tall_model [])))
      [1; 2]%nat
  = [Some [np.linspace 0 (0.0125 * 300) 300];
     Some [np.linspace 0 (0.0125 * INR 2) 2]].
Proof.
  refine (proj2 (MarmousiSmoothedPart_axes Instances.keeper tt np.rows (fun x => [x])
                   (fun V _ => V) Instances.tall_model (fun V sigma => eq_refl)
                   [] _
                   (misc.Interpolator.mk 2%nat 0%nat None None [1; 2]%nat ([1; 2]%nat, 0%nat)
                      None None [tt; tt] [tt; tt] tt tt) _ _)).
  - unfold Instances.tall_model. cbn [np.rows]. rewrite repeat_length. lia.
  - reflexivity.
Defined.
